(** * telegram-coin-watcher: the monitoring and detection engine of [bot.py]

    A shallow embedding of the [CoinWatcher] class, the two notification
    managers, [init_db], the users and the handlers of the front end.

    - Python [float] is IEEE 754 binary64: Rocq's primitive [float].
    - The SQLite tables are records of rows; [config] is a finite map. The
      history query sorts by timestamp and keeps rows of one timestamp in the
      order of the table, as the sqlite3 library does.
    - Code that logs, sends, sleeps or raises runs in the monad [M]: a state
      monad over [world] whose result is either a value or a raised exception.
    - f-strings are kept as their template and arguments ([message],
      [log_record]); the rendered text is not modelled.
    - The watcher is one task that awaits each call in turn; the handlers of
      the front end run in a monad of their own, [Handler], over the watcher,
      the users, the awaited inputs and the calls to the Bot API. *)

From Stdlib Require Import ZArith Floats Lia Bool.
From stdpp Require Import base option list sorting strings gmap.

Local Open Scope Z_scope.

(** ** Python numbers *)

Module Py.

(** [float(n)] for a Python [int]: the nearest binary64, ties to even. *)
Definition float_of_int (n : Z) : float :=
  SF2Prim (binary_normalize prec emax n 0 false).

(** [bool(x)] for a float: [x != 0.0]; both zeros are falsy, NaN is truthy. *)
Definition truthy (x : float) : bool := negb (PrimFloat.eqb x PrimFloat.zero).

(** The integer a finite float with no fractional part stands for. *)
Definition integral_value (x : float) : option Z :=
  match Prim2SF x with
  | S754_zero _ => Some 0
  | S754_finite s m e =>
      let v := if s then Z.neg m else Z.pos m in
      if 0 <=? e then Some (v * 2 ^ e)
      else if v mod 2 ^ (- e) =? 0 then Some (v / 2 ^ (- e)) else None
  | S754_infinity _ | S754_nan => None
  end.

(** [n < x] for an [int] and a [float]: Python compares the exact values. *)
Definition int_lt_float (n : Z) (x : float) : bool :=
  match Prim2SF x with
  | S754_zero _ => n <? 0
  | S754_infinity s => negb s
  | S754_nan => false
  | S754_finite s m e =>
      let v := if s then Z.neg m else Z.pos m in
      if 0 <=? e then n <? v * 2 ^ e else n * 2 ^ (- e) <? v
  end.

(** [x >= n] for a [float] and an [int], on the exact values. *)
Definition float_ge_int (x : float) (n : Z) : bool :=
  match Prim2SF x with
  | S754_zero _ => n <=? 0
  | S754_infinity s => negb s
  | S754_nan => false
  | S754_finite s m e =>
      let v := if s then Z.neg m else Z.pos m in
      if 0 <=? e then n <=? v * 2 ^ e else n * 2 ^ (- e) <=? v
  end.

(** A value that is either an [int] or a [float], as [x or 5] produces. *)
Inductive number :=
| Int (n : Z)
| Float (x : float).

(** [x or d]: [x] when it is not [None] and truthy, else the literal [d]. *)
Definition or_default (x : option float) (d : Z) : number :=
  match x with
  | Some v => if truthy v then Float v else Int d
  | None => Int d
  end.

Definition int_lt (n : Z) (k : number) : bool :=
  match k with
  | Int m => n <? m
  | Float x => int_lt_float n x
  end.

Definition float_ge (x : float) (t : number) : bool :=
  match t with
  | Int n => float_ge_int x n
  | Float y => PrimFloat.leb y x
  end.

End Py.

(** ** Exceptions, notifications and log records *)

Inductive exception :=
| ZeroDivisionError
| IndexError
| TypeError
| ValueError
| IntegrityError        (* sqlite3: NOT NULL constraint failed, datatype mismatch *)
| ClientError           (* aiohttp: the request could not be carried out *)
| TimeoutError
| JSONDecodeError       (* response.json(): the body is not JSON *)
| TelegramError.        (* bot.send_message failed *)

(** The text of a notification: which f-string, and its arguments. *)
Inductive message :=
| CoinAddedMsg (coin_id : string) (threshold : float)
| CoinRemovedMsg (coin_id : string)
| PriceIncreaseMsg (coin_id : string) (price_change : float)
| RunMsg (coin_id : string) (total_change : float) (periods : Py.number)
| FetchErrorMsg (e : exception)
| NewsMsg (title url : option string).

(** The text stored in the [config] table: [str(n)] of an [int] or [str(x)]
    of a [float]. *)
Inductive text :=
| str_int (n : Z)
| str_float (x : float).

(** [float(s)] on such a text. [float(str(x)) == x] is the round-trip guarantee
    of Python's float repr. *)
Definition py_float (s : text) : float :=
  match s with
  | str_int n => Py.float_of_int n
  | str_float x => x
  end.

Inductive level := INFO | ERROR.

Inductive log_event :=
| NotificationSent (m : message)
| NotificationFailed (e : exception)
| CoinAdded (coin_id : string) (threshold : float)
| AddCoinFailed (e : exception)
| CoinRemoved (coin_id : string)
| RemoveCoinFailed (e : exception)
| LogPriceFailed (e : exception)
| ConfigUpdated (key : string) (value : text)
| SetConfigFailed (key : string) (e : exception)
| RunDetected (coin_id : string) (total_change : float)
| RunDetectionFailed (coin_id : string) (e : exception)
| NoCoins
| PriceIncreaseDetected (coin_id : string) (price_change : float)
| PriceFetchFailed (e : exception)
| NoCoinsForNews
| NewsFetchFailed (e : exception)
| NewsSent (count : nat).

Definition log_record : Type := level * log_event.

(** ** The database *)

Record coin_row := {
  coin_rowid : Z;
  coin_id : string;
  threshold : float
}.

Record price_row := {
  price_rowid : Z;
  price_coin_id : string;
  timestamp : Z;
  price : float
}.

Record database := {
  coins : list coin_row;           (* in rowid order *)
  coins_seq : Z;                   (* AUTOINCREMENT: the largest rowid handed out *)
  price_history : list price_row;  (* in rowid order *)
  price_history_seq : Z;
  config : gmap string text
}.

Definition set_coins (d : database) (c : list coin_row) (s : Z) : database :=
  {| coins := c; coins_seq := s; price_history := price_history d;
     price_history_seq := price_history_seq d; config := config d |}.

Definition set_price_history (d : database) (p : list price_row) (s : Z) : database :=
  {| coins := coins d; coins_seq := coins_seq d; price_history := p;
     price_history_seq := s; config := config d |}.

Definition set_config_table (d : database) (c : gmap string text) : database :=
  {| coins := coins d; coins_seq := coins_seq d; price_history := price_history d;
     price_history_seq := price_history_seq d; config := c |}.

Definition RUN_THRESHOLD_PERCENT : string := "RUN_THRESHOLD_PERCENT".
Definition RUN_CONSECUTIVE_PERIODS : string := "RUN_CONSECUTIVE_PERIODS".

(** [INSERT OR IGNORE INTO config]: keeps the value of a key already there. *)
Definition insert_or_ignore (k : string) (v : text) (c : gmap string text)
  : gmap string text :=
  match c !! k with
  | Some _ => c
  | None => <[k := v]> c
  end.

(** [init_db] on the database file as found: the tables are kept
    ([CREATE TABLE IF NOT EXISTS]) and the two defaults are added. *)
Definition init_db (d : database) : database :=
  set_config_table d
    (insert_or_ignore RUN_CONSECUTIVE_PERIODS (str_int 5)
       (insert_or_ignore RUN_THRESHOLD_PERCENT (str_int 10) (config d))).

(** The database file before the first start. *)
Definition empty_db : database :=
  {| coins := []; coins_seq := 0; price_history := []; price_history_seq := 0;
     config := ∅ |}.

(** ** The world and the monad *)

Record world := {
  db : database;
  clock : Z;                      (* CURRENT_TIMESTAMP, in seconds *)
  cycle : nat;                    (* iterations of start_watching completed *)
  bot_calls : list message;       (* every bot.send_message call, in order *)
  delivered : list message;       (* the calls that returned *)
  logfile : list log_record;
  pending_tasks : list message;   (* asyncio.create_task(send_notification(..)) *)
  sleeps : list Z                 (* every asyncio.sleep argument, in order *)
}.

Definition with_db (w : world) (d : database) : world :=
  {| db := d; clock := clock w; cycle := cycle w; bot_calls := bot_calls w;
     delivered := delivered w; logfile := logfile w;
     pending_tasks := pending_tasks w; sleeps := sleeps w |}.

Inductive result (A : Type) :=
| Return (a : A)
| Raise (e : exception).
Arguments Return {A} a.
Arguments Raise {A} e.

Definition M (A : Type) : Type := world -> result A * world.

Definition ret {A} (a : A) : M A := fun w => (Return a, w).

Definition raise {A} (e : exception) : M A := fun w => (Raise e, w).

Definition bind {A B} (m : M A) (k : A -> M B) : M B :=
  fun w =>
    match m w with
    | (Return a, w') => k a w'
    | (Raise e, w') => (Raise e, w')
    end.

(** [try: body / except Exception as e: handler e]. *)
Definition try_except {A} (body : M A) (handler : exception -> M A) : M A :=
  fun w =>
    match body w with
    | (Return a, w') => (Return a, w')
    | (Raise e, w') => handler e w'
    end.

Declare Scope py_scope.
Delimit Scope py_scope with py.
Notation "x <- m ;; k" := (bind m (fun x => k))
  (at level 100, m at next level, right associativity) : py_scope.
Notation "m ;; k" := (bind m (fun _ => k))
  (at level 100, right associativity) : py_scope.
Local Open Scope py_scope.

(** [for x in xs: body x]. *)
Fixpoint for_each {A} (xs : list A) (body : A -> M unit) : M unit :=
  match xs with
  | [] => ret tt
  | x :: rest => body x ;; for_each rest body
  end.

Definition get_db : M database := fun w => (Return (db w), w).

Definition put_db (d : database) : M unit := fun w => (Return tt, with_db w d).

Definition logging (l : level) (ev : log_event) : M unit :=
  fun w =>
    (Return tt,
     {| db := db w; clock := clock w; cycle := cycle w; bot_calls := bot_calls w;
        delivered := delivered w; logfile := logfile w ++ [(l, ev)];
        pending_tasks := pending_tasks w; sleeps := sleeps w |}).

Definition create_task (m : message) : M unit :=
  fun w =>
    (Return tt,
     {| db := db w; clock := clock w; cycle := cycle w; bot_calls := bot_calls w;
        delivered := delivered w; logfile := logfile w;
        pending_tasks := pending_tasks w ++ [m]; sleeps := sleeps w |}).

(** [asyncio.sleep(d)]: a non-positive delay returns at once. *)
Definition asyncio_sleep (d : Z) : M unit :=
  fun w =>
    (Return tt,
     {| db := db w; clock := clock w + Z.max 0 d; cycle := cycle w;
        bot_calls := bot_calls w; delivered := delivered w; logfile := logfile w;
        pending_tasks := pending_tasks w; sleeps := sleeps w ++ [d] |}).

(** ** The outside world: data sources and the Telegram bot *)

(** A JSON field that holds a number or [null]. A number is read as a float:
    an integer literal compares as its float, which is exact up to 2^53. *)
Inductive json_number :=
| JNull
| JNumber (x : float).

(** The object the price provider returns for one coin; [None] is a key that
    is not there. *)
Record coin_data := {
  eur : option json_number;
  eur_24h_change : option json_number
}.

(** One entry of the news provider's [results]. *)
Record news_item := {
  title : option string;
  url : option string
}.

Record environment := {
  CHECK_INTERVAL : Z;
  (** the n-th call of [bot.send_message]: [None] when it returns, [Some e]
      when it raises [e] *)
  send_message : nat -> message -> option exception;
  (** cycle n: what [session.get] and [response.json()] give for the prices *)
  price_feed : nat -> exception + gmap string coin_data;
  (** cycle n: the same for the news, down to [data.get('results', [])] *)
  news_feed : nat -> exception + list news_item
}.

(** ** Queries *)

(** [SELECT coin_id, threshold FROM coins]. *)
Definition get_coins (d : database) : list (string * float) :=
  map (fun r => (coin_id r, threshold r)) (coins d).

(** [SELECT value FROM config WHERE key = ?], then [float(result[0])]. *)
Definition get_config (d : database) (key : string) : option float :=
  py_float <$> config d !! key.

(** [ORDER BY timestamp DESC]: no row is older than the row before it. *)
Definition newer_first (a b : price_row) : Prop := timestamp b <= timestamp a.

#[global] Instance newer_first_dec a b : Decision (newer_first a b).
Proof. unfold newer_first. apply _. Defined.

(** The place of a row among rows that are ordered already: behind the rows
    that are strictly newer, before the others. *)
Fixpoint insert_row (r : price_row) (ordered : list price_row)
  : list price_row :=
  match ordered with
  | [] => [r]
  | x :: rest =>
      if decide (timestamp x <= timestamp r) then r :: ordered
      else x :: insert_row r rest
  end.

(** [ORDER BY timestamp DESC] on the rows in the order of the table. SQL
    leaves the order of rows with one timestamp open; the sqlite3 library
    sorts its scan of the table, which goes by rowid, and keeps rows of one
    timestamp in the order of the scan: of the samples of one second the one
    recorded first comes first. *)
Definition order_by_timestamp_desc (rows : list price_row) : list price_row :=
  foldr insert_row [] rows.

(** [SELECT price FROM price_history WHERE coin_id = ? ORDER BY timestamp DESC
    LIMIT ?], before the projection; a negative LIMIT is no limit. *)
Definition recent_samples (d : database) (coin : string) (n : Z) : list price_row :=
  let rows := filter (fun r => price_coin_id r = coin) (price_history d) in
  let ordered := order_by_timestamp_desc rows in
  if n <? 0 then ordered else take (Z.to_nat n) ordered.

Definition recent_prices (d : database) (coin : string) (n : Z) : list float :=
  price <$> recent_samples d coin n.

(** The value bound to [LIMIT ?]: SQLite wants an integer, or a REAL that
    converts to a 64-bit integer without loss; anything else is a datatype
    mismatch, which sqlite3 raises as IntegrityError. *)
Definition sqlite_limit (k : Py.number) : exception + Z :=
  match k with
  | Py.Int n => inr n
  | Py.Float x =>
      match Py.integral_value x with
      | Some n =>
          if (- 2 ^ 63 <? n) && (n <? 2 ^ 63 - 1) then inr n else inl IntegrityError
      | None => inl IntegrityError
      end
  end.

(** ** The classes *)

Section CoinWatcher.

Variable env : environment.

Local Open Scope py_scope.

Definition bot_send_message (m : message) : M unit :=
  fun w =>
    let outcome := send_message env (length (bot_calls w)) m in
    (match outcome with None => Return tt | Some e => Raise e end,
     {| db := db w; clock := clock w; cycle := cycle w;
        bot_calls := bot_calls w ++ [m];
        delivered :=
          match outcome with
          | None => delivered w ++ [m]
          | Some _ => delivered w
          end;
        logfile := logfile w; pending_tasks := pending_tasks w;
        sleeps := sleeps w |}).

(** [NotificationManager.send_notification]; [NewsManager.send_notification]
    is the same code with German log texts. *)
Definition send_notification (m : message) : M unit :=
  try_except
    (bot_send_message m ;;
     logging INFO (NotificationSent m))
    (fun e => logging ERROR (NotificationFailed e)).

(** [NewsManager.send_news_notifications]. *)
Definition send_news_notifications (news_items : list news_item) : M unit :=
  for_each news_items
    (fun item => send_notification (NewsMsg (title item) (url item))).

(** [INSERT OR REPLACE INTO coins (coin_id, threshold)]: the row with this
    [coin_id] goes, a new row with the next rowid comes. A NaN is bound as
    NULL, which the NOT NULL column refuses. *)
Definition insert_or_replace_coin (coin : string) (thr : float) : M unit :=
  d <- get_db ;;
  if PrimFloat.is_nan thr then raise IntegrityError
  else
    put_db
      (set_coins d
         (filter (fun r => coin_id r ≠ coin) (coins d)
            ++ [ {| coin_rowid := coins_seq d + 1; coin_id := coin;
                    threshold := thr |} ])
         (coins_seq d + 1)).

Definition add_coin (coin : string) (thr : float) : M unit :=
  try_except
    (insert_or_replace_coin coin thr ;;
     create_task (CoinAddedMsg coin thr) ;;
     logging INFO (CoinAdded coin thr))
    (fun e => logging ERROR (AddCoinFailed e)).

Definition remove_coin (coin : string) : M unit :=
  try_except
    (d <- get_db ;;
     put_db (set_coins d (filter (fun r => coin_id r ≠ coin) (coins d))
               (coins_seq d)) ;;
     create_task (CoinRemovedMsg coin) ;;
     logging INFO (CoinRemoved coin))
    (fun e => logging ERROR (RemoveCoinFailed e)).

(** [INSERT INTO price_history (coin_id, price)]; the timestamp is
    CURRENT_TIMESTAMP. A NaN is bound as NULL and refused. *)
Definition insert_price (coin : string) (p : float) : M unit :=
  fun w =>
    if PrimFloat.is_nan p then (Raise IntegrityError, w)
    else
      let d := db w in
      (Return tt,
       with_db w
         (set_price_history d
            (price_history d
               ++ [ {| price_rowid := price_history_seq d + 1;
                       price_coin_id := coin; timestamp := clock w;
                       price := p |} ])
            (price_history_seq d + 1))).

Definition log_price (coin : string) (p : float) : M unit :=
  try_except (insert_price coin p)
    (fun e => logging ERROR (LogPriceFailed e)).

(** [UPDATE config SET value = ? WHERE key = ?]: a key that has no row
    stays without one. *)
Definition set_config (key : string) (value : text) : M unit :=
  try_except
    (d <- get_db ;;
     put_db
       (set_config_table d
          (match config d !! key with
           | Some _ => <[key := value]> (config d)
           | None => config d
           end)) ;;
     logging INFO (ConfigUpdated key value))
    (fun e => logging ERROR (SetConfigFailed key e)).

(** [cursor.execute(... LIMIT ?)] and [[row[0] for row in fetchall()]]. *)
Definition select_recent_prices (coin : string) (k : Py.number)
  : M (list float) :=
  d <- get_db ;;
  match sqlite_limit k with
  | inr n => ret (recent_prices d coin n)
  | inl e => raise e
  end.

(** [prices[0]]. *)
Definition first_item (prices : list float) : M float :=
  match head prices with
  | Some x => ret x
  | None => raise IndexError
  end.

(** [prices[-1]]. *)
Definition last_item (prices : list float) : M float :=
  match last prices with
  | Some x => ret x
  | None => raise IndexError
  end.

(** [a / b] on floats: Python raises when [b == 0.0]. *)
Definition truediv (a b : float) : M float :=
  if PrimFloat.eqb b PrimFloat.zero then raise ZeroDivisionError
  else ret (PrimFloat.div a b).

(** [all(x < y for x, y in zip(prices[::-1], prices[::-1][1:]))]. *)
Definition is_run (prices : list float) : bool :=
  forallb (fun xy => PrimFloat.ltb xy.1 xy.2)
    (zip (reverse prices) (tail (reverse prices))).

Definition check_run (coin : string) : M unit :=
  try_except
    (d <- get_db ;;
     let run_consecutive_periods :=
       Py.or_default (get_config d RUN_CONSECUTIVE_PERIODS) 5 in
     let run_threshold_percent :=
       Py.or_default (get_config d RUN_THRESHOLD_PERCENT) 10 in
     prices <- select_recent_prices coin run_consecutive_periods ;;
     if Py.int_lt (Z.of_nat (length prices)) run_consecutive_periods
     then ret tt
     else
       if is_run prices then
         newest <- first_item prices ;;
         oldest <- last_item prices ;;
         ratio <- truediv (PrimFloat.sub newest oldest) oldest ;;
         let total_change := PrimFloat.mul ratio (Py.float_of_int 100) in
         if Py.float_ge total_change run_threshold_percent then
           send_notification
             (RunMsg coin total_change run_consecutive_periods) ;;
           logging INFO (RunDetected coin total_change)
         else ret tt
       else ret tt)
    (fun e => logging ERROR (RunDetectionFailed coin e)).

(** ** The monitor loop *)

(** [if current_price:] on what [coin_data.get("eur")] gave. *)
Definition truthy_price (current_price : option json_number) : option float :=
  match current_price with
  | Some (JNumber x) => if Py.truthy x then Some x else None
  | Some JNull | None => None
  end.

(** [price_change >= threshold]; [None >= threshold] is a TypeError. *)
Definition change_ge (price_change : json_number) (thr : float) : M bool :=
  match price_change with
  | JNumber c => ret (PrimFloat.leb thr c)
  | JNull => raise TypeError
  end.

(** [f"{price_change:.2f}"] formats a number only. *)
Definition change_value (price_change : json_number) : M float :=
  match price_change with
  | JNumber c => ret c
  | JNull => raise TypeError
  end.

(** The threshold rule of the loop body: lines 243 to 246. *)
Definition threshold_alert (coin : string) (price_change : json_number)
    (thr : float) : M unit :=
  triggered <- change_ge price_change thr ;;
  if triggered then
    c <- change_value price_change ;;
    send_notification (PriceIncreaseMsg coin c) ;;
    logging INFO (PriceIncreaseDetected coin c)
  else ret tt.

(** The body of [for coin_id, threshold in coins]. *)
Definition watch_coin (response_json : gmap string coin_data)
    (entry : string * float) : M unit :=
  let '(coin, thr) := entry in
  match response_json !! coin with
  | Some coin_data =>
      match eur_24h_change coin_data with
      | Some price_change =>
          match truthy_price (eur coin_data) with
          | Some current_price => log_price coin current_price
          | None => ret tt
          end ;;
          threshold_alert coin price_change thr ;;
          check_run coin
      | None => ret tt
      end
  | None => ret tt
  end.

(** [session.get(...)] and [response.json()] of the current cycle. *)
Definition fetch_prices : M (gmap string coin_data) :=
  fun w =>
    match price_feed env (cycle w) with
    | inr response_json => (Return response_json, w)
    | inl e => (Raise e, w)
    end.

(** [aiohttp.ClientSession()] opens no connection; entering and leaving it
    is not modelled. *)
Definition check_price_increase_async : M unit :=
  d <- get_db ;;
  let coins := get_coins d in
  match coins with
  | [] => logging INFO NoCoins
  | _ :: _ =>
      try_except
        (response_json <- fetch_prices ;;
         for_each coins (watch_coin response_json))
        (fun e =>
           logging ERROR (PriceFetchFailed e) ;;
           send_notification (FetchErrorMsg e))
  end.

(** [NewsManager.fetch_latest_news]. *)
Definition fetch_latest_news : M (list news_item) :=
  try_except
    (fun w =>
       match news_feed env (cycle w) with
       | inr results => (Return results, w)
       | inl e => (Raise e, w)
       end)
    (fun e => logging ERROR (NewsFetchFailed e) ;; ret []).

Definition check_news_async : M unit :=
  d <- get_db ;;
  match get_coins d with
  | [] => logging INFO NoCoinsForNews
  | _ :: _ =>
      news_items <- fetch_latest_news ;;
      match news_items with
      | [] => ret tt
      | _ :: _ =>
          send_news_notifications news_items ;;
          logging INFO (NewsSent (length news_items))
      end
  end.

(** The loop of [start_watching] went round once more. *)
Definition next_iteration : M unit :=
  fun w =>
    (Return tt,
     {| db := db w; clock := clock w; cycle := S (cycle w);
        bot_calls := bot_calls w; delivered := delivered w;
        logfile := logfile w; pending_tasks := pending_tasks w;
        sleeps := sleeps w |}).

(** One iteration of [while True]. *)
Definition watch_cycle : M unit :=
  check_price_increase_async ;;
  check_news_async ;;
  asyncio_sleep (CHECK_INTERVAL env) ;;
  next_iteration.

(** [start_watching], cut after [n] iterations of its endless loop. *)
Fixpoint start_watching (n : nat) : M unit :=
  match n with
  | O => ret tt
  | S n' => watch_cycle ;; start_watching n'
  end.

(** ** The configuration boundary: [text_handler] *)

(** The branch of [text_handler] taken for an admin when [awaiting_input]
    is ['set_run_periods']. [parsed] is what [int(text.strip())] gave,
    [None] when it raised ValueError. The result says whether the value was
    accepted (the confirmation was sent) or refused (the error reply). *)
Definition text_handler_set_run_periods (parsed : option Z) : M bool :=
  try_except
    (periods <- match parsed with
                | Some n => ret n
                | None => raise ValueError
                end ;;
     (if periods <=? 0 then raise ValueError else ret tt) ;;
     set_config RUN_CONSECUTIVE_PERIODS (str_int periods) ;;
     ret true)
    (fun e =>
       match e with
       | ValueError => ret false
       | _ => raise e
       end).

(** The branch for ['set_run_threshold']; [parsed] is what
    [float(text.strip())] gave. *)
Definition text_handler_set_run_threshold (parsed : option float) : M bool :=
  try_except
    (thr <- match parsed with
            | Some x => ret x
            | None => raise ValueError
            end ;;
     (if PrimFloat.leb thr PrimFloat.zero then raise ValueError else ret tt) ;;
     set_config RUN_THRESHOLD_PERCENT (str_float thr) ;;
     ret true)
    (fun e =>
       match e with
       | ValueError => ret false
       | _ => raise e
       end).

End CoinWatcher.

(** ** The users and the handlers *)

(** The text of a reply: which literal or f-string, and its arguments. A
    keyboard is the list of the [callback_data] of its buttons. *)
Inductive reply :=
| WelcomeText (keyboard : list string)
| NoPermissionText
| AskAddCoinText
| AskRemoveCoinText
| AskRunThresholdText
| AskRunPeriodsText
| AskBroadcastText
| RunConfigText (keyboard : list string)
| CoinWatchedText (coin_id : string) (threshold : float)
| BadFormatText
| CoinRemovedText (coin_id : string)
| RemoveFailedText (e : exception)
| RunThresholdSetText (threshold : float)
| InvalidThresholdText
| RunPeriodsSetText (periods : Z)
| InvalidPeriodsText
| NoRecipientsText
| BroadcastSentText
| BroadcastFailedText (e : exception)
| UseStartText
| CoinListText (coins : list (string * float))
| NoCoinsText.

(** A call of a handler to the Bot API. *)
Inductive api_call :=
| Answer                                        (* query.answer() *)
| EditMessageText (t : reply)                   (* query.edit_message_text *)
| ReplyText (t : reply)                         (* message.reply_text *)
| SendMessage (chat_id : string) (t : string).  (* bot.send_message, broadcast *)

(** What the handlers work on: the watcher with its database, the [users]
    table (user_id and is_admin of each row, in rowid order; the id column is
    never read), [context.user_data['awaiting_input']] of each user (no entry
    for [None]), the calls to the Bot API, and the errors the broadcast
    logged. *)
Record session := {
  watcher : world;
  users : list (string * Z);
  user_data : gmap string string;
  api_calls : list api_call;
  broadcast_errors : list (string * exception)
}.

Definition set_watcher (s : session) (w : world) : session :=
  {| watcher := w; users := users s; user_data := user_data s;
     api_calls := api_calls s; broadcast_errors := broadcast_errors s |}.

Definition set_users (s : session) (us : list (string * Z)) : session :=
  {| watcher := watcher s; users := us; user_data := user_data s;
     api_calls := api_calls s; broadcast_errors := broadcast_errors s |}.

Definition set_user_data (s : session) (d : gmap string string) : session :=
  {| watcher := watcher s; users := users s; user_data := d;
     api_calls := api_calls s; broadcast_errors := broadcast_errors s |}.

(** An incoming text message and a pressed button. [effective_user] is the
    user whose [user_data] the handler sees. *)
Record message_update := {
  effective_chat : string;
  effective_user : string;
  message_text : string
}.

Record callback_query := {
  from_user : string;
  data : string
}.

(** The process environment and the library functions the handlers call:
    the n-th call to the Bot API returns or raises, [str.strip],
    [str.lower], [float(s)] and [int(s)] with [None] for a ValueError. *)
Record client := {
  ADMIN_CHAT_ID : option string;
  telegram : nat -> api_call -> option exception;
  str_strip : string -> string;
  str_lower : string -> string;
  parse_float : string -> option float;
  parse_int : string -> option Z
}.

(** [s.split(',')]. *)
Fixpoint split_comma (s : string) : list string :=
  match s with
  | EmptyString => [EmptyString]
  | String a rest =>
      if decide (String a EmptyString = ",") then
        EmptyString :: split_comma rest
      else
        match split_comma rest with
        | part :: parts => String a part :: parts
        | [] => [String a EmptyString]
        end
  end.

(** [INSERT OR IGNORE INTO users (user_id, is_admin)]: a NULL user_id and a
    user_id that has a row are both ignored. *)
Definition insert_user_or_ignore (user_id : option string) (flag : Z)
    (us : list (string * Z)) : list (string * Z) :=
  match user_id with
  | None => us
  | Some u => if decide (u ∈ us.*1) then us else us ++ [(u, flag)]
  end.

(** [SELECT is_admin FROM users WHERE user_id = ?], [fetchone], [== 1]. *)
Definition is_admin (us : list (string * Z)) (user_id : string) : bool :=
  match filter (fun r : string * Z => r.1 = user_id) us with
  | r :: _ => r.2 =? 1
  | [] => false
  end.

(** The handlers run in a state and exception monad of their own. *)
Definition Handler (A : Type) : Type := session -> result A * session.

Definition hret {A} (a : A) : Handler A := fun s => (Return a, s).

Definition hraise {A} (e : exception) : Handler A := fun s => (Raise e, s).

Definition hbind {A B} (m : Handler A) (k : A -> Handler B) : Handler B :=
  fun s =>
    match m s with
    | (Return a, s') => k a s'
    | (Raise e, s') => (Raise e, s')
    end.

Definition htry {A} (body : Handler A) (handler : exception -> Handler A)
  : Handler A :=
  fun s =>
    match body s with
    | (Return a, s') => (Return a, s')
    | (Raise e, s') => handler e s'
    end.

(** [try: body / finally: cleanup], for a cleanup that cannot fail. *)
Definition hfinally {A} (body : Handler A) (cleanup : session -> session)
  : Handler A :=
  fun s => let '(r, s') := body s in (r, cleanup s').

Declare Scope handler_scope.
Delimit Scope handler_scope with handler.
Notation "x <- m ;; k" := (hbind m (fun x => k))
  (at level 100, m at next level, right associativity) : handler_scope.
Notation "m ;; k" := (hbind m (fun _ => k))
  (at level 100, right associativity) : handler_scope.

Section Handlers.

Variable cl : client.

Local Open Scope handler_scope.

Fixpoint hfor_each {A} (xs : list A) (body : A -> Handler unit)
  : Handler unit :=
  match xs with
  | [] => hret tt
  | x :: rest => body x ;; hfor_each rest body
  end.

(** A method of [context.application.watcher]. *)
Definition on_watcher {A} (m : M A) : Handler A :=
  fun s => let '(r, w) := m (watcher s) in (r, set_watcher s w).

Definition api (c : api_call) : Handler unit :=
  fun s =>
    (match telegram cl (length (api_calls s)) c with
     | None => Return tt
     | Some e => Raise e
     end,
     {| watcher := watcher s; users := users s; user_data := user_data s;
        api_calls := api_calls s ++ [c];
        broadcast_errors := broadcast_errors s |}).

(** The last statement of [init_db]. *)
Definition init_users (us : list (string * Z)) : list (string * Z) :=
  insert_user_or_ignore (ADMIN_CHAT_ID cl) 1 us.

Definition register_user (user_id : string) : Handler unit :=
  fun s =>
    (Return tt, set_users s (insert_user_or_ignore (Some user_id) 0 (users s))).

(** [context.user_data['awaiting_input'] = value]. *)
Definition set_awaiting (user : string) (value : option string)
    (s : session) : session :=
  set_user_data s
    (match value with
     | Some v => <[user := v]> (user_data s)
     | None => delete user (user_data s)
     end).

Definition main_menu : list string :=
  ["add_coin"; "remove_coin"; "list_coins"; "config_run"; "broadcast"].

Definition start (u : message_update) : Handler unit :=
  let user_id := effective_chat u in
  register_user user_id ;;
  fun s =>
    let keyboard :=
      if is_admin (users s) user_id then main_menu else ["list_coins"] in
    api (ReplyText (WelcomeText keyboard)) s.

Definition list_coins : Handler unit :=
  fun s =>
    let coins := get_coins (db (watcher s)) in
    api (ReplyText
           match coins with
           | [] => NoCoinsText
           | _ :: _ => CoinListText coins
           end) s.

Definition button_handler (q : callback_query) : Handler unit :=
  api Answer ;;
  let user_id := from_user q in
  fun s =>
    if negb (is_admin (users s) user_id) then
      api (EditMessageText NoPermissionText) s
    else if decide (data q = "add_coin") then
      (api (EditMessageText AskAddCoinText) ;;
       fun s => (Return tt, set_awaiting user_id (Some "add_coin") s)) s
    else if decide (data q = "remove_coin") then
      (api (EditMessageText AskRemoveCoinText) ;;
       fun s => (Return tt, set_awaiting user_id (Some "remove_coin") s)) s
    else if decide (data q = "list_coins") then
      list_coins s
    else if decide (data q = "config_run") then
      api (EditMessageText
             (RunConfigText
                ["set_run_threshold"; "set_run_periods"; "main_menu"])) s
    else if decide (data q = "set_run_threshold") then
      (api (EditMessageText AskRunThresholdText) ;;
       fun s => (Return tt, set_awaiting user_id (Some "set_run_threshold") s))
        s
    else if decide (data q = "set_run_periods") then
      (api (EditMessageText AskRunPeriodsText) ;;
       fun s => (Return tt, set_awaiting user_id (Some "set_run_periods") s)) s
    else if decide (data q = "main_menu") then
      api (EditMessageText (WelcomeText main_menu)) s
    else if decide (data q = "broadcast") then
      (api (EditMessageText AskBroadcastText) ;;
       fun s => (Return tt, set_awaiting user_id (Some "broadcast") s)) s
    else (Return tt, s).

(** [coin_id, threshold = text.split(',')]: anything but two parts is a
    ValueError. *)
Definition unpack_pair (parts : list string) : Handler (string * string) :=
  match parts with
  | [a; b] => hret (a, b)
  | _ => hraise ValueError
  end.

Definition value_or_error {A} (parsed : option A) : Handler A :=
  match parsed with
  | Some a => hret a
  | None => hraise ValueError
  end.

(** The branch for ['add_coin']. *)
Definition text_handler_add_coin (u : message_update) : Handler unit :=
  hfinally
    (htry
       (let text := str_strip cl (message_text u) in
        parts <- unpack_pair (split_comma text) ;;
        let coin_id := str_lower cl (str_strip cl parts.1) in
        threshold <- value_or_error (parse_float cl (str_strip cl parts.2)) ;;
        on_watcher (add_coin coin_id threshold) ;;
        api (ReplyText (CoinWatchedText coin_id threshold)))
       (fun e =>
          match e with
          | IndexError | ValueError => api (ReplyText BadFormatText)
          | _ => hraise e
          end))
    (set_awaiting (effective_user u) None).

(** The branch for ['remove_coin']. *)
Definition text_handler_remove_coin (u : message_update) : Handler unit :=
  hfinally
    (htry
       (let coin_id := str_lower cl (str_strip cl (message_text u)) in
        on_watcher (remove_coin coin_id) ;;
        api (ReplyText (CoinRemovedText coin_id)))
       (fun e => api (ReplyText (RemoveFailedText e))))
    (set_awaiting (effective_user u) None).

(** The branches for ['set_run_threshold'] and ['set_run_periods'], with
    their replies. *)
Definition text_handler_run_threshold (u : message_update) : Handler unit :=
  hfinally
    (htry
       (threshold <-
          value_or_error (parse_float cl (str_strip cl (message_text u))) ;;
        (if PrimFloat.leb threshold PrimFloat.zero then hraise ValueError
         else hret tt) ;;
        on_watcher (set_config RUN_THRESHOLD_PERCENT (str_float threshold)) ;;
        api (ReplyText (RunThresholdSetText threshold)))
       (fun e =>
          match e with
          | ValueError => api (ReplyText InvalidThresholdText)
          | _ => hraise e
          end))
    (set_awaiting (effective_user u) None).

Definition text_handler_run_periods (u : message_update) : Handler unit :=
  hfinally
    (htry
       (periods <-
          value_or_error (parse_int cl (str_strip cl (message_text u))) ;;
        (if periods <=? 0 then hraise ValueError else hret tt) ;;
        on_watcher (set_config RUN_CONSECUTIVE_PERIODS (str_int periods)) ;;
        api (ReplyText (RunPeriodsSetText periods)))
       (fun e =>
          match e with
          | ValueError => api (ReplyText InvalidPeriodsText)
          | _ => hraise e
          end))
    (set_awaiting (effective_user u) None).

(** [SELECT user_id FROM users WHERE is_admin = 0]. *)
Definition non_admins (us : list (string * Z)) : list string :=
  (filter (fun r : string * Z => r.2 = 0) us).*1.

(** One round of the loop over the users. *)
Definition broadcast_to (message : string) (user : string) : Handler unit :=
  htry (api (SendMessage user message))
    (fun e s =>
       (Return tt,
        {| watcher := watcher s; users := users s; user_data := user_data s;
           api_calls := api_calls s;
           broadcast_errors := broadcast_errors s ++ [(user, e)] |})).

(** The branch for ['broadcast']. *)
Definition text_handler_broadcast (u : message_update) : Handler unit :=
  hfinally
    (htry
       (let message := str_strip cl (message_text u) in
        (if decide (message = "") then hraise ValueError else hret tt) ;;
        fun s =>
          match non_admins (users s) with
          | [] => api (ReplyText NoRecipientsText) s
          | (_ :: _) as recipients =>
              (hfor_each recipients (broadcast_to message) ;;
               api (ReplyText BroadcastSentText)) s
          end)
       (fun e => api (ReplyText (BroadcastFailedText e))))
    (set_awaiting (effective_user u) None).

Definition text_handler (u : message_update) : Handler unit :=
  let user_id := effective_chat u in
  register_user user_id ;;
  fun s =>
    let awaiting := user_data s !! effective_user u in
    if is_admin (users s) user_id then
      if decide (awaiting = Some "add_coin") then text_handler_add_coin u s
      else if decide (awaiting = Some "remove_coin") then
        text_handler_remove_coin u s
      else if decide (awaiting = Some "set_run_threshold") then
        text_handler_run_threshold u s
      else if decide (awaiting = Some "set_run_periods") then
        text_handler_run_periods u s
      else if decide (awaiting = Some "broadcast") then
        text_handler_broadcast u s
      else (Return tt, s)
    else
      match awaiting with
      | None => api (ReplyText UseStartText) s
      | Some _ => api (ReplyText NoPermissionText) s
      end.

End Handlers.

(** * The vocabulary of the properties *)

(** ** What a computation leaves behind *)

(** [m] returns: no exception leaves it. *)
Definition returns {A} (m : M A) : Prop :=
  forall w, exists a, (m w).1 = Return a.

(** [m] leaves the database, the clock and the loop's bookkeeping alone. *)
Definition quiet {A} (m : M A) : Prop :=
  forall w,
    db (m w).2 = db w /\ clock (m w).2 = clock w /\ cycle (m w).2 = cycle w
    /\ sleeps (m w).2 = sleeps w /\ pending_tasks (m w).2 = pending_tasks w.

(** What one [send_notification] leaves behind. *)
Definition after_send (env : environment) (m : message) (w : world)
  : world :=
  let outcome := send_message env (length (bot_calls w)) m in
  {| db := db w; clock := clock w; cycle := cycle w;
     bot_calls := bot_calls w ++ [m];
     delivered :=
       match outcome with
       | None => delivered w ++ [m]
       | Some _ => delivered w
       end;
     logfile :=
       logfile w ++
         [match outcome with
          | None => (INFO, NotificationSent m)
          | Some e => (ERROR, NotificationFailed e)
          end];
     pending_tasks := pending_tasks w; sleeps := sleeps w |}.

(** ** The run rule *)

(** The two settings as [check_run] reads them. *)
Definition run_periods_setting (d : database) : Py.number :=
  Py.or_default (get_config d RUN_CONSECUTIVE_PERIODS) 5.

Definition run_threshold_setting (d : database) : Py.number :=
  Py.or_default (get_config d RUN_THRESHOLD_PERCENT) 10.

(** What [check_run] decides on a database: [Some c] when it sends the alert
    with magnitude [c]. *)
Definition run_decision (d : database) (coin : string) : option float :=
  match sqlite_limit (run_periods_setting d) with
  | inl _ => None
  | inr n =>
      let prices := recent_prices d coin n in
      if Py.int_lt (Z.of_nat (length prices)) (run_periods_setting d) then None
      else if is_run prices then
        match head prices, last prices with
        | Some newest, Some oldest =>
            if PrimFloat.eqb oldest PrimFloat.zero then None
            else
              let total_change :=
                PrimFloat.mul
                  (PrimFloat.div (PrimFloat.sub newest oldest) oldest)
                  (Py.float_of_int 100) in
              if Py.float_ge total_change (run_threshold_setting d)
              then Some total_change else None
        | _, _ => None
        end
      else None
  end.

(** Every sample recorded for a coin, in the order of recording. *)
Definition samples_of (d : database) (coin : string) : list price_row :=
  filter (fun r => price_coin_id r = coin) (price_history d).


(** [(p[k-1] - p[0]) / p[0] * 100] on the chronological window [p]; there
    is no such number when [p[0] == 0]. *)
Definition total_change (k : Z) (p : list float) : option float :=
  match p !! 0%nat, p !! Z.to_nat (k - 1) with
  | Some oldest, Some newest =>
      if PrimFloat.eqb oldest PrimFloat.zero then None
      else
        Some (PrimFloat.mul
                (PrimFloat.div (PrimFloat.sub newest oldest) oldest)
                (Py.float_of_int 100))
  | _, _ => None
  end.

(** ** Example worlds *)

(** A bot and providers that never fail, and have nothing to report. *)
Definition calm : environment :=
  {| CHECK_INTERVAL := 3600;
     send_message := fun _ _ => None;
     price_feed := fun _ => inr ∅;
     news_feed := fun _ => inr [] |}.

(** The process right after [conn = init_db()] on a new database file. *)
Definition fresh_world : world :=
  {| db := init_db empty_db; clock := 0; cycle := 0; bot_calls := [];
     delivered := []; logfile := []; pending_tasks := []; sleeps := [] |}.

(** One sample per hour for [coin]. *)
Definition record_hourly (coin : string) (prices : list float) : M unit :=
  for_each prices (fun p => log_price coin p ;; asyncio_sleep 3600).

(** The scenario of the specification: five hourly prices for "ether" and a
    run threshold of 15 percent. *)
Definition ether_world : world :=
  ((set_config RUN_THRESHOLD_PERCENT (str_float 15) ;;
    record_hourly "ether" [100; 105; 110; 115; 120]%float)
     fresh_world).2.


(** A history that starts at price zero and rises ever since. *)
Definition from_zero_world : world :=
  (record_hourly "ether" [0; 105; 110; 115; 120]%float fresh_world).2.


Definition no_alert_sent (env : environment) (coin : string) (w : world) : Prop :=
  bot_calls (check_run env coin w).2 = bot_calls w.

(** The calls the two detectors make for one coin. *)
Definition threshold_calls (coin : string) (c thr : float) : list message :=
  if PrimFloat.leb thr c then [PriceIncreaseMsg coin c] else [].

Definition run_calls (d : database) (coin : string) : list message :=
  match run_decision d coin with
  | Some r => [RunMsg coin r (run_periods_setting d)]
  | None => []
  end.

(** The scenario of the specification: bitcoin watched at 5 percent, the
    provider reports a price of 100 and a change of 7.5 percent. *)
Definition bitcoin_response : gmap string coin_data :=
  {[ "bitcoin" := {| eur := Some (JNumber 100);
                     eur_24h_change := Some (JNumber 7.5) |} ]}.


(** The messages of [ms] whose delivery succeeds, when their calls are the
    calls number [n], [n + 1], ... of the bot. *)
Fixpoint deliveries (env : environment) (n : nat) (ms : list message)
  : list message :=
  match ms with
  | [] => []
  | m :: rest =>
      match send_message env n m with
      | None => [m]
      | Some _ => []
      end ++ deliveries env (S n) rest
  end.

Definition news_message (item : news_item) : message :=
  NewsMsg (title item) (url item).

(** [m] neither sleeps nor moves on to the next iteration. *)
Definition paced {A} (m : M A) : Prop :=
  forall w, cycle (m w).2 = cycle w /\ sleeps (m w).2 = sleeps w.

(** A provider whose every price request times out. *)
Definition offline : environment :=
  {| CHECK_INTERVAL := 3600;
     send_message := fun _ _ => None;
     price_feed := fun _ => inl TimeoutError;
     news_feed := fun _ => inr [] |}.

(** A provider that answers with a price for bitcoin and [null] for its
    24h change. *)
Definition null_change : environment :=
  {| CHECK_INTERVAL := 3600;
     send_message := fun _ _ => None;
     price_feed :=
       fun _ => inr {[ "bitcoin" := {| eur := Some (JNumber 100);
                                       eur_24h_change := Some JNull |} ]};
     news_feed := fun _ => inr [] |}.

(** The watch-list of the specification's scenario: bitcoin at 5 percent. *)
Definition bitcoin_world : world :=
  (add_coin "bitcoin" 5%float fresh_world).2.

(** A bot whose second call fails: the first and third news items arrive. *)
Definition flaky : environment :=
  {| CHECK_INTERVAL := 3600;
     send_message := fun n _ => if Nat.eqb n 1 then Some TelegramError else None;
     price_feed := fun _ => inr ∅;
     news_feed := fun _ => inr [] |}.

Definition watch_entries (d : database) (coin : string)
  : list (string * float) :=
  filter (fun entry => entry.1 = coin) (get_coins d).

Definition recognized (key : string) : Prop :=
  key = RUN_THRESHOLD_PERCENT \/ key = RUN_CONSECUTIVE_PERIODS.

(** The run periods in the store are an integer of at least 1. *)
Definition periods_valid (d : database) : Prop :=
  exists n, config d !! RUN_CONSECUTIVE_PERIODS = Some (str_int n) /\ 1 <= n.

(** What an admin sends while a configuration value is awaited. *)
Inductive config_input :=
| PeriodsText (parsed : option Z)
| ThresholdText (parsed : option float).

Definition handle_config_input (i : config_input) : M bool :=
  match i with
  | PeriodsText parsed => text_handler_set_run_periods parsed
  | ThresholdText parsed => text_handler_set_run_threshold parsed
  end.

(** The world after the handler has seen each input in turn. *)
Definition after_inputs (inputs : list config_input) (w : world) : world :=
  foldl (fun w i => (handle_config_input i w).2) w inputs.

(** ** The watch-list *)

(** The threshold the watch-list holds for [coin]. *)
Definition watched_threshold (d : database) (coin : string) : option float :=
  snd <$> head (watch_entries d coin).

(** What the UNIQUE and AUTOINCREMENT columns of [coins] stand for: no two
    rows share a [coin_id] or a rowid, and no rowid is beyond the sequence. *)
Definition coins_table_sound (d : database) : Prop :=
  NoDup (coin_id <$> coins d)
  /\ NoDup (coin_rowid <$> coins d)
  /\ forall r, r ∈ coins d -> coin_rowid r <= coins_seq d.

Inductive watch_list_call :=
| AddCoin (coin : string) (thr : float)
| RemoveCoin (coin : string).

Definition run_call (c : watch_list_call) : M unit :=
  match c with
  | AddCoin coin thr => add_coin coin thr
  | RemoveCoin coin => remove_coin coin
  end.

(** The world after the calls, in turn. *)
Definition after_calls (calls : list watch_list_call) (w : world) : world :=
  foldl (fun w c => (run_call c w).2) w calls.

(** ** The price history over time *)

(** The samples of a coin were recorded at strictly increasing times. *)
Definition chronological (d : database) (coin : string) : Prop :=
  StronglySorted (fun a b => timestamp a < timestamp b) (samples_of d coin).

(** Every coin's samples were, and all of them before [now]. *)
Definition history_in_order (d : database) (now : Z) : Prop :=
  (forall coin, chronological d coin)
  /\ forall r, r ∈ price_history d -> timestamp r < now.

(** The same in the middle of the cycle that runs at [now]: the samples
    taken at [now] are of the coins [seen] so far. *)
Definition history_in_order_during (seen : list string) (d : database)
    (now : Z) : Prop :=
  (forall coin, chronological d coin)
  /\ forall r, r ∈ price_history d ->
       timestamp r <= now /\ (timestamp r = now -> price_coin_id r ∈ seen).

(** The last [n] samples recorded for a coin, the newest first; all of them
    for a negative [n]. *)
Definition last_recorded (d : database) (coin : string) (n : Z)
  : list price_row :=
  let newest_first := reverse (samples_of d coin) in
  if n <? 0 then newest_first else take (Z.to_nat n) newest_first.

(** [d] is [d0] with more samples: the watch-list and the configuration are
    those of [d0], and the samples of [d0] are all there, as they were. *)
Definition extends (d0 d : database) : Prop :=
  coins d = coins d0 /\ coins_seq d = coins_seq d0 /\ config d = config d0
  /\ price_history d0 `prefix_of` price_history d.

(** ** What a cycle records *)

(** The entry of the response for a watched coin holds [null] for the 24h
    change. *)
Definition malformed (response : gmap string coin_data)
    (entry : string * float) : bool :=
  match response !! entry.1 with
  | Some cd =>
      match eur_24h_change cd with
      | Some JNull => true
      | _ => false
      end
  | None => false
  end.

(** The price the loop body stores for a watched coin. *)
Definition sample_of (response : gmap string coin_data)
    (entry : string * float) : option float :=
  match response !! entry.1 with
  | Some cd =>
      match eur_24h_change cd with
      | Some _ =>
          match truthy_price (eur cd) with
          | Some p => if PrimFloat.is_nan p then None else Some p
          | None => None
          end
      | None => None
      end
  | None => None
  end.

Definition record_sample (now : Z) (coin : string) (p : float)
    (d : database) : database :=
  set_price_history d
    (price_history d
       ++ [ {| price_rowid := price_history_seq d + 1; price_coin_id := coin;
               timestamp := now; price := p |} ])
    (price_history_seq d + 1).

Definition record_entry (response : gmap string coin_data) (now : Z)
    (d : database) (entry : string * float) : database :=
  match sample_of response entry with
  | Some p => record_sample now entry.1 p d
  | None => d
  end.

(** The entries the loop gets to: all of them up to the first malformed
    one, and that one. *)
Fixpoint processed_entries (response : gmap string coin_data)
    (entries : list (string * float)) : list (string * float) :=
  match entries with
  | [] => []
  | entry :: rest =>
      if malformed response entry then [entry]
      else entry :: processed_entries response rest
  end.

(** A sample without its rowid. *)
Definition sample_view (r : price_row) : string * Z * float :=
  (price_coin_id r, timestamp r, price r).

(** The samples a cycle at [now] takes for [entries]. *)
Definition samples_taken (response : gmap string coin_data) (now : Z)
    (entries : list (string * float)) : list (string * Z * float) :=
  omap (fun entry => (fun p => (entry.1, now, p)) <$> sample_of response entry)
    entries.

(** Bitcoin and ether, both watched; the provider knows bitcoin only, or
    reports [null] for the change of bitcoin. *)
Definition two_coins_world : world :=
  (add_coin "ether" 3%float bitcoin_world).2.

Definition bitcoin_only : environment :=
  {| CHECK_INTERVAL := 3600;
     send_message := fun _ _ => None;
     price_feed := fun _ => inr bitcoin_response;
     news_feed := fun _ => inr [] |}.

Definition null_then_ether : gmap string coin_data :=
  {[ "bitcoin" := {| eur := Some (JNumber 100);
                     eur_24h_change := Some JNull |};
     "ether" := {| eur := Some (JNumber 20);
                   eur_24h_change := Some (JNumber 1) |} ]}.

Definition null_first : environment :=
  {| CHECK_INTERVAL := 3600;
     send_message := fun _ _ => None;
     price_feed := fun _ => inr null_then_ether;
     news_feed := fun _ => inr [] |}.

(** The two alerts of the detectors, as against the diagnostic and the
    other notifications. *)
Definition is_alert (m : message) : bool :=
  match m with
  | PriceIncreaseMsg _ _ | RunMsg _ _ _ => true
  | _ => false
  end.

(** A news provider that fails, with bitcoin on the watch-list. *)
Definition news_offline : environment :=
  {| CHECK_INTERVAL := 3600;
     send_message := fun _ _ => None;
     price_feed := fun _ => inr ∅;
     news_feed := fun _ => inl ClientError |}.

(** Two news items for the watched coins. *)
Definition two_items : list news_item :=
  [ {| title := Some "a"; url := Some "u" |};
    {| title := Some "b"; url := None |} ].

Definition newsy : environment :=
  {| CHECK_INTERVAL := 3600;
     send_message := fun _ _ => None;
     price_feed := fun _ => inr ∅;
     news_feed := fun _ => inr two_items |}.

(** ** The users and the handlers *)

(** The users table after [init_db] on a new database file and the first
    contact of each of [ids], in turn. *)
Definition registered (cl : client) (ids : list string) : list (string * Z) :=
  foldl (fun us u => insert_user_or_ignore (Some u) 0 us) (init_users cl []) ids.

(** The handler leaves the watcher, the users and the awaited inputs alone:
    all it does is talk. *)
Definition talks {A} (m : Handler A) : Prop :=
  forall s,
    watcher (m s).2 = watcher s /\ users (m s).2 = users s
    /\ user_data (m s).2 = user_data s.

(** The handler leaves the users and the awaited inputs alone. *)
Definition keeps_registry {A} (m : Handler A) : Prop :=
  forall s, users (m s).2 = users s /\ user_data (m s).2 = user_data s.

(** The values of ['awaiting_input'] that [text_handler] knows. *)
Definition awaited_inputs : list string :=
  ["add_coin"; "remove_coin"; "set_run_threshold"; "set_run_periods";
   "broadcast"].

(** What [text_handler] reads from the text of an ['add_coin'] input. *)
Definition parse_add_coin (cl : client) (text : string)
  : option (string * float) :=
  match split_comma (str_strip cl text) with
  | [a; b] =>
      match parse_float cl (str_strip cl b) with
      | Some thr => Some (str_lower cl (str_strip cl a), thr)
      | None => None
      end
  | _ => None
  end.

(** What an admin's text does to the watcher, by the input awaited. *)
Definition watcher_after (cl : client) (awaiting text : string) (w : world)
  : world :=
  if decide (awaiting = "add_coin") then
    match parse_add_coin cl text with
    | Some (coin, thr) => (add_coin coin thr w).2
    | None => w
    end
  else if decide (awaiting = "remove_coin") then
    (remove_coin (str_lower cl (str_strip cl text)) w).2
  else if decide (awaiting = "set_run_threshold") then
    (text_handler_set_run_threshold (parse_float cl (str_strip cl text)) w).2
  else if decide (awaiting = "set_run_periods") then
    (text_handler_set_run_periods (parse_int cl (str_strip cl text)) w).2
  else w.

(** An office: the admin "1", two users, bitcoin on the watch-list; a Bot API
    that never fails, texts that need no stripping, and [float] and [int]
    on the few texts used here. *)
Definition desk : client :=
  {| ADMIN_CHAT_ID := Some "1";
     telegram := fun _ _ => None;
     str_strip := fun s => s;
     str_lower := fun s => s;
     parse_float :=
       fun s =>
         if decide (s = "5") then Some 5%float
         else if decide (s = "nan") then Some PrimFloat.nan
         else None;
     parse_int := fun s => if decide (s = "7") then Some 7 else None |}.

Definition office (awaiting : gmap string string) : session :=
  {| watcher := bitcoin_world;
     users := [("1", 1); ("2", 0); ("3", 0)];
     user_data := awaiting;
     api_calls := [];
     broadcast_errors := [] |}.

(** A Bot API whose first call fails. *)
Definition shaky_desk : client :=
  {| ADMIN_CHAT_ID := Some "1";
     telegram := fun n _ => if Nat.eqb n 0 then Some TelegramError else None;
     str_strip := fun s => s;
     str_lower := fun s => s;
     parse_float := fun _ => None;
     parse_int := fun _ => None |}.

Definition text_from (user text : string) : message_update :=
  {| effective_chat := user; effective_user := user; message_text := text |}.

(** The broadcast calls that fail, when they are the calls number [n],
    [n + 1], ... to the Bot API: who was not reached, and why. *)
Fixpoint send_failures (cl : client) (n : nat) (message : string)
    (recipients : list string) : list (string * exception) :=
  match recipients with
  | [] => []
  | user :: rest =>
      match telegram cl n (SendMessage user message) with
      | Some e => [(user, e)]
      | None => []
      end ++ send_failures cl (S n) message rest
  end.

(** The closing reply of the broadcast as call number [n], and the report
    that follows when it fails. *)
Definition reply_or_report (cl : client) (n : nat) (t : reply)
  : list api_call :=
  ReplyText t
    :: match telegram cl n (ReplyText t) with
       | None => []
       | Some e => [ReplyText (BroadcastFailedText e)]
       end.


(** * Properties *)

(** ** Python numbers *)

Section Numbers.

Lemma SFcompare_antisym a b : SFcompare b a = CompOpp <$> SFcompare a b.
Proof.
  destruct a as [[]|[]| |[] ma ea], b as [[]|[]| |[] mb eb]; simpl; try reflexivity.
  all: rewrite (Z.compare_antisym ea eb); destruct (ea ?= eb)%Z; simpl;
    try reflexivity.
  all: change (PosDef.Pos.compare_cont Eq mb ma) with (Pos.compare mb ma);
    change (PosDef.Pos.compare_cont Eq ma mb) with (Pos.compare ma mb);
    rewrite (Pos.compare_antisym ma mb); destruct (ma ?= mb)%positive;
    reflexivity.
Qed.

(** [x < y] excludes [x >= y]. *)
Lemma ltb_not_ge x y : PrimFloat.ltb x y = true -> PrimFloat.leb y x = false.
Proof.
  rewrite FloatAxioms.ltb_spec, FloatAxioms.leb_spec. unfold SFltb, SFleb.
  rewrite (SFcompare_antisym (Prim2SF x) (Prim2SF y)).
  destruct (SFcompare (Prim2SF x) (Prim2SF y)) as [[]|]; simpl; congruence.
Qed.

(** [x == y] gives [x >= y]. *)
Lemma eqb_ge x y : PrimFloat.eqb x y = true -> PrimFloat.leb y x = true.
Proof.
  rewrite FloatAxioms.eqb_spec, FloatAxioms.leb_spec. unfold SFeqb, SFleb.
  rewrite (SFcompare_antisym (Prim2SF x) (Prim2SF y)).
  destruct (SFcompare (Prim2SF x) (Prim2SF y)) as [[]|]; simpl; congruence.
Qed.


End Numbers.

(** ** The monad *)

Section Effects.

Variable env : environment.

Local Open Scope py_scope.

Lemma returns_ret {A} (a : A) : returns (ret a).
Proof. intros w. by exists a. Qed.

Lemma returns_bind {A B} (m : M A) (k : A -> M B) :
  returns m -> (forall a, returns (k a)) -> returns (bind m k).
Proof.
  intros Hm Hk w. unfold bind. destruct (Hm w) as [a Ha].
  destruct (m w) as [[a'|e] w']; simpl in Ha; [|discriminate]. apply Hk.
Qed.

Lemma returns_try {A} (m : M A) (h : exception -> M A) :
  (forall e, returns (h e)) -> returns (try_except m h).
Proof.
  intros Hh w. unfold try_except.
  destruct (m w) as [[a|e] w']; [by exists a | apply Hh].
Qed.

Lemma returns_for_each {A} (xs : list A) (body : A -> M unit) :
  (forall x, returns (body x)) -> returns (for_each xs body).
Proof.
  intros Hb. induction xs as [|x xs IH]; simpl.
  - apply returns_ret.
  - apply returns_bind; [apply Hb | intros _; exact IH].
Qed.

Lemma returns_logging l ev : returns (logging l ev).
Proof. intros w. by exists tt. Qed.

Lemma returns_unit (m : M unit) w : returns m -> (m w).1 = Return tt.
Proof. intros Hm. destruct (Hm w) as [[] Ha]. exact Ha. Qed.

Lemma quiet_ret {A} (a : A) : quiet (ret a).
Proof. by intros w. Qed.

Lemma quiet_raise {A} e : quiet (@raise A e).
Proof. by intros w. Qed.

Lemma quiet_bind {A B} (m : M A) (k : A -> M B) :
  quiet m -> (forall a, quiet (k a)) -> quiet (bind m k).
Proof.
  intros Hm Hk w. unfold bind. pose proof (Hm w) as Hw.
  destruct (m w) as [[a|e] w']; simpl in Hw; [|exact Hw].
  pose proof (Hk a w') as Hw'.
  destruct Hw as (? & ? & ? & ? & ?), Hw' as (? & ? & ? & ? & ?).
  repeat split; congruence.
Qed.

Lemma quiet_try {A} (m : M A) (h : exception -> M A) :
  quiet m -> (forall e, quiet (h e)) -> quiet (try_except m h).
Proof.
  intros Hm Hh w. unfold try_except. pose proof (Hm w) as Hw.
  destruct (m w) as [[a|e] w']; simpl in Hw; [exact Hw|].
  pose proof (Hh e w') as Hw'.
  destruct Hw as (? & ? & ? & ? & ?), Hw' as (? & ? & ? & ? & ?).
  repeat split; congruence.
Qed.

Lemma quiet_for_each {A} (xs : list A) (body : A -> M unit) :
  (forall x, quiet (body x)) -> quiet (for_each xs body).
Proof.
  intros Hb. induction xs as [|x xs IH]; simpl.
  - apply quiet_ret.
  - apply quiet_bind; [apply Hb | intros _; exact IH].
Qed.

Lemma quiet_logging l ev : quiet (logging l ev).
Proof. by intros w. Qed.

Lemma quiet_get_db : quiet get_db.
Proof. by intros w. Qed.

Lemma send_notification_eq m w :
  send_notification env m w = (Return tt, after_send env m w).
Proof.
  unfold send_notification, try_except, bind, bot_send_message, after_send,
    logging.
  destruct (send_message env (length (bot_calls w)) m); reflexivity.
Qed.

Lemma returns_send_notification m : returns (send_notification env m).
Proof. intros w. exists tt. by rewrite send_notification_eq. Qed.

Lemma quiet_send_notification m : quiet (send_notification env m).
Proof. intros w. by rewrite send_notification_eq. Qed.

End Effects.

Create HintDb returns.
Create HintDb quiet.

#[global] Hint Resolve returns_ret returns_bind returns_try returns_for_each
  returns_logging returns_send_notification : returns.
#[global] Hint Resolve quiet_ret quiet_raise quiet_bind quiet_try quiet_for_each
  quiet_logging quiet_get_db quiet_send_notification : quiet.

(** ** The run detector *)

Section RunDetector.

Variable env : environment.

Local Open Scope py_scope.

Lemma returns_check_run coin : returns (check_run env coin).
Proof. unfold check_run. auto with returns. Qed.

Lemma quiet_select_recent_prices coin k : quiet (select_recent_prices coin k).
Proof.
  unfold select_recent_prices. apply quiet_bind; [apply quiet_get_db|].
  intros d. destruct (sqlite_limit k); auto with quiet.
Qed.

Lemma quiet_check_run coin : quiet (check_run env coin).
Proof.
  unfold check_run. apply quiet_try; [|auto with quiet].
  apply quiet_bind; [apply quiet_get_db|]. intros d.
  apply quiet_bind; [apply quiet_select_recent_prices|]. intros prices.
  destruct (Py.int_lt _ _); [auto with quiet|].
  destruct (is_run prices); [|auto with quiet].
  unfold first_item, last_item, truediv.
  destruct (head prices); [|auto with quiet].
  destruct (last prices); [|auto with quiet].
  apply quiet_bind; [auto with quiet|]. intros newest.
  apply quiet_bind; [auto with quiet|]. intros oldest.
  apply quiet_bind; [destruct (PrimFloat.eqb _ _); auto with quiet|].
  intros ratio. destruct (Py.float_ge _ _); auto with quiet.
Qed.

(** The only call [check_run] can make to the bot is the run alert, and it
    makes it exactly when [run_decision] says so. *)
Lemma check_run_calls coin w :
  bot_calls (check_run env coin w).2 =
    bot_calls w ++
      match run_decision (db w) coin with
      | Some c => [RunMsg coin c (run_periods_setting (db w))]
      | None => []
      end.
Proof.
  unfold check_run, run_decision, try_except, bind, get_db,
    select_recent_prices, first_item, last_item, truediv, ret, raise, logging.
  fold (run_periods_setting (db w)). fold (run_threshold_setting (db w)).
  simpl.
  destruct (sqlite_limit (run_periods_setting (db w))) as [e|n]; simpl;
    [by rewrite app_nil_r|].
  destruct (Py.int_lt _ _); simpl; [by rewrite app_nil_r|].
  destruct (is_run _); simpl; [|by rewrite app_nil_r].
  destruct (head _) as [newest|]; simpl; [|by rewrite app_nil_r].
  destruct (last _) as [oldest|]; simpl; [|by rewrite app_nil_r].
  destruct (PrimFloat.eqb oldest PrimFloat.zero); simpl;
    [by rewrite app_nil_r|].
  destruct (Py.float_ge _ _); simpl; [|by rewrite app_nil_r].
  rewrite send_notification_eq. reflexivity.
Qed.

End RunDetector.

(** ** The price history query *)

Section RecentSamples.

#[global] Instance newer_first_total : Total newer_first.
Proof. intros a b. unfold newer_first. lia. Qed.

#[global] Instance newer_first_trans : Transitive newer_first.
Proof. intros a b c. unfold newer_first. lia. Qed.

Lemma insert_row_Permutation r (ordered : list price_row) :
  insert_row r ordered ≡ₚ r :: ordered.
Proof.
  induction ordered as [|x rest IH]; [done|]. simpl.
  destruct (decide (timestamp x <= timestamp r)); [done|].
  rewrite IH. apply Permutation_swap.
Qed.

Lemma insert_row_sorted r (ordered : list price_row) :
  StronglySorted newer_first ordered ->
  StronglySorted newer_first (insert_row r ordered).
Proof.
  induction 1 as [|x rest Hrest IH Hx]; [repeat constructor|]. simpl.
  rewrite Forall_forall in Hx.
  destruct (decide (timestamp x <= timestamp r)) as [Hle|Hgt].
  - apply SSorted_cons; [by apply SSorted_cons; [|apply Forall_forall]|].
    apply Forall_cons. split; [exact Hle|].
    apply Forall_forall. intros y Hy. specialize (Hx _ Hy).
    unfold newer_first in *. lia.
  - apply SSorted_cons; [exact IH|].
    apply Forall_forall. intros y Hy.
    rewrite insert_row_Permutation in Hy.
    apply elem_of_cons in Hy as [->|Hy]; [|by apply Hx].
    unfold newer_first. lia.
Qed.

Lemma order_by_timestamp_desc_Permutation (rows : list price_row) :
  order_by_timestamp_desc rows ≡ₚ rows.
Proof.
  induction rows as [|r rows IH]; [done|]. simpl.
  by rewrite insert_row_Permutation, IH.
Qed.

Lemma order_by_timestamp_desc_sorted (rows : list price_row) :
  StronglySorted newer_first (order_by_timestamp_desc rows).
Proof.
  induction rows as [|r rows IH]; [constructor|]. simpl.
  by apply insert_row_sorted.
Qed.

(** A row that is newer than all the others is the first of the answer, and
    the others come as they came without it. *)
Lemma order_by_timestamp_desc_newest (rows : list price_row) r :
  (forall x, x ∈ rows -> timestamp x < timestamp r) ->
  order_by_timestamp_desc (rows ++ [r]) = r :: order_by_timestamp_desc rows.
Proof.
  induction rows as [|x rows IH]; intros Hnew; [done|].
  simpl. rewrite IH by (intros y Hy; apply Hnew; by right). simpl.
  rewrite decide_False; [done|].
  specialize (Hnew x ltac:(left)). lia.
Qed.





(** Rows recorded at strictly increasing times have their own times. *)
Lemma chronological_times (rows : list price_row) x y :
  StronglySorted (fun a b => timestamp a < timestamp b) rows ->
  x ∈ rows -> y ∈ rows -> timestamp x = timestamp y -> x = y.
Proof.
  induction 1 as [|a l Hl IH Ha]; [by intros ?%elem_of_nil|].
  rewrite Forall_forall in Ha.
  intros [->|Hx]%elem_of_cons [->|Hy]%elem_of_cons Ht; [done| | |by apply IH].
  - specialize (Ha _ Hy). lia.
  - specialize (Ha _ Hx). lia.
Qed.

Lemma chronological_reverse (rows : list price_row) :
  StronglySorted (fun a b => timestamp a < timestamp b) rows ->
  StronglySorted newer_first (reverse rows).
Proof.
  induction 1 as [|a l Hl IH Ha]; [constructor|].
  rewrite reverse_cons. apply StronglySorted_app_2; [|exact IH|].
  - intros x1 x2 Hx1 ->%list_elem_of_singleton.
    rewrite elem_of_reverse in Hx1. rewrite Forall_forall in Ha.
    specialize (Ha _ Hx1). unfold newer_first. lia.
  - repeat constructor.
Qed.

(** On samples recorded in the order of time the query gives the samples in
    the reverse order of recording. *)
Lemma sorted_chronological (rows : list price_row) :
  StronglySorted (fun a b => timestamp a < timestamp b) rows ->
  order_by_timestamp_desc rows = reverse rows.
Proof.
  intros Hrows. apply (StronglySorted_unique_strong newer_first).
  - intros x1 x2 Hx1 Hx2 H12 H21.
    rewrite order_by_timestamp_desc_Permutation in Hx1.
    rewrite elem_of_reverse in Hx2.
    apply (chronological_times rows); [done..|].
    unfold newer_first in *. lia.
  - apply order_by_timestamp_desc_sorted.
  - by apply chronological_reverse.
  - by rewrite order_by_timestamp_desc_Permutation, reverse_Permutation.
Qed.

Lemma recent_samples_last_recorded d coin n :
  chronological d coin -> recent_samples d coin n = last_recorded d coin n.
Proof.
  intros Hd. unfold recent_samples, last_recorded.
  fold (samples_of d coin). by rewrite (sorted_chronological _ Hd).
Qed.

End RecentSamples.

(** ** Runs *)

Section Runs.



End Runs.

Section RunDecision.




End RunDecision.

(** ** The claims on the history query and the run rule *)






(** C6: when the oldest price of the window is 0, [check_run] returns, sends
    no alert and changes nothing in the database. *)
Theorem check_run_zero_oldest env coin w k oldest :
  sqlite_limit (run_periods_setting (db w)) = inr k ->
  reverse (recent_prices (db w) coin k) !! 0%nat = Some oldest ->
  PrimFloat.eqb oldest PrimFloat.zero = true ->
  (check_run env coin w).1 = Return tt
  /\ no_alert_sent env coin w
  /\ delivered (check_run env coin w).2 = delivered w
  /\ db (check_run env coin w).2 = db w.
Proof.
  intros Hk Hold Hzero.
  split; [apply returns_unit, returns_check_run|].
  assert (Hno : no_alert_sent env coin w).
  { unfold no_alert_sent. rewrite check_run_calls.
    rewrite <- head_lookup, head_reverse in Hold.
    unfold run_decision. rewrite Hk, Hold, Hzero.
    destruct (Py.int_lt _ _); [by rewrite app_nil_r|].
    destruct (is_run _); [|by rewrite app_nil_r].
    destruct (head _); by rewrite app_nil_r. }
  split; [exact Hno|]. split; [|apply quiet_check_run].
  revert Hno. unfold no_alert_sent, check_run, try_except, bind, get_db,
    select_recent_prices, first_item, last_item, truediv, ret, raise, logging.
  fold (run_periods_setting (db w)). fold (run_threshold_setting (db w)).
  rewrite <- head_lookup, head_reverse in Hold.
  rewrite Hk. simpl. rewrite Hold, Hzero.
  destruct (Py.int_lt _ _); [done|].
  destruct (is_run _); [|done].
  destruct (head _); done.
Qed.

Lemma check_run_zero_oldest_witness :
  (sqlite_limit (run_periods_setting (db from_zero_world)) = inr 5
   /\ reverse (recent_prices (db from_zero_world) "ether" 5) !! 0%nat
      = Some 0%float
   /\ PrimFloat.eqb 0 PrimFloat.zero = true)
  /\ (check_run calm "ether" from_zero_world).1 = Return tt
  /\ no_alert_sent calm "ether" from_zero_world
  /\ logfile (check_run calm "ether" from_zero_world).2
     = [(ERROR, RunDetectionFailed "ether" ZeroDivisionError)].
Proof.
  assert (H5 : sqlite_limit (run_periods_setting (db from_zero_world)) = inr 5)
    by (vm_compute; reflexivity).
  assert (H0 : reverse (recent_prices (db from_zero_world) "ether" 5) !! 0%nat
               = Some 0%float) by (vm_compute; reflexivity).
  assert (Hz : PrimFloat.eqb 0 PrimFloat.zero = true) by reflexivity.
  split; [by repeat split|].
  destruct (check_run_zero_oldest calm "ether" from_zero_world 5 0%float
              H5 H0 Hz) as (Hret & Hno & _).
  split; [exact Hret|]. split; [exact Hno|]. vm_compute. reflexivity.
Defined.

(** ** The monitor loop *)

Section MonitorLoop.

Variable env : environment.

Local Open Scope py_scope.

Lemma returns_log_price coin p : returns (log_price coin p).
Proof. unfold log_price. auto with returns. Qed.

Lemma log_price_calls coin p w : bot_calls (log_price coin p w).2 = bot_calls w.
Proof.
  unfold log_price, try_except, insert_price, logging.
  by destruct (PrimFloat.is_nan p).
Qed.

Lemma threshold_alert_calls coin c thr w :
  bot_calls (threshold_alert env coin (JNumber c) thr w).2
  = bot_calls w ++ threshold_calls coin c thr.
Proof.
  unfold threshold_alert, threshold_calls, bind, change_ge, change_value, ret.
  destruct (PrimFloat.leb thr c); simpl; [|by rewrite app_nil_r].
  by rewrite send_notification_eq.
Qed.

Lemma returns_threshold_alert coin c thr :
  returns (threshold_alert env coin (JNumber c) thr).
Proof.
  unfold threshold_alert, change_ge, change_value.
  apply returns_bind; [auto with returns|]. intros [|]; auto with returns.
Qed.

Lemma quiet_threshold_alert coin change thr :
  quiet (threshold_alert env coin change thr).
Proof.
  unfold threshold_alert, change_ge, change_value.
  destruct change; auto with quiet.
  apply quiet_bind; [auto with quiet|]. intros [|]; auto with quiet.
Qed.

(** The body of the loop for a coin whose 24h change is the number [c]: the
    sample is recorded when the price is truthy, then both rules run. *)
Lemma watch_coin_number response coin thr cd c w :
  response !! coin = Some cd ->
  eur_24h_change cd = Some (JNumber c) ->
  let w1 :=
    match truthy_price (eur cd) with
    | Some p => (log_price coin p w).2
    | None => w
    end in
  watch_coin env response (coin, thr) w
  = (threshold_alert env coin (JNumber c) thr ;; check_run env coin) w1.
Proof.
  intros Hcd Hc. unfold watch_coin. rewrite Hcd, Hc.
  destruct (truthy_price (eur cd)) as [p|]; [|reflexivity].
  unfold bind at 1.
  pose proof (returns_unit _ w (returns_log_price coin p)) as Hret.
  destruct (log_price coin p w) as [[[]|e] w1]; simpl in *; done.
Qed.

Lemma watch_coin_calls response coin thr cd c w :
  response !! coin = Some cd ->
  eur_24h_change cd = Some (JNumber c) ->
  let w1 :=
    match truthy_price (eur cd) with
    | Some p => (log_price coin p w).2
    | None => w
    end in
  bot_calls (watch_coin env response (coin, thr) w).2
  = bot_calls w ++ threshold_calls coin c thr ++ run_calls (db w1) coin.
Proof.
  intros Hcd Hc w1. rewrite (watch_coin_number _ _ _ _ _ _ Hcd Hc).
  fold w1. unfold bind.
  pose proof (returns_unit _ w1 (returns_threshold_alert coin c thr)) as Hret.
  pose proof (threshold_alert_calls coin c thr w1) as Hcalls.
  pose proof (quiet_threshold_alert coin (JNumber c) thr w1) as (Hdb & _).
  destruct (threshold_alert env coin (JNumber c) thr w1) as [[[]|e] w2];
    simpl in *; [|done].
  rewrite check_run_calls, Hcalls, Hdb, <- app_assoc.
  f_equal. subst w1. destruct (truthy_price (eur cd)); [|done].
  by rewrite log_price_calls.
Qed.

End MonitorLoop.

(** C5: for a coin whose reported 24h change is the number [c], the loop
    sends the threshold alert if and only if [c >= threshold]; [c == threshold]
    triggers, any [c < threshold] does not; whatever else is sent is the run
    alert. *)
Theorem threshold_alert_iff env response coin thr cd c w :
  response !! coin = Some cd ->
  eur_24h_change cd = Some (JNumber c) ->
  let sent :=
    drop (length (bot_calls w))
      (bot_calls (watch_coin env response (coin, thr) w).2) in
  (PriceIncreaseMsg coin c ∈ sent <-> PrimFloat.leb thr c = true)
  /\ (PrimFloat.eqb c thr = true -> PriceIncreaseMsg coin c ∈ sent)
  /\ (PrimFloat.ltb c thr = true -> forall c', PriceIncreaseMsg coin c' ∉ sent)
  /\ (exists run_part,
        sent = threshold_calls coin c thr ++ run_part
        /\ forall m, m ∈ run_part -> exists r k, m = RunMsg coin r k).
Proof.
  intros Hcd Hc sent.
  assert (Hsent : exists run_part,
             sent = threshold_calls coin c thr ++ run_part
             /\ forall m, m ∈ run_part -> exists r k, m = RunMsg coin r k).
  { eexists. split.
    - unfold sent. rewrite (watch_coin_calls env _ _ _ _ _ _ Hcd Hc).
      by rewrite drop_app_length.
    - unfold run_calls. intros m Hm. destruct (run_decision _ _).
      + apply list_elem_of_singleton in Hm. eauto.
      + by apply elem_of_nil in Hm. }
  destruct Hsent as (run_part & Hsent & Hrun).
  assert (Hiff : forall c', PriceIncreaseMsg coin c' ∈ sent
                            <-> PrimFloat.leb thr c = true /\ c' = c).
  { intros c'. rewrite Hsent, elem_of_app. unfold threshold_calls. split.
    - intros [Hm|Hm].
      + destruct (PrimFloat.leb thr c); [|by apply elem_of_nil in Hm].
        apply list_elem_of_singleton in Hm. by simplify_eq.
      + apply Hrun in Hm as (r & k & Hm). discriminate.
    - intros [-> ->]. left. by apply list_elem_of_singleton. }
  split; [|split; [|split]].
  - rewrite Hiff. split; [by intros [? _] | by intros ?].
  - intros Heq. apply Hiff. split; [by apply eqb_ge | done].
  - intros Hlt c' Hin. apply Hiff in Hin as [Hge _].
    apply ltb_not_ge in Hlt. congruence.
  - exists run_part. by split.
Qed.

Lemma threshold_alert_iff_witness :
  (bitcoin_response !! "bitcoin"
   = Some {| eur := Some (JNumber 100); eur_24h_change := Some (JNumber 7.5) |}
   /\ eur_24h_change
        {| eur := Some (JNumber 100); eur_24h_change := Some (JNumber 7.5) |}
      = Some (JNumber 7.5))
  /\ PriceIncreaseMsg "bitcoin" 7.5
     ∈ drop (length (bot_calls fresh_world))
         (bot_calls
            (watch_coin calm bitcoin_response ("bitcoin", 5%float)
               fresh_world).2)
  /\ bot_calls
       (watch_coin calm bitcoin_response ("bitcoin", 5%float) fresh_world).2
     = [PriceIncreaseMsg "bitcoin" 7.5].
Proof.
  assert (H1 : bitcoin_response !! "bitcoin"
               = Some {| eur := Some (JNumber 100);
                         eur_24h_change := Some (JNumber 7.5) |})
    by (vm_compute; reflexivity).
  split; [by split|]. split.
  - destruct (threshold_alert_iff calm bitcoin_response "bitcoin" 5%float
                _ 7.5%float fresh_world H1 eq_refl) as (Hiff & _).
    apply Hiff. vm_compute. reflexivity.
  - vm_compute. reflexivity.
Defined.



(** ** Deliveries *)

Section Deliveries.

Variable env : environment.

Local Open Scope py_scope.

Lemma send_news_notifications_spec items w :
  let r := send_news_notifications env items w in
  r.1 = Return tt
  /\ bot_calls r.2 = bot_calls w ++ (news_message <$> items)
  /\ delivered r.2
     = delivered w
         ++ deliveries env (length (bot_calls w)) (news_message <$> items)
  /\ db r.2 = db w /\ clock r.2 = clock w /\ cycle r.2 = cycle w
  /\ sleeps r.2 = sleeps w /\ pending_tasks r.2 = pending_tasks w.
Proof.
  revert w. induction items as [|item items IH]; intros w.
  - simpl. by rewrite !app_nil_r.
  - unfold send_news_notifications in *.
    set (body := fun item : news_item =>
                   send_notification env (NewsMsg (title item) (url item)))
      in *.
    set (m := NewsMsg (title item) (url item)).
    assert (Hstep : for_each (item :: items) body w
                    = for_each items body (after_send env m w)).
    { simpl. unfold bind, body at 1. fold m.
      by rewrite send_notification_eq. }
    rewrite Hstep. cbv zeta.
    destruct (IH (after_send env m w))
      as (Hret & Hcalls & Hdel & Hdb & Hclock & Hcycle & Hsleeps & Htasks).
    split; [exact Hret|].
    split.
    { rewrite Hcalls. rewrite fmap_cons. fold m.
      change (bot_calls (after_send env m w)) with (bot_calls w ++ [m]).
      by rewrite <- app_assoc. }
    split; [|done].
    rewrite Hdel, fmap_cons.
    change (bot_calls (after_send env m w)) with (bot_calls w ++ [m]).
    rewrite length_app, Nat.add_1_r.
    change (news_message item) with m.
    change (deliveries env (length (bot_calls w)) (m :: (news_message <$> items)))
      with (match send_message env (length (bot_calls w)) m with
            | None => [m]
            | Some _ => []
            end ++ deliveries env (S (length (bot_calls w)))
                     (news_message <$> items)).
    change (delivered (after_send env m w))
      with (match send_message env (length (bot_calls w)) m with
            | None => delivered w ++ [m]
            | Some _ => delivered w
            end).
    destruct (send_message env (length (bot_calls w)) m);
      by rewrite <- ?app_assoc.
Qed.

Lemma returns_send_news_notifications items :
  returns (send_news_notifications env items).
Proof.
  intros w. exists tt. apply (send_news_notifications_spec items w).
Qed.

Lemma quiet_send_news_notifications items :
  quiet (send_news_notifications env items).
Proof.
  intros w.
  destruct (send_news_notifications_spec items w)
    as (_ & _ & _ & ? & ? & ? & ? & ?).
  done.
Qed.

Lemma returns_fetch_latest_news : returns (fetch_latest_news env).
Proof. unfold fetch_latest_news. auto with returns. Qed.

Lemma quiet_fetch_latest_news : quiet (fetch_latest_news env).
Proof.
  unfold fetch_latest_news. apply quiet_try; [|auto with quiet].
  intros w. by destruct (news_feed env (cycle w)).
Qed.

Lemma fetch_latest_news_calls w :
  bot_calls (fetch_latest_news env w).2 = bot_calls w.
Proof.
  unfold fetch_latest_news, try_except, bind, logging, ret.
  by destruct (news_feed env (cycle w)).
Qed.

Lemma returns_check_news_async : returns (check_news_async env).
Proof.
  unfold check_news_async. apply returns_bind; [by intros w; exists (db w)|].
  intros d. destruct (get_coins d); [auto with returns|].
  apply returns_bind; [apply returns_fetch_latest_news|].
  intros [|item items]; [auto with returns|].
  apply returns_bind; [apply returns_send_news_notifications|].
  auto with returns.
Qed.

Lemma quiet_check_news_async : quiet (check_news_async env).
Proof.
  unfold check_news_async. apply quiet_bind; [apply quiet_get_db|].
  intros d. destruct (get_coins d); [auto with quiet|].
  apply quiet_bind; [apply quiet_fetch_latest_news|].
  intros [|item items]; [auto with quiet|].
  apply quiet_bind; [apply quiet_send_news_notifications|].
  auto with quiet.
Qed.

(** The news phase calls the bot for news items only. *)
Lemma check_news_async_calls w :
  exists items,
    bot_calls (check_news_async env w).2
    = bot_calls w ++ (news_message <$> items).
Proof.
  unfold check_news_async, bind at 1, get_db.
  destruct (get_coins (db w)); [exists []; simpl; by rewrite app_nil_r|].
  unfold bind at 1.
  pose proof (fetch_latest_news_calls w) as Hcalls.
  destruct (fetch_latest_news env w) as [[items|e] w1]; simpl in Hcalls;
    [|exists []; simpl; by rewrite app_nil_r].
  destruct items as [|item items];
    [exists []; simpl; by rewrite app_nil_r|].
  exists (item :: items). unfold bind.
  destruct (send_news_notifications_spec (item :: items) w1)
    as (Hret & Hc & _).
  destruct (send_news_notifications env (item :: items) w1) as [[[]|e] w2];
    simpl in *; [|done].
  by rewrite Hc, Hcalls.
Qed.

End Deliveries.

(** ** Cycles *)

Section Cycles.

Variable env : environment.

Local Open Scope py_scope.

Lemma paced_quiet {A} (m : M A) : quiet m -> paced m.
Proof. intros Hm w. destruct (Hm w) as (_ & _ & ? & ? & _). done. Qed.

Lemma paced_bind {A B} (m : M A) (k : A -> M B) :
  paced m -> (forall a, paced (k a)) -> paced (bind m k).
Proof.
  intros Hm Hk w. unfold bind. pose proof (Hm w) as Hw.
  destruct (m w) as [[a|e] w']; simpl in Hw; [|exact Hw].
  pose proof (Hk a w') as Hw'. destruct Hw as [? ?], Hw' as [? ?].
  split; congruence.
Qed.

Lemma paced_try {A} (m : M A) (h : exception -> M A) :
  paced m -> (forall e, paced (h e)) -> paced (try_except m h).
Proof.
  intros Hm Hh w. unfold try_except. pose proof (Hm w) as Hw.
  destruct (m w) as [[a|e] w']; simpl in Hw; [exact Hw|].
  pose proof (Hh e w') as Hw'. destruct Hw as [? ?], Hw' as [? ?].
  split; congruence.
Qed.

Lemma paced_for_each {A} (xs : list A) (body : A -> M unit) :
  (forall x, paced (body x)) -> paced (for_each xs body).
Proof.
  intros Hb. induction xs as [|x xs IH]; simpl.
  - by intros w.
  - apply paced_bind; [apply Hb | intros _; exact IH].
Qed.

Lemma paced_log_price coin p : paced (log_price coin p).
Proof.
  intros w. unfold log_price, try_except, insert_price, logging.
  by destruct (PrimFloat.is_nan p).
Qed.

Lemma paced_watch_coin response entry : paced (watch_coin env response entry).
Proof.
  destruct entry as [coin thr]. unfold watch_coin.
  destruct (response !! coin) as [cd|]; [|by intros w].
  destruct (eur_24h_change cd) as [change|]; [|by intros w].
  apply paced_bind.
  - destruct (truthy_price (eur cd)); [apply paced_log_price | by intros w].
  - intros _. apply paced_bind.
    + apply paced_quiet, quiet_threshold_alert.
    + intros _. apply paced_quiet, quiet_check_run.
Qed.

Lemma paced_check_price_increase_async :
  paced (check_price_increase_async env).
Proof.
  unfold check_price_increase_async.
  apply paced_bind; [by intros w|]. intros d.
  destruct (get_coins d) as [|entry entries]; [by intros w|].
  apply paced_try.
  - apply paced_bind.
    + intros w. unfold fetch_prices. by destruct (price_feed env (cycle w)).
    + intros response. apply paced_for_each. intros x. apply paced_watch_coin.
  - intros e. apply paced_bind; [by intros w|]. intros _.
    apply paced_quiet, quiet_send_notification.
Qed.

Lemma returns_check_price_increase_async :
  returns (check_price_increase_async env).
Proof.
  unfold check_price_increase_async.
  apply returns_bind; [by intros w; exists (db w)|]. intros d.
  destruct (get_coins d); auto with returns.
Qed.

Lemma returns_watch_cycle : returns (watch_cycle env).
Proof.
  unfold watch_cycle.
  apply returns_bind; [apply returns_check_price_increase_async|]. intros _.
  apply returns_bind; [apply returns_check_news_async|]. intros _.
  apply returns_bind; by intros w; exists tt.
Qed.

Lemma returns_start_watching n : returns (start_watching env n).
Proof.
  induction n as [|n IH]; simpl; [apply returns_ret|].
  apply returns_bind; [apply returns_watch_cycle | intros _; exact IH].
Qed.

(** One iteration: the two phases, then the sleep and the next iteration. *)
Lemma watch_cycle_eq w :
  let w1 := (check_price_increase_async env w).2 in
  let w2 := (check_news_async env w1).2 in
  watch_cycle env w
  = (Return tt,
     {| db := db w2; clock := clock w2 + Z.max 0 (CHECK_INTERVAL env);
        cycle := S (cycle w2); bot_calls := bot_calls w2;
        delivered := delivered w2; logfile := logfile w2;
        pending_tasks := pending_tasks w2;
        sleeps := sleeps w2 ++ [CHECK_INTERVAL env] |}).
Proof.
  intros w1 w2. unfold watch_cycle, bind.
  pose proof (returns_unit _ w returns_check_price_increase_async) as H1.
  fold w1 in H1. destruct (check_price_increase_async env w) as [r1 w1'].
  simpl in w1, H1. subst r1 w1.
  pose proof (returns_unit _ w1' (returns_check_news_async env)) as H2.
  fold w2 in H2. destruct (check_news_async env w1') as [r2 w2'].
  simpl in w2, H2. subst r2 w2. reflexivity.
Qed.

Lemma watch_cycle_pace w :
  cycle (watch_cycle env w).2 = S (cycle w)
  /\ sleeps (watch_cycle env w).2 = sleeps w ++ [CHECK_INTERVAL env].
Proof.
  rewrite watch_cycle_eq. simpl.
  destruct (paced_quiet _ (quiet_check_news_async env)
              (check_price_increase_async env w).2) as [-> ->].
  destruct (paced_check_price_increase_async w) as [-> ->]. done.
Qed.

Lemma start_watching_pace n w :
  cycle (start_watching env n w).2 = (cycle w + n)%nat
  /\ sleeps (start_watching env n w).2
     = sleeps w ++ replicate n (CHECK_INTERVAL env).
Proof.
  revert w. induction n as [|n IH]; intros w.
  - simpl. by rewrite Nat.add_0_r, app_nil_r.
  - simpl start_watching. unfold bind.
    pose proof (returns_unit _ w returns_watch_cycle) as Hret.
    destruct (watch_cycle_pace w) as [Hc Hs].
    destruct (watch_cycle env w) as [r w']. simpl in *. subst r.
    destruct (IH w') as [-> ->]. rewrite Hc, Hs. split; [lia|].
    by rewrite <- app_assoc.
Qed.

End Cycles.

(** C2, as stated, fails for a malformed response: the body parses, the entry
    of bitcoin holds [null] for the change, and the cycle records the sample
    of bitcoin before the comparison raises and the diagnostic notification
    is sent. *)
Lemma malformed_entry_recorded :
  let w1 := (check_price_increase_async null_change bitcoin_world).2 in
  price_history (db bitcoin_world) = []
  /\ bot_calls w1 = [FetchErrorMsg TypeError]
  /\ logfile w1
     = logfile bitcoin_world
         ++ [(ERROR, PriceFetchFailed TypeError);
             (INFO, NotificationSent (FetchErrorMsg TypeError))]
  /\ price_history (db w1)
     = [ {| price_rowid := 1; price_coin_id := "bitcoin"; timestamp := 0;
            price := 100 |} ].
Proof. vm_compute. done. Qed.

(** C2, amended: when the batched price fetch of a cycle itself fails (it
    raises [e]: a transport error, a timeout, a body that is not JSON), the
    cycle logs the error, calls the notifier once with the diagnostic
    message, leaves the price history as it was, returns, sleeps for the
    configured interval and goes on with the next cycle. The watch-list is
    not empty: otherwise no fetch is made. *)
Theorem price_fetch_failure env w e :
  get_coins (db w) <> [] ->
  price_feed env (cycle w) = inl e ->
  let w1 := (check_price_increase_async env w).2 in
  let w2 := (watch_cycle env w).2 in
  (check_price_increase_async env w).1 = Return tt
  /\ db w1 = db w
  /\ bot_calls w1 = bot_calls w ++ [FetchErrorMsg e]
  /\ logfile w1
     = logfile w
         ++ [(ERROR, PriceFetchFailed e);
             match send_message env (length (bot_calls w)) (FetchErrorMsg e) with
             | None => (INFO, NotificationSent (FetchErrorMsg e))
             | Some e' => (ERROR, NotificationFailed e')
             end]
  /\ (watch_cycle env w).1 = Return tt
  /\ price_history (db w2) = price_history (db w)
  /\ (exists items,
        bot_calls w2
        = bot_calls w ++ [FetchErrorMsg e] ++ (news_message <$> items))
  /\ sleeps w2 = sleeps w ++ [CHECK_INTERVAL env]
  /\ cycle w2 = S (cycle w)
  /\ forall n,
       start_watching env (S n) w = start_watching env n w2
       /\ (start_watching env n w2).1 = Return tt.
Proof.
  intros Hcoins Hfeed w1 w2.
  assert (Heq : check_price_increase_async env w
                = send_notification env (FetchErrorMsg e)
                    (logging ERROR (PriceFetchFailed e) w).2).
  { unfold check_price_increase_async, bind at 1, get_db.
    destruct (get_coins (db w)) as [|entry entries]; [done|].
    unfold try_except, bind at 1, fetch_prices. rewrite Hfeed.
    reflexivity. }
  assert (Hw1 : w1 = after_send env (FetchErrorMsg e)
                       (logging ERROR (PriceFetchFailed e) w).2).
  { unfold w1. by rewrite Heq, send_notification_eq. }
  assert (Hdb1 : db w1 = db w) by (by rewrite Hw1).
  assert (Hcalls1 : bot_calls w1 = bot_calls w ++ [FetchErrorMsg e])
    by (by rewrite Hw1).
  split; [apply returns_unit, returns_check_price_increase_async|].
  split; [exact Hdb1|]. split; [exact Hcalls1|].
  split; [rewrite Hw1; simpl; by rewrite <- app_assoc|].
  split; [apply returns_unit, returns_watch_cycle|].
  pose proof (watch_cycle_eq env w) as Hcycle. cbv zeta in Hcycle.
  fold w1 in Hcycle.
  destruct (quiet_check_news_async env w1) as (Hdb2 & _).
  split; [unfold w2; rewrite Hcycle; simpl; by rewrite Hdb2, Hdb1|].
  split.
  { destruct (check_news_async_calls env w1) as [items Hitems].
    exists items. unfold w2. rewrite Hcycle. simpl.
    by rewrite Hitems, Hcalls1, <- app_assoc. }
  destruct (watch_cycle_pace env w) as [Hc Hs].
  split; [exact Hs|]. split; [exact Hc|].
  intros n. split; [|apply returns_unit, returns_start_watching].
  simpl start_watching. unfold bind, w2. by rewrite Hcycle.
Qed.

Lemma price_fetch_failure_witness :
  (get_coins (db bitcoin_world) <> []
   /\ price_feed offline (cycle bitcoin_world) = inl TimeoutError)
  /\ bot_calls (watch_cycle offline bitcoin_world).2
     = [FetchErrorMsg TimeoutError]
  /\ price_history (db (watch_cycle offline bitcoin_world).2) = []
  /\ sleeps (watch_cycle offline bitcoin_world).2 = [3600]
  /\ start_watching offline 2 bitcoin_world
     = start_watching offline 1 (watch_cycle offline bitcoin_world).2.
Proof.
  assert (H1 : get_coins (db bitcoin_world) <> [])
    by (vm_compute; discriminate).
  assert (H2 : price_feed offline (cycle bitcoin_world) = inl TimeoutError)
    by reflexivity.
  split; [by split|].
  destruct (price_fetch_failure offline bitcoin_world TimeoutError H1 H2)
    as (_ & _ & _ & _ & _ & Hhist & _ & Hsleeps & _ & Hnext).
  split; [vm_compute; reflexivity|].
  split; [exact Hhist|]. split; [exact Hsleeps|]. apply Hnext.
Defined.

(** A message whose own call succeeds is among the deliveries. *)
Lemma deliveries_elem env ms k i m :
  ms !! i = Some m ->
  send_message env (k + i) m = None ->
  m ∈ deliveries env k ms.
Proof.
  revert k i. induction ms as [|m0 ms IH]; intros k i Hi Hok; [done|].
  simpl deliveries. apply elem_of_app. destruct i as [|i]; simpl in Hi.
  - simplify_eq. left. rewrite Nat.add_0_r in Hok. rewrite Hok.
    by apply list_elem_of_singleton.
  - right. apply (IH (S k) i Hi).
    by replace (S k + i)%nat with (k + S i)%nat by lia.
Qed.

(** C9: a delivery failure is logged and goes no further. Every notification
    is handed to the bot exactly once and in order, whichever of the calls
    fail; an item is delivered whenever its own call succeeds; and the loop
    of [start_watching] completes every iteration, each ending in its sleep. *)
Theorem delivery_failure_isolated env items m n w :
  ((send_notification env m w).1 = Return tt
   /\ bot_calls (send_notification env m w).2 = bot_calls w ++ [m]
   /\ forall e, send_message env (length (bot_calls w)) m = Some e ->
        logfile (send_notification env m w).2
        = logfile w ++ [(ERROR, NotificationFailed e)]
        /\ delivered (send_notification env m w).2 = delivered w)
  /\ (let r := send_news_notifications env items w in
      r.1 = Return tt
      /\ bot_calls r.2 = bot_calls w ++ (news_message <$> items)
      /\ delivered r.2
         = delivered w
             ++ deliveries env (length (bot_calls w)) (news_message <$> items)
      /\ forall (i : nat) item,
           items !! i = Some item ->
           send_message env (length (bot_calls w) + i) (news_message item)
           = None ->
           news_message item ∈ delivered r.2)
  /\ (watch_cycle env w).1 = Return tt
  /\ (start_watching env n w).1 = Return tt
  /\ cycle (start_watching env n w).2 = (cycle w + n)%nat
  /\ sleeps (start_watching env n w).2
     = sleeps w ++ replicate n (CHECK_INTERVAL env).
Proof.
  split; [|split; [|split; [|split]]].
  - rewrite send_notification_eq. split; [done|]. split; [done|].
    intros e He. unfold after_send. simpl. by rewrite He.
  - destruct (send_news_notifications_spec env items w)
      as (Hret & Hcalls & Hdel & _).
    cbv zeta. split; [exact Hret|]. split; [exact Hcalls|].
    split; [exact Hdel|]. intros i item Hi Hok. rewrite Hdel.
    apply elem_of_app. right.
    apply (deliveries_elem env _ _ i); [|exact Hok].
    by rewrite list_lookup_fmap, Hi.
  - apply returns_unit, returns_watch_cycle.
  - apply returns_unit, returns_start_watching.
  - apply start_watching_pace.
Qed.

Example flaky_delivery :
  let items :=
    [ {| title := Some "a"; url := None |};
      {| title := Some "b"; url := None |};
      {| title := Some "c"; url := None |} ] in
  let r := send_news_notifications flaky items fresh_world in
  r.1 = Return tt
  /\ delivered r.2 = [NewsMsg (Some "a") None; NewsMsg (Some "c") None]
  /\ logfile r.2
     = [(INFO, NotificationSent (NewsMsg (Some "a") None));
        (ERROR, NotificationFailed TelegramError);
        (INFO, NotificationSent (NewsMsg (Some "c") None))].
Proof. vm_compute. done. Qed.

(** ** The watch-list *)

Section WatchList.

Local Open Scope py_scope.

Lemma add_coin_coins coin thr w :
  PrimFloat.is_nan thr = false ->
  db (add_coin coin thr w).2
  = set_coins (db w)
      (filter (fun r => coin_id r ≠ coin) (coins (db w))
         ++ [ {| coin_rowid := coins_seq (db w) + 1; coin_id := coin;
                 threshold := thr |} ])
      (coins_seq (db w) + 1).
Proof.
  intros Hnan.
  unfold add_coin, try_except, bind, insert_or_replace_coin, get_db.
  rewrite Hnan. reflexivity.
Qed.

Lemma entries_of_others coin (cs : list coin_row) :
  filter (fun entry : string * float => entry.1 = coin)
    (map (fun r => (coin_id r, threshold r))
       (filter (fun r => coin_id r ≠ coin) cs)) = [].
Proof.
  induction cs as [|r cs IH]; [done|].
  rewrite filter_cons. destruct (decide (coin_id r ≠ coin)) as [Hne|He].
  - simpl. rewrite filter_cons. simpl. by rewrite decide_False.
  - exact IH.
Qed.

Lemma others_twice coin (cs : list coin_row) rowid thr :
  filter (fun r => coin_id r ≠ coin)
    (filter (fun r => coin_id r ≠ coin) cs
       ++ [ {| coin_rowid := rowid; coin_id := coin; threshold := thr |} ])
  = filter (fun r => coin_id r ≠ coin) cs.
Proof.
  rewrite filter_app, filter_cons. simpl.
  rewrite decide_False by (by intros H; apply H).
  rewrite filter_nil, app_nil_r.
  induction cs as [|r cs IH]; [done|].
  rewrite filter_cons. destruct (decide (coin_id r ≠ coin)) as [Hne|He].
  - rewrite filter_cons, decide_True by done. by rewrite IH.
  - exact IH.
Qed.

End WatchList.

(** C7: [add_coin] is idempotent on the watch-list. After two calls with the
    same arguments the list of watched coins is the list after one call, and
    holds exactly one entry for the coin, with the threshold given. The
    threshold is a number: SQLite stores a NaN as NULL, which the column
    refuses. *)
Theorem add_coin_idempotent coin thr w :
  PrimFloat.is_nan thr = false ->
  let once := (add_coin coin thr w).2 in
  let twice := (add_coin coin thr once).2 in
  get_coins (db twice) = get_coins (db once)
  /\ watch_entries (db twice) coin = [(coin, thr)]
  /\ watch_entries (db once) coin = [(coin, thr)]
  /\ length (watch_entries (db twice) coin) = 1%nat
  /\ price_history (db twice) = price_history (db once)
  /\ config (db twice) = config (db once).
Proof.
  intros Hnan once twice.
  assert (Honce : db once = _) by apply (add_coin_coins coin thr w Hnan).
  assert (Htwice : db twice = _) by apply (add_coin_coins coin thr once Hnan).
  assert (Hentries : forall cs rowid,
             filter (fun entry : string * float => entry.1 = coin)
               (map (fun r => (coin_id r, threshold r))
                  (filter (fun r => coin_id r ≠ coin) cs
                     ++ [ {| coin_rowid := rowid; coin_id := coin;
                             threshold := thr |} ]))
             = [(coin, thr)]).
  { intros cs rowid. rewrite map_app, filter_app, entries_of_others.
    simpl. rewrite filter_cons. simpl. by rewrite decide_True. }
  assert (H2 : watch_entries (db twice) coin = [(coin, thr)]).
  { unfold watch_entries, get_coins. rewrite Htwice. apply Hentries. }
  split.
  { unfold get_coins. rewrite Htwice, Honce. simpl.
    rewrite others_twice. by rewrite !map_app. }
  split; [exact H2|]. split.
  { unfold watch_entries, get_coins. rewrite Honce. apply Hentries. }
  split; [by rewrite H2|].
  rewrite Htwice. by split.
Qed.

Lemma add_coin_idempotent_witness :
  PrimFloat.is_nan 5 = false
  /\ get_coins (db (add_coin "bitcoin" 5%float bitcoin_world).2)
     = get_coins (db bitcoin_world)
  /\ get_coins (db (add_coin "bitcoin" 5%float bitcoin_world).2)
     = [("bitcoin", 5%float)]
  /\ coins (db (add_coin "bitcoin" 5%float bitcoin_world).2)
     = [ {| coin_rowid := 2; coin_id := "bitcoin"; threshold := 5 |} ].
Proof.
  assert (Hnan : PrimFloat.is_nan 5 = false) by reflexivity.
  split; [exact Hnan|].
  destruct (add_coin_idempotent "bitcoin" 5%float fresh_world Hnan)
    as (Hsame & _).
  split; [exact Hsame|]. split; vm_compute; reflexivity.
Defined.

(** ** The configuration *)

Section Configuration.

Local Open Scope py_scope.

Lemma insert_or_ignore_lookup k v c :
  is_Some (insert_or_ignore k v c !! k).
Proof.
  unfold insert_or_ignore. destruct (c !! k) eqn:Hk.
  - rewrite Hk. by eexists.
  - rewrite lookup_insert_eq. by eexists.
Qed.

Lemma insert_or_ignore_keeps k v c k' :
  is_Some (c !! k') -> is_Some (insert_or_ignore k v c !! k').
Proof.
  intros Hk'. unfold insert_or_ignore. destruct (c !! k) eqn:Hk; [done|].
  destruct (decide (k = k')) as [->|Hne].
  - rewrite lookup_insert_eq. by eexists.
  - by rewrite lookup_insert_ne.
Qed.

Lemma init_db_has_rows d key :
  recognized key -> is_Some (config (init_db d) !! key).
Proof.
  intros [->| ->]; unfold init_db; simpl.
  - apply insert_or_ignore_keeps, insert_or_ignore_lookup.
  - apply insert_or_ignore_lookup.
Qed.

Lemma set_config_db key value w :
  db (set_config key value w).2
  = set_config_table (db w)
      (match config (db w) !! key with
       | Some _ => <[key := value]> (config (db w))
       | None => config (db w)
       end).
Proof. reflexivity. Qed.

Lemma set_run_periods_eq parsed w :
  text_handler_set_run_periods parsed w
  = match parsed with
    | Some n =>
        if n <=? 0 then (Return false, w)
        else (Return true, (set_config RUN_CONSECUTIVE_PERIODS (str_int n) w).2)
    | None => (Return false, w)
    end.
Proof.
  unfold text_handler_set_run_periods, try_except, bind, ret, raise.
  destruct parsed as [n|]; [|reflexivity]. by destruct (n <=? 0).
Qed.

Lemma set_run_threshold_eq parsed w :
  text_handler_set_run_threshold parsed w
  = match parsed with
    | Some x =>
        if PrimFloat.leb x PrimFloat.zero then (Return false, w)
        else (Return true, (set_config RUN_THRESHOLD_PERCENT (str_float x) w).2)
    | None => (Return false, w)
    end.
Proof.
  unfold text_handler_set_run_threshold, try_except, bind, ret, raise.
  destruct parsed as [x|]; [|reflexivity].
  by destruct (PrimFloat.leb x PrimFloat.zero).
Qed.

Lemma periods_valid_handle i w :
  periods_valid (db w) -> periods_valid (db (handle_config_input i w).2).
Proof.
  intros (m & Hm & Hm1). destruct i as [parsed|parsed]; simpl.
  - rewrite set_run_periods_eq. destruct parsed as [n|]; [|by exists m].
    destruct (Z.leb_spec n 0); [by exists m|].
    exists n. cbn [snd]. rewrite set_config_db. simpl. rewrite Hm.
    rewrite lookup_insert_eq. split; [done | lia].
  - rewrite set_run_threshold_eq. destruct parsed as [x|]; [|by exists m].
    destruct (PrimFloat.leb x PrimFloat.zero); [by exists m|].
    exists m. cbn [snd]. rewrite set_config_db. simpl.
    destruct (config (db w) !! RUN_THRESHOLD_PERCENT); [|done].
    by rewrite lookup_insert_ne.
Qed.

End Configuration.

(** C3: for a recognized key whose row [init_db] has created,
    [set_config(k, v)] followed by [get_config(k)] returns [float(v)], the
    float itself when [v] is the text of a float, and leaves the other keys
    alone; [init_db] creates the row of both keys; a key never set reads as
    its default, 10 and 5, and [check_run] falls back on the same defaults
    when a row is missing. *)
Theorem config_round_trip key value w :
  recognized key ->
  is_Some (config (db w) !! key) ->
  get_config (db (set_config key value w).2) key = Some (py_float value)
  /\ (forall x, value = str_float x ->
        get_config (db (set_config key value w).2) key = Some x)
  /\ (forall key', key' <> key ->
        get_config (db (set_config key value w).2) key'
        = get_config (db w) key')
  /\ (forall d, is_Some (config (init_db d) !! key))
  /\ get_config (init_db empty_db) RUN_THRESHOLD_PERCENT = Some 10%float
  /\ get_config (init_db empty_db) RUN_CONSECUTIVE_PERIODS = Some 5%float
  /\ (forall d, config d !! RUN_THRESHOLD_PERCENT = None ->
        run_threshold_setting d = Py.Int 10)
  /\ (forall d, config d !! RUN_CONSECUTIVE_PERIODS = None ->
        run_periods_setting d = Py.Int 5).
Proof.
  intros Hkey [old Hold].
  assert (Hget : get_config (db (set_config key value w).2) key
                 = Some (py_float value)).
  { rewrite set_config_db. unfold get_config. simpl.
    by rewrite Hold, lookup_insert_eq. }
  split; [exact Hget|]. split; [by intros x ->|]. split.
  { intros key' Hne. rewrite set_config_db. unfold get_config. simpl.
    rewrite Hold. by rewrite lookup_insert_ne. }
  split; [intros d; by apply init_db_has_rows|].
  split; [vm_compute; reflexivity|]. split; [vm_compute; reflexivity|].
  split; intros d Hd.
  - unfold run_threshold_setting, get_config. by rewrite Hd.
  - unfold run_periods_setting, get_config. by rewrite Hd.
Qed.

Lemma config_round_trip_witness :
  (recognized RUN_THRESHOLD_PERCENT
   /\ is_Some (config (db fresh_world) !! RUN_THRESHOLD_PERCENT))
  /\ get_config
       (db (set_config RUN_THRESHOLD_PERCENT (str_float 15) fresh_world).2)
       RUN_THRESHOLD_PERCENT
     = Some 15%float
  /\ get_config
       (db (set_config RUN_CONSECUTIVE_PERIODS (str_int 7) fresh_world).2)
       RUN_CONSECUTIVE_PERIODS
     = Some 7%float.
Proof.
  assert (H1 : recognized RUN_THRESHOLD_PERCENT) by (by left).
  assert (H2 : recognized RUN_CONSECUTIVE_PERIODS) by (by right).
  assert (H1' : is_Some (config (db fresh_world) !! RUN_THRESHOLD_PERCENT))
    by (exists (str_int 10); vm_compute; reflexivity).
  assert (H2' : is_Some (config (db fresh_world) !! RUN_CONSECUTIVE_PERIODS))
    by (exists (str_int 5); vm_compute; reflexivity).
  split; [by split|]. split.
  - destruct (config_round_trip RUN_THRESHOLD_PERCENT (str_float 15)
                fresh_world H1 H1') as (Hget & _).
    exact Hget.
  - destruct (config_round_trip RUN_CONSECUTIVE_PERIODS (str_int 7)
                fresh_world H2 H2') as (Hget & _).
    rewrite Hget. vm_compute. reflexivity.
Defined.

(** C4, as stated, fails: the value 1 is not at least 2, and the handler
    accepts it and writes it to the store. *)
Lemma periods_one_reaches_store :
  ~ 2 <= 1
  /\ (text_handler_set_run_periods (Some 1) fresh_world).1 = Return true
  /\ config (db (text_handler_set_run_periods (Some 1) fresh_world).2)
       !! RUN_CONSECUTIVE_PERIODS
     = Some (str_int 1)
  /\ get_config (db (text_handler_set_run_periods (Some 1) fresh_world).2)
       RUN_CONSECUTIVE_PERIODS
     = Some 1%float.
Proof.
  split; [lia|]. split; [reflexivity|]. split; vm_compute; reflexivity.
Qed.

(** C4, amended: the handler refuses every text that is not an integer of at
    least 1 and leaves the world as it was; it accepts every integer of at
    least 1 and stores it; so, from the defaults on and whatever the admin
    sends, the run periods in the store are an integer of at least 1. *)
Theorem set_run_periods_boundary parsed inputs w :
  ((parsed = None \/ exists n, parsed = Some n /\ n <= 0) ->
     text_handler_set_run_periods parsed w = (Return false, w))
  /\ (forall n, parsed = Some n -> 1 <= n ->
        (text_handler_set_run_periods parsed w).1 = Return true
        /\ (is_Some (config (db w) !! RUN_CONSECUTIVE_PERIODS) ->
            config (db (text_handler_set_run_periods parsed w).2)
              !! RUN_CONSECUTIVE_PERIODS
            = Some (str_int n)))
  /\ periods_valid (db fresh_world)
  /\ periods_valid (db (after_inputs inputs fresh_world)).
Proof.
  split; [|split; [|split]].
  - rewrite set_run_periods_eq. intros [->|(n & -> & Hn)]; [done|].
    by destruct (Z.leb_spec n 0); [|lia].
  - intros n -> Hn. rewrite set_run_periods_eq.
    destruct (Z.leb_spec n 0); [lia|]. split; [done|].
    intros [old Hold]. cbn [snd]. rewrite set_config_db. simpl.
    by rewrite Hold, lookup_insert_eq.
  - exists 5. split; [vm_compute; reflexivity | lia].
  - assert (Hall : forall w0, periods_valid (db w0) ->
                     periods_valid (db (after_inputs inputs w0))).
    { induction inputs as [|i inputs IH]; intros w0 Hw0; [done|].
      simpl. apply IH. by apply periods_valid_handle. }
    apply Hall. exists 5. split; [vm_compute; reflexivity | lia].
Qed.

(** * Further properties *)

(** ** The watch-list *)

Section WatchListCalls.

Local Open Scope py_scope.

Lemma remove_coin_eq coin w :
  remove_coin coin w
  = (Return tt,
     {| db := set_coins (db w)
                (filter (fun r => coin_id r ≠ coin) (coins (db w)))
                (coins_seq (db w));
        clock := clock w; cycle := cycle w; bot_calls := bot_calls w;
        delivered := delivered w;
        logfile := logfile w ++ [(INFO, CoinRemoved coin)];
        pending_tasks := pending_tasks w ++ [CoinRemovedMsg coin];
        sleeps := sleeps w |}).
Proof. reflexivity. Qed.

Lemma add_coin_nan coin thr w :
  PrimFloat.is_nan thr = true ->
  add_coin coin thr w
  = (Return tt, (logging ERROR (AddCoinFailed IntegrityError) w).2).
Proof.
  intros Hnan.
  unfold add_coin, try_except, bind, insert_or_replace_coin, get_db.
  by rewrite Hnan.
Qed.

(** The entries of the rows that are kept are the entries that are kept. *)
Lemma entries_filter coin (cs : list coin_row) :
  map (fun r => (coin_id r, threshold r))
    (filter (fun r => coin_id r ≠ coin) cs)
  = filter (fun entry : string * float => entry.1 ≠ coin)
      (map (fun r => (coin_id r, threshold r)) cs).
Proof.
  induction cs as [|r cs IH]; [done|].
  simpl map. rewrite !filter_cons. simpl.
  destruct (decide (coin_id r ≠ coin)); simpl; by rewrite IH.
Qed.

Lemma entries_of_other coin coin' (l : list (string * float)) :
  coin' ≠ coin ->
  filter (fun entry : string * float => entry.1 = coin')
    (filter (fun entry : string * float => entry.1 ≠ coin) l)
  = filter (fun entry : string * float => entry.1 = coin') l.
Proof.
  intros Hne. apply list_filter_filter_l. intros entry ->. done.
Qed.

Lemma entries_unwatched coin (l : list (string * float)) :
  filter (fun entry : string * float => entry.1 = coin) l = [] ->
  filter (fun entry : string * float => entry.1 ≠ coin) l = l.
Proof.
  induction l as [|entry l IH]; [done|].
  rewrite !filter_cons.
  destruct (decide (entry.1 = coin)) as [He|Hne]; [done|].
  intros Hl. rewrite decide_True by done. by rewrite IH.
Qed.

Lemma entries_removed coin (l : list (string * float)) :
  filter (fun entry : string * float => entry.1 = coin)
    (filter (fun entry : string * float => entry.1 ≠ coin) l) = [].
Proof.
  induction l as [|entry l IH]; [done|].
  rewrite filter_cons. destruct (decide (entry.1 ≠ coin)) as [Hne|He].
  - by rewrite filter_cons, decide_False.
  - exact IH.
Qed.

Lemma entries_absent coin (l : list (string * float)) :
  coin ∉ l.*1 ->
  filter (fun entry : string * float => entry.1 = coin) l = [].
Proof.
  induction l as [|entry l IH]; [done|].
  rewrite fmap_cons, not_elem_of_cons. intros [Hne Hl].
  rewrite filter_cons, decide_False by congruence. by apply IH.
Qed.

Lemma entries_at_most_one coin (l : list (string * float)) :
  NoDup l.*1 ->
  (length (filter (fun entry : string * float => entry.1 = coin) l) <= 1)%nat.
Proof.
  induction l as [|entry l IH]; [simpl; lia|].
  rewrite fmap_cons, NoDup_cons. intros [Hnot Hl].
  rewrite filter_cons. destruct (decide (entry.1 = coin)) as [He|Hne];
    [|by apply IH].
  rewrite entries_absent by congruence. simpl. lia.
Qed.

Lemma get_coins_add coin thr w :
  PrimFloat.is_nan thr = false ->
  get_coins (db (add_coin coin thr w).2)
  = filter (fun entry => entry.1 ≠ coin) (get_coins (db w)) ++ [(coin, thr)].
Proof.
  intros Hnan. rewrite (add_coin_coins coin thr w Hnan).
  unfold get_coins. simpl. by rewrite map_app, entries_filter.
Qed.

Lemma get_coins_remove coin w :
  get_coins (db (remove_coin coin w).2)
  = filter (fun entry => entry.1 ≠ coin) (get_coins (db w)).
Proof. rewrite remove_coin_eq. unfold get_coins. simpl. apply entries_filter. Qed.

Lemma kept_rows_sound coin d :
  coins_table_sound d ->
  NoDup (coin_id <$> filter (fun r => coin_id r ≠ coin) (coins d))
  /\ NoDup (coin_rowid <$> filter (fun r => coin_id r ≠ coin) (coins d))
  /\ forall r, r ∈ filter (fun r => coin_id r ≠ coin) (coins d) ->
       coin_rowid r <= coins_seq d /\ coin_id r ≠ coin.
Proof.
  intros (Hids & Hrows & Hseq).
  assert (Hsub : filter (fun r => coin_id r ≠ coin) (coins d) `sublist_of` coins d)
    by apply sublist_filter.
  split; [|split].
  - exact (sublist_NoDup _ _ Hids (fmap_sublist coin_id _ _ Hsub)).
  - exact (sublist_NoDup _ _ Hrows (fmap_sublist coin_rowid _ _ Hsub)).
  - intros r Hr. apply list_elem_of_filter in Hr as [Hne Hr]. auto.
Qed.

Lemma coins_table_sound_call c w :
  coins_table_sound (db w) -> coins_table_sound (db (run_call c w).2).
Proof.
  intros Hw. destruct (kept_rows_sound
    match c with AddCoin coin _ | RemoveCoin coin => coin end (db w) Hw)
    as (Hids & Hrows & Hkept).
  destruct c as [coin thr|coin]; simpl run_call.
  - destruct (PrimFloat.is_nan thr) eqn:Hnan.
    { by rewrite (add_coin_nan coin thr w Hnan). }
    rewrite (add_coin_coins coin thr w Hnan). unfold coins_table_sound.
    simpl. rewrite !fmap_app. simpl. split; [|split].
    + apply NoDup_app. split; [exact Hids|]. split; [|apply NoDup_singleton].
      intros x Hx Hin. apply list_elem_of_singleton in Hin as ->.
      apply list_elem_of_fmap in Hx as (r & Heq & Hr).
      apply Hkept in Hr as [_ Hne]. congruence.
    + apply NoDup_app. split; [exact Hrows|]. split; [|apply NoDup_singleton].
      intros x Hx Hin. apply list_elem_of_singleton in Hin as ->.
      apply list_elem_of_fmap in Hx as (r & Heq & Hr).
      apply Hkept in Hr as [Hle _]. lia.
    + intros r Hr. apply elem_of_app in Hr as [Hr|Hr].
      * apply Hkept in Hr as [Hle _]. lia.
      * apply list_elem_of_singleton in Hr as ->. simpl. lia.
  - rewrite remove_coin_eq. unfold coins_table_sound. simpl.
    split; [exact Hids|]. split; [exact Hrows|].
    intros r Hr. by apply Hkept in Hr as [Hle _].
Qed.

End WatchListCalls.

(** X1: [remove_coin] takes the coin off the watch-list and keeps the other
    entries in their order; for a coin that is not watched the list stays as
    it is, and the notification of the removal is scheduled all the same. The
    price history of the coin is kept. *)
Theorem remove_coin_removes coin w :
  let w' := (remove_coin coin w).2 in
  (remove_coin coin w).1 = Return tt
  /\ get_coins (db w')
     = filter (fun entry => entry.1 ≠ coin) (get_coins (db w))
  /\ watch_entries (db w') coin = []
  /\ (forall coin', coin' ≠ coin ->
        watch_entries (db w') coin' = watch_entries (db w) coin')
  /\ (watch_entries (db w) coin = [] -> get_coins (db w') = get_coins (db w))
  /\ pending_tasks w' = pending_tasks w ++ [CoinRemovedMsg coin]
  /\ price_history (db w') = price_history (db w)
  /\ config (db w') = config (db w).
Proof.
  intros w'. pose proof (get_coins_remove coin w) as Hget. fold w' in Hget.
  split; [done|]. split; [exact Hget|]. split.
  { unfold watch_entries. rewrite Hget. apply entries_removed. }
  split.
  { intros coin' Hne. unfold watch_entries. rewrite Hget.
    by apply entries_of_other. }
  split.
  { intros Hnone. rewrite Hget. by apply entries_unwatched. }
  done.
Qed.

(** X2: Adding a coin that is not watched and removing it again gives back the
    watch-list as it was, whatever the threshold. *)
Theorem add_then_remove coin thr w :
  watch_entries (db w) coin = [] ->
  get_coins (db (remove_coin coin (add_coin coin thr w).2).2)
  = get_coins (db w).
Proof.
  intros Hnone. rewrite get_coins_remove.
  destruct (PrimFloat.is_nan thr) eqn:Hnan.
  - rewrite (add_coin_nan coin thr w Hnan). simpl.
    by apply entries_unwatched.
  - rewrite (get_coins_add coin thr w Hnan), filter_app.
    rewrite filter_cons, decide_False by (by intros H; apply H).
    rewrite filter_nil, app_nil_r.
    rewrite list_filter_filter_l by done. by apply entries_unwatched.
Qed.

Lemma add_then_remove_witness :
  watch_entries (db bitcoin_world) "ether" = []
  /\ get_coins
       (db (remove_coin "ether"
              (add_coin "ether" 3%float bitcoin_world).2).2)
     = [("bitcoin", 5%float)].
Proof.
  assert (H : watch_entries (db bitcoin_world) "ether" = [])
    by (vm_compute; reflexivity).
  split; [exact H|].
  rewrite (add_then_remove "ether" 3%float bitcoin_world H).
  vm_compute. reflexivity.
Defined.

(** X3: [add_coin] is an upsert: afterwards the coin is watched at the threshold
    given, whatever it was watched at before, and every other coin is watched
    as before. The threshold is a number. *)
Theorem add_coin_upserts coin thr w :
  PrimFloat.is_nan thr = false ->
  let w' := (add_coin coin thr w).2 in
  watch_entries (db w') coin = [(coin, thr)]
  /\ watched_threshold (db w') coin = Some thr
  /\ (forall coin', coin' ≠ coin ->
        watch_entries (db w') coin' = watch_entries (db w) coin'
        /\ watched_threshold (db w') coin' = watched_threshold (db w) coin')
  /\ price_history (db w') = price_history (db w)
  /\ config (db w') = config (db w)
  /\ pending_tasks w' = pending_tasks w ++ [CoinAddedMsg coin thr].
Proof.
  intros Hnan w'.
  pose proof (get_coins_add coin thr w Hnan) as Hget. fold w' in Hget.
  assert (Hentry : watch_entries (db w') coin = [(coin, thr)]).
  { unfold watch_entries. rewrite Hget, filter_app, entries_removed.
    by rewrite filter_cons, decide_True. }
  assert (Hother : forall coin', coin' ≠ coin ->
            watch_entries (db w') coin' = watch_entries (db w) coin').
  { intros coin' Hne. unfold watch_entries.
    rewrite Hget, filter_app, entries_of_other by done.
    rewrite filter_cons, decide_False by (simpl; congruence).
    by rewrite filter_nil, app_nil_r. }
  split; [exact Hentry|].
  split; [unfold watched_threshold; by rewrite Hentry|].
  split.
  { intros coin' Hne. unfold watched_threshold. by rewrite (Hother coin' Hne). }
  unfold w'. rewrite (add_coin_coins coin thr w Hnan).
  split; [done|]. split; [done|].
  unfold add_coin, try_except, bind, insert_or_replace_coin, get_db.
  by rewrite Hnan.
Qed.

Lemma add_coin_upserts_witness :
  PrimFloat.is_nan 7.5 = false
  /\ watched_threshold (db (add_coin "bitcoin" 7.5%float bitcoin_world).2)
       "bitcoin" = Some 7.5%float.
Proof.
  assert (Hnan : PrimFloat.is_nan 7.5 = false) by reflexivity.
  split; [exact Hnan|].
  destruct (add_coin_upserts "bitcoin" 7.5%float bitcoin_world Hnan)
    as (_ & H & _).
  exact H.
Defined.

(** X4: A threshold that is not a number never reaches the watch-list:
    [add_coin] logs the error, schedules no notification and leaves the
    database as it was. *)
Theorem add_coin_nan_refused coin thr w :
  PrimFloat.is_nan thr = true ->
  let r := add_coin coin thr w in
  r.1 = Return tt
  /\ db r.2 = db w
  /\ pending_tasks r.2 = pending_tasks w
  /\ logfile r.2 = logfile w ++ [(ERROR, AddCoinFailed IntegrityError)].
Proof. intros Hnan. by rewrite (add_coin_nan coin thr w Hnan). Qed.

Lemma add_coin_nan_refused_witness :
  PrimFloat.is_nan PrimFloat.nan = true
  /\ db (add_coin "bitcoin" PrimFloat.nan bitcoin_world).2 = db bitcoin_world.
Proof.
  assert (Hnan : PrimFloat.is_nan PrimFloat.nan = true) by reflexivity.
  split; [exact Hnan|].
  destruct (add_coin_nan_refused "bitcoin" PrimFloat.nan bitcoin_world Hnan)
    as (_ & H & _).
  exact H.
Defined.

(** X5: The UNIQUE constraint holds through any sequence of [add_coin] and
    [remove_coin] calls: no coin is on the watch-list twice, no two rows share
    a rowid, and every coin has at most one threshold. *)
Theorem watch_list_unique calls w :
  coins_table_sound (db w) ->
  coins_table_sound (db (after_calls calls w))
  /\ NoDup (get_coins (db (after_calls calls w))).*1
  /\ forall coin,
       (length (watch_entries (db (after_calls calls w)) coin) <= 1)%nat.
Proof.
  intros Hw.
  assert (Hsound : coins_table_sound (db (after_calls calls w))).
  { revert w Hw. induction calls as [|c calls IH]; intros w Hw; [exact Hw|].
    simpl. apply IH. by apply coins_table_sound_call. }
  assert (Hids : NoDup (get_coins (db (after_calls calls w))).*1).
  { destruct Hsound as (Hids & _). unfold get_coins.
    rewrite <- list_fmap_compose. exact Hids. }
  split; [exact Hsound|]. split; [exact Hids|].
  intros coin. unfold watch_entries.
  by apply entries_at_most_one.
Qed.

Lemma watch_list_unique_witness :
  coins_table_sound (db fresh_world)
  /\ NoDup (get_coins
              (db (after_calls
                     [AddCoin "bitcoin" 5; AddCoin "ether" 3;
                      RemoveCoin "ether"; AddCoin "bitcoin" 7]%float
                     fresh_world))).*1.
Proof.
  assert (H : coins_table_sound (db fresh_world)).
  { split; [constructor|]. split; [constructor|].
    intros r Hr. by apply elem_of_nil in Hr. }
  split; [exact H|].
  destruct (watch_list_unique
              [AddCoin "bitcoin" 5; AddCoin "ether" 3;
               RemoveCoin "ether"; AddCoin "bitcoin" 7]%float
              fresh_world H) as (_ & Hids & _).
  exact Hids.
Defined.

(** ** The price history over time *)

Section History.

Local Open Scope py_scope.

Lemma extends_refl d : extends d d.
Proof. by repeat split. Qed.

Lemma extends_trans d0 d1 d2 : extends d0 d1 -> extends d1 d2 -> extends d0 d2.
Proof.
  intros (? & ? & ? & ?) (? & ? & ? & ?).
  repeat split; try congruence. by etrans.
Qed.

Lemma extends_record_sample now coin p d : extends d (record_sample now coin p d).
Proof. repeat split. simpl. by apply prefix_app_r. Qed.

Lemma extends_record_entry response now d entry :
  extends d (record_entry response now d entry).
Proof.
  unfold record_entry. destruct (sample_of response entry).
  - apply extends_record_sample.
  - apply extends_refl.
Qed.

Lemma extends_record_entries response now entries d :
  extends d (foldl (record_entry response now) d entries).
Proof.
  revert d. induction entries as [|entry entries IH]; intros d; simpl.
  - apply extends_refl.
  - eapply extends_trans; [apply extends_record_entry | apply IH].
Qed.

Lemma samples_of_record_sample now coin p d coin' :
  samples_of (record_sample now coin p d) coin'
  = samples_of d coin'
      ++ (if decide (coin = coin')
          then [ {| price_rowid := price_history_seq d + 1;
                    price_coin_id := coin; timestamp := now; price := p |} ]
          else []).
Proof.
  unfold samples_of, record_sample. simpl. rewrite filter_app, filter_cons.
  simpl. by destruct (decide (coin = coin')).
Qed.

Lemma samples_of_elem d coin r :
  r ∈ samples_of d coin <-> price_coin_id r = coin /\ r ∈ price_history d.
Proof. unfold samples_of. by rewrite list_elem_of_filter. Qed.

Lemma history_in_order_begin d now :
  history_in_order d now -> history_in_order_during [] d now.
Proof.
  intros [Hc Ht]. split; [exact Hc|]. intros r Hr.
  specialize (Ht _ Hr). split; lia.
Qed.

Lemma history_in_order_end seen d now later :
  now < later -> history_in_order_during seen d now ->
  history_in_order d later.
Proof.
  intros Hlater [Hc Ht]. split; [exact Hc|]. intros r Hr.
  destruct (Ht _ Hr). lia.
Qed.

Lemma history_in_order_sample seen now coin p d :
  coin ∉ seen ->
  history_in_order_during seen d now ->
  history_in_order_during (coin :: seen) (record_sample now coin p d) now.
Proof.
  intros Hnew [Hc Ht]. split.
  - intros coin'. unfold chronological.
    rewrite samples_of_record_sample.
    destruct (decide (coin = coin')) as [<-|Hne];
      [|rewrite app_nil_r; apply Hc].
    apply StronglySorted_app_2; [|apply Hc|repeat constructor].
    intros x1 x2 Hx1 ->%list_elem_of_singleton. simpl.
    apply samples_of_elem in Hx1 as [Hcoin Hx1].
    destruct (Ht _ Hx1) as [Hle Hnow].
    destruct (decide (timestamp x1 = now)) as [Heq|Hlt]; [|lia].
    exfalso. apply Hnew. rewrite <- Hcoin. by apply Hnow.
  - intros r. simpl. rewrite elem_of_app, list_elem_of_singleton.
    intros [Hr| ->].
    + destruct (Ht _ Hr) as [Hle Hnow]. split; [exact Hle|].
      intros Heq. right. by apply Hnow.
    + simpl. split; [lia|]. intros _. left.
Qed.

Lemma history_in_order_seen seen seen' d now :
  seen ⊆ seen' ->
  history_in_order_during seen d now -> history_in_order_during seen' d now.
Proof.
  intros Hsub [Hc Ht]. split; [exact Hc|]. intros r Hr.
  destruct (Ht _ Hr) as [Hle Hnow]. split; [exact Hle|].
  intros Heq. apply Hsub. by apply Hnow.
Qed.

Lemma history_in_order_entries response now entries seen d :
  NoDup entries.*1 ->
  (forall entry, entry ∈ entries -> entry.1 ∉ seen) ->
  history_in_order_during seen d now ->
  exists seen',
    history_in_order_during seen'
      (foldl (record_entry response now) d entries) now.
Proof.
  revert seen d. induction entries as [|entry entries IH];
    intros seen d Hnodup Hnew Hd; [by exists seen|].
  rewrite fmap_cons, NoDup_cons in Hnodup. destruct Hnodup as [Hentry Hrest].
  simpl. apply (IH (entry.1 :: seen)); [exact Hrest| |].
  - intros e He. rewrite not_elem_of_cons. split.
    + intros Heq. apply Hentry. rewrite <- Heq.
      apply list_elem_of_fmap. by exists e.
    + apply Hnew. by right.
  - unfold record_entry. destruct (sample_of response entry) as [p|].
    + apply history_in_order_sample; [|exact Hd]. apply Hnew. by left.
    + apply (history_in_order_seen seen); [|exact Hd].
      intros x Hx. by right.
Qed.

Lemma processed_entries_prefix response entries :
  processed_entries response entries `prefix_of` entries.
Proof.
  induction entries as [|entry entries IH]; [done|]. simpl.
  destruct (malformed response entry).
  - apply (prefix_cons entry [] entries), prefix_nil.
  - by apply prefix_cons.
Qed.

Lemma processed_entries_all response entries :
  existsb (malformed response) entries = false ->
  processed_entries response entries = entries.
Proof.
  induction entries as [|entry entries IH]; [done|]. simpl.
  destruct (malformed response entry); [done|]. simpl.
  intros Hrest. by rewrite IH.
Qed.

Lemma processed_entries_stop response before entry after :
  existsb (malformed response) before = false ->
  malformed response entry = true ->
  processed_entries response (before ++ entry :: after) = before ++ [entry].
Proof.
  intros Hbefore Hentry. induction before as [|e before IH]; simpl in *.
  - by rewrite Hentry.
  - destruct (malformed response e); [done|]. by rewrite IH.
Qed.

Lemma samples_recorded response now entries d :
  sample_view <$> price_history (foldl (record_entry response now) d entries)
  = (sample_view <$> price_history d) ++ samples_taken response now entries.
Proof.
  revert d. induction entries as [|entry entries IH]; intros d.
  - simpl. by rewrite app_nil_r.
  - simpl foldl. rewrite IH. unfold samples_taken at 2. simpl omap.
    unfold record_entry.
    destruct (sample_of response entry) as [p|]; simpl; [|done].
    by rewrite fmap_app, <- app_assoc.
Qed.

End History.

(** ** What a cycle records *)

Section CycleRecords.

Variable env : environment.

Local Open Scope py_scope.

Lemma log_price_db coin p w :
  log_price coin p w
  = if PrimFloat.is_nan p
    then (Return tt, (logging ERROR (LogPriceFailed IntegrityError) w).2)
    else (Return tt, with_db w (record_sample (clock w) coin p (db w))).
Proof.
  unfold log_price, try_except, insert_price.
  by destruct (PrimFloat.is_nan p).
Qed.

(** The body of the loop for one entry: the sample, then the two rules; a
    [null] change raises at the comparison. *)
Lemma watch_coin_step response entry w :
  let r := watch_coin env response entry w in
  r.1 = (if malformed response entry then Raise TypeError else Return tt)
  /\ db r.2 = record_entry response (clock w) (db w) entry
  /\ clock r.2 = clock w.
Proof.
  destruct entry as [coin thr]. cbv zeta.
  unfold watch_coin, malformed, record_entry, sample_of. simpl fst.
  destruct (response !! coin) as [cd|]; [|done].
  destruct (eur_24h_change cd) as [change|]; [|done].
  set (w1 := match truthy_price (eur cd) with
             | Some p => (log_price coin p w).2
             | None => w
             end).
  assert (Hfirst :
    (match truthy_price (eur cd) with
     | Some p => log_price coin p
     | None => ret tt
     end) w = (Return tt, w1)).
  { subst w1. destruct (truthy_price (eur cd)) as [p|]; [|done].
    rewrite log_price_db. by destruct (PrimFloat.is_nan p). }
  assert (Hw1 : db w1
                = match
                    match truthy_price (eur cd) with
                    | Some p => if PrimFloat.is_nan p then None else Some p
                    | None => None
                    end
                  with
                  | Some p => record_sample (clock w) coin p (db w)
                  | None => db w
                  end
                /\ clock w1 = clock w).
  { subst w1. destruct (truthy_price (eur cd)) as [p|]; [|done].
    rewrite log_price_db. by destruct (PrimFloat.is_nan p). }
  destruct Hw1 as [Hdb Hclock]. rewrite <- Hdb, <- Hclock.
  clear Hdb Hclock.
  match goal with
  | |- context [bind ?m ?k w] =>
      assert (Hstep : bind m k w = k tt w1)
        by (unfold bind at 1; by rewrite Hfirst);
      rewrite Hstep; cbv beta
  end.
  clear Hstep Hfirst. clearbody w1.
  destruct change as [|c].
  - by unfold bind, threshold_alert, change_ge, raise.
  - pose proof (returns_unit _ w1 (returns_threshold_alert env coin c thr))
      as Hret.
    pose proof (quiet_threshold_alert env coin (JNumber c) thr w1)
      as (Hdb & Hclock & _).
    assert (Hstep :
      (threshold_alert env coin (JNumber c) thr ;; check_run env coin) w1
      = check_run env coin (threshold_alert env coin (JNumber c) thr w1).2).
    { unfold bind.
      destruct (threshold_alert env coin (JNumber c) thr w1) as [r2 w2].
      simpl in Hret. by subst r2. }
    rewrite Hstep. clear Hstep Hret.
    set (w2 := (threshold_alert env coin (JNumber c) thr w1).2) in *.
    pose proof (returns_unit _ w2 (returns_check_run env coin)) as Hret.
    pose proof (quiet_check_run env coin w2) as (Hdb2 & Hclock2 & _).
    split; [exact Hret|]. split; congruence.
Qed.

Lemma for_each_watch_coin response entries w :
  let r := for_each entries (watch_coin env response) w in
  r.1 = (if existsb (malformed response) entries
         then Raise TypeError else Return tt)
  /\ db r.2
     = foldl (record_entry response (clock w)) (db w)
         (processed_entries response entries)
  /\ clock r.2 = clock w.
Proof.
  revert w. induction entries as [|entry entries IH]; intros w; [done|].
  simpl for_each. unfold bind.
  destruct (watch_coin_step response entry w) as (Hret & Hdb & Hclock).
  destruct (watch_coin env response entry w) as [r1 w1].
  simpl in Hret, Hdb, Hclock. simpl existsb. simpl processed_entries.
  destruct (malformed response entry); subst r1; simpl.
  - by rewrite Hdb.
  - destruct (IH w1) as (Hret' & Hdb' & Hclock').
    split; [exact Hret'|]. rewrite Hdb', Hclock', Hdb, Hclock. done.
Qed.

(** The database after the price phase. *)
Lemma check_price_increase_async_db w :
  let w' := (check_price_increase_async env w).2 in
  clock w' = clock w
  /\ db w'
     = match price_feed env (cycle w) with
       | inl _ => db w
       | inr response =>
           foldl (record_entry response (clock w)) (db w)
             (processed_entries response (get_coins (db w)))
       end.
Proof.
  cbv zeta.
  unfold check_price_increase_async, bind, get_db, try_except, fetch_prices.
  destruct (get_coins (db w)) as [|entry entries] eqn:Hcoins.
  { simpl. by destruct (price_feed env (cycle w)). }
  destruct (price_feed env (cycle w)) as [e|response].
  - unfold logging. rewrite send_notification_eq. done.
  - destruct (for_each_watch_coin response (entry :: entries) w)
      as (Hret & Hdb & Hclock).
    destruct (for_each (entry :: entries) (watch_coin env response) w)
      as [[[]|e] w1]; simpl in Hret, Hdb, Hclock; [by split|].
    unfold logging. rewrite send_notification_eq. simpl.
    by split.
Qed.

Lemma watch_cycle_db w :
  let w' := (watch_cycle env w).2 in
  clock w' = clock w + Z.max 0 (CHECK_INTERVAL env)
  /\ db w' = db (check_price_increase_async env w).2.
Proof.
  rewrite watch_cycle_eq. simpl.
  destruct (quiet_check_news_async env (check_price_increase_async env w).2)
    as (-> & -> & _).
  destruct (check_price_increase_async_db w) as [-> _]. done.
Qed.

Lemma extends_watch_cycle w : extends (db w) (db (watch_cycle env w).2).
Proof.
  destruct (watch_cycle_db w) as [_ ->].
  destruct (check_price_increase_async_db w) as [_ ->].
  destruct (price_feed env (cycle w));
    [apply extends_refl | apply extends_record_entries].
Qed.

Lemma extends_start_watching n w :
  extends (db w) (db (start_watching env n w).2).
Proof.
  revert w. induction n as [|n IH]; intros w; [apply extends_refl|].
  simpl start_watching. unfold bind.
  pose proof (returns_unit _ w (returns_watch_cycle env)) as Hret.
  pose proof (extends_watch_cycle w) as Hw.
  destruct (watch_cycle env w) as [r w1]. simpl in Hret, Hw. subst r.
  eapply extends_trans; [exact Hw | apply IH].
Qed.

Lemma history_in_order_cycle w :
  0 < CHECK_INTERVAL env ->
  NoDup (get_coins (db w)).*1 ->
  history_in_order (db w) (clock w) ->
  history_in_order (db (watch_cycle env w).2) (clock (watch_cycle env w).2).
Proof.
  intros Hpos Hnodup Hw.
  destruct (watch_cycle_db w) as [-> ->].
  destruct (check_price_increase_async_db w) as [_ ->].
  assert (Hlater : clock w < clock w + Z.max 0 (CHECK_INTERVAL env)) by lia.
  destruct (price_feed env (cycle w)) as [e|response].
  { apply (history_in_order_end [] _ (clock w)); [exact Hlater|].
    by apply history_in_order_begin. }
  pose proof (processed_entries_prefix response (get_coins (db w)))
    as [rest Hrest].
  destruct (history_in_order_entries response (clock w)
              (processed_entries response (get_coins (db w))) [] (db w))
    as [seen Hseen].
  - rewrite Hrest, fmap_app in Hnodup. by apply NoDup_app in Hnodup as [? _].
  - intros entry _. apply not_elem_of_nil.
  - by apply history_in_order_begin.
  - by apply (history_in_order_end seen _ (clock w)).
Qed.

Lemma history_in_order_loop n w :
  0 < CHECK_INTERVAL env ->
  NoDup (get_coins (db w)).*1 ->
  history_in_order (db w) (clock w) ->
  history_in_order (db (start_watching env n w).2)
    (clock (start_watching env n w).2).
Proof.
  intros Hpos. revert w. induction n as [|n IH]; intros w Hnodup Hw;
    [exact Hw|].
  simpl start_watching. unfold bind.
  pose proof (returns_unit _ w (returns_watch_cycle env)) as Hret.
  pose proof (extends_watch_cycle w) as (Hcoins & _).
  pose proof (history_in_order_cycle w Hpos Hnodup Hw) as Hw1.
  destruct (watch_cycle env w) as [r w1]. simpl in Hret, Hcoins, Hw1.
  subst r. apply IH; [|exact Hw1].
  unfold get_coins. by rewrite Hcoins.
Qed.

End CycleRecords.

Section CycleCalls.

Variable env : environment.

Local Open Scope py_scope.

Lemma threshold_calls_alerts coin c thr :
  forallb is_alert (threshold_calls coin c thr) = true.
Proof. unfold threshold_calls. by destruct (PrimFloat.leb thr c). Qed.

Lemma run_calls_alerts d coin : forallb is_alert (run_calls d coin) = true.
Proof. unfold run_calls. by destruct (run_decision d coin). Qed.

Lemma watch_coin_alerts response entry w :
  malformed response entry = false ->
  exists calls,
    bot_calls (watch_coin env response entry w).2 = bot_calls w ++ calls
    /\ forallb is_alert calls = true.
Proof.
  destruct entry as [coin thr]. unfold malformed. simpl fst.
  destruct (response !! coin) as [cd|] eqn:Hcd;
    [|intros _; exists []; unfold watch_coin; rewrite Hcd;
      by rewrite app_nil_r].
  destruct (eur_24h_change cd) as [[|c]|] eqn:Hc; [done| |].
  - intros _. eexists. split.
    + apply (watch_coin_calls env response coin thr cd c w Hcd Hc).
    + rewrite forallb_app, threshold_calls_alerts, run_calls_alerts. done.
  - intros _. exists []. unfold watch_coin. rewrite Hcd, Hc.
    by rewrite app_nil_r.
Qed.

Lemma for_each_watch_coin_alerts response entries w :
  existsb (malformed response) entries = false ->
  exists calls,
    bot_calls (for_each entries (watch_coin env response) w).2
    = bot_calls w ++ calls
    /\ forallb is_alert calls = true.
Proof.
  revert w. induction entries as [|entry entries IH]; intros w Hwell.
  { exists []. by rewrite app_nil_r. }
  simpl in Hwell. apply orb_false_iff in Hwell as [Hentry Hrest].
  simpl for_each. unfold bind.
  destruct (watch_coin_alerts response entry w Hentry) as (c1 & Hc1 & Ha1).
  destruct (watch_coin env response entry w) as [[[]|e] w1]; simpl in Hc1.
  - destruct (IH w1 Hrest) as (c2 & Hc2 & Ha2). exists (c1 ++ c2).
    rewrite Hc2, Hc1, <- app_assoc, forallb_app, Ha1, Ha2. done.
  - by exists c1.
Qed.

(** The price phase on a response that parsed, for a watch-list that is not
    empty. *)
Lemma check_price_increase_async_parsed response w :
  price_feed env (cycle w) = inr response ->
  get_coins (db w) ≠ [] ->
  check_price_increase_async env w
  = let r := for_each (get_coins (db w)) (watch_coin env response) w in
    match r.1 with
    | Return _ => r
    | Raise e =>
        (logging ERROR (PriceFetchFailed e) ;;
         send_notification env (FetchErrorMsg e)) r.2
    end.
Proof.
  intros Hfeed Hcoins.
  unfold check_price_increase_async, bind at 1, get_db.
  destruct (get_coins (db w)) as [|entry entries]; [done|].
  unfold try_except, bind at 1, fetch_prices. rewrite Hfeed. cbv zeta.
  by destruct (for_each (entry :: entries) (watch_coin env response) w)
    as [[[]|e] w1].
Qed.

End CycleCalls.

(** X6: On samples that were recorded at strictly increasing times, the history
    query returns the last [n] of them in the reverse order of recording:
    [ORDER BY timestamp DESC] is then the order of insertion, reversed. *)
Theorem recent_samples_in_order d coin n :
  chronological d coin ->
  recent_samples d coin n = last_recorded d coin n
  /\ recent_prices d coin n = price <$> last_recorded d coin n
  /\ (0 <= n ->
      recent_prices d coin n
      = take (Z.to_nat n) (reverse (price <$> samples_of d coin))).
Proof.
  intros Hd. pose proof (recent_samples_last_recorded d coin n Hd) as Heq.
  split; [exact Heq|]. unfold recent_prices. rewrite Heq.
  split; [done|]. intros Hn. unfold last_recorded.
  destruct (n <? 0) eqn:Hneg; [lia|].
  by rewrite fmap_take, fmap_reverse.
Qed.

Lemma recent_samples_in_order_witness :
  chronological (db ether_world) "ether"
  /\ recent_prices (db ether_world) "ether" 3 = [120; 115; 110]%float.
Proof.
  assert (H : chronological (db ether_world) "ether").
  { unfold chronological.
    let rows := eval vm_compute in (samples_of (db ether_world) "ether") in
    change (StronglySorted (fun a b => timestamp a < timestamp b) rows).
    repeat (apply SSorted_cons; [|repeat constructor; simpl; lia]).
    constructor. }
  split; [exact H|].
  destruct (recent_samples_in_order (db ether_world) "ether" 3 H)
    as (_ & _ & Hq).
  rewrite Hq by lia. vm_compute. reflexivity.
Defined.

(** X7: What [log_price] stores is what the next query returns first: after a
    price that is a number is logged for a coin, at a time later than every
    sample of the coin so far, the history query for that coin gives the new
    price and then what it gave before, one row less; the queries for the
    other coins are not affected, nor are the watch-list and the
    configuration. *)
Theorem log_price_then_query coin p n w :
  (forall r, r ∈ samples_of (db w) coin -> timestamp r < clock w) ->
  PrimFloat.is_nan p = false ->
  0 < n ->
  let w' := (log_price coin p w).2 in
  recent_prices (db w') coin n = p :: recent_prices (db w) coin (n - 1)
  /\ (forall coin' k, coin' ≠ coin ->
        recent_prices (db w') coin' k = recent_prices (db w) coin' k)
  /\ get_coins (db w') = get_coins (db w)
  /\ config (db w') = config (db w).
Proof.
  intros Hw Hnan Hn w'.
  assert (Hdb : db w' = record_sample (clock w) coin p (db w)).
  { unfold w'. rewrite log_price_db, Hnan. done. }
  rewrite Hdb. split; [|split; [|done]].
  - unfold recent_prices, recent_samples.
    fold (samples_of (record_sample (clock w) coin p (db w)) coin).
    fold (samples_of (db w) coin).
    rewrite samples_of_record_sample, decide_True by done.
    rewrite order_by_timestamp_desc_newest by exact Hw.
    destruct (n <? 0) eqn:Hneg; [lia|].
    destruct (n - 1 <? 0) eqn:Hneg'; [lia|].
    replace (Z.to_nat n) with (S (Z.to_nat (n - 1))) by lia.
    done.
  - intros coin' k Hne. unfold recent_prices, recent_samples.
    fold (samples_of (record_sample (clock w) coin p (db w)) coin').
    fold (samples_of (db w) coin').
    rewrite samples_of_record_sample, decide_False by done.
    by rewrite app_nil_r.
Qed.

Lemma log_price_then_query_witness :
  (forall r, r ∈ samples_of (db ether_world) "ether" ->
     timestamp r < clock ether_world)
  /\ PrimFloat.is_nan 125 = false
  /\ 0 < 3
  /\ recent_prices (db ether_world) "ether" 2 = [120; 115]%float
  /\ recent_prices (db (log_price "ether" 125%float ether_world).2) "ether" 3
     = [125; 120; 115]%float.
Proof.
  assert (H : forall r, r ∈ samples_of (db ether_world) "ether" ->
                timestamp r < clock ether_world).
  { let rows := eval vm_compute in (samples_of (db ether_world) "ether") in
    change (samples_of (db ether_world) "ether") with rows.
    let now := eval vm_compute in (clock ether_world) in
    change (clock ether_world) with now.
    intros r Hr.
    repeat (apply elem_of_cons in Hr as [->|Hr]; [simpl; lia|]).
    by apply elem_of_nil in Hr. }
  assert (Hnan : PrimFloat.is_nan 125 = false) by reflexivity.
  assert (Hn : 0 < 3) by lia.
  assert (Hbefore : recent_prices (db ether_world) "ether" 2
                    = [120; 115]%float) by (vm_compute; reflexivity).
  split; [exact H|]. split; [exact Hnan|]. split; [exact Hn|].
  split; [exact Hbefore|].
  destruct (log_price_then_query "ether" 125%float 3 ether_world H Hnan Hn)
    as (Hq & _).
  rewrite Hq. change (3 - 1) with 2. by rewrite Hbefore.
Defined.

(** X8: The monitor loop takes samples and does nothing else to the database:
    after any number of iterations the watch-list and the configuration are
    what they were, and every sample that was there is still there, in its
    place and unchanged. *)
Theorem start_watching_keeps_store env n w :
  let w' := (start_watching env n w).2 in
  get_coins (db w') = get_coins (db w)
  /\ config (db w') = config (db w)
  /\ price_history (db w) `prefix_of` price_history (db w')
  /\ forall coin, samples_of (db w) coin `prefix_of` samples_of (db w') coin.
Proof.
  intros w'. destruct (extends_start_watching env n w)
    as (Hcoins & _ & Hconfig & Hhistory).
  fold w' in Hcoins, Hconfig, Hhistory.
  split; [unfold get_coins; by rewrite Hcoins|]. split; [exact Hconfig|].
  split; [exact Hhistory|]. intros coin. destruct Hhistory as [more Hmore].
  unfold samples_of. rewrite Hmore, filter_app. by apply prefix_app_r.
Qed.

(** X9: With a positive check interval and a watch-list that names no coin
    twice, the loop keeps the history in the order of time: the samples of
    each coin carry strictly increasing timestamps, so that the history query
    returns the last samples recorded, the newest first. *)
Theorem start_watching_in_order env n w :
  0 < CHECK_INTERVAL env ->
  NoDup (get_coins (db w)).*1 ->
  history_in_order (db w) (clock w) ->
  let w' := (start_watching env n w).2 in
  history_in_order (db w') (clock w')
  /\ forall coin k, recent_samples (db w') coin k = last_recorded (db w') coin k.
Proof.
  intros Hpos Hnodup Hw w'.
  pose proof (history_in_order_loop env n w Hpos Hnodup Hw) as Hw'.
  split; [exact Hw'|]. intros coin k.
  apply recent_samples_last_recorded, Hw'.
Qed.

Lemma start_watching_in_order_witness :
  0 < CHECK_INTERVAL bitcoin_only
  /\ NoDup (get_coins (db two_coins_world)).*1
  /\ history_in_order (db two_coins_world) (clock two_coins_world)
  /\ recent_samples (db (start_watching bitcoin_only 3 two_coins_world).2)
       "bitcoin" 2
     = last_recorded (db (start_watching bitcoin_only 3 two_coins_world).2)
         "bitcoin" 2.
Proof.
  assert (Hpos : 0 < CHECK_INTERVAL bitcoin_only) by (simpl; lia).
  assert (Hnodup : NoDup (get_coins (db two_coins_world)).*1).
  { let ids := eval vm_compute in (get_coins (db two_coins_world)).*1 in
    change (NoDup ids).
    apply NoDup_cons. split; [|apply NoDup_singleton].
    by intros ?%list_elem_of_singleton. }
  assert (H : history_in_order (db two_coins_world) (clock two_coins_world)).
  { split; [intros coin; constructor|]. intros r Hr.
    by apply elem_of_nil in Hr. }
  split; [exact Hpos|]. split; [exact Hnodup|]. split; [exact H|].
  destruct (start_watching_in_order bitcoin_only 3 two_coins_world
              Hpos Hnodup H) as [_ Hq].
  apply Hq.
Defined.

(** X10: A cycle whose response parsed and holds no [null] change records one
    sample, stamped with the time of the cycle, for each watched coin that
    the response prices, in the order of the watch-list, and nothing else;
    the notifications it sends are alerts only, never the diagnostic. *)
Theorem cycle_records_samples env response w :
  price_feed env (cycle w) = inr response ->
  existsb (malformed response) (get_coins (db w)) = false ->
  let w' := (check_price_increase_async env w).2 in
  sample_view <$> price_history (db w')
  = (sample_view <$> price_history (db w))
      ++ samples_taken response (clock w) (get_coins (db w))
  /\ exists calls,
       bot_calls w' = bot_calls w ++ calls /\ forallb is_alert calls = true.
Proof.
  intros Hfeed Hwell w'. split.
  - destruct (check_price_increase_async_db env w) as [_ Hdb].
    fold w' in Hdb. rewrite Hfeed in Hdb.
    rewrite Hdb, processed_entries_all by exact Hwell.
    apply samples_recorded.
  - destruct (get_coins (db w)) as [|entry entries] eqn:Hcoins.
    { exists []. unfold w', check_price_increase_async, bind, get_db.
      rewrite Hcoins. by rewrite app_nil_r. }
    unfold w'. rewrite (check_price_increase_async_parsed env response w Hfeed)
      by (by rewrite Hcoins).
    cbv zeta. rewrite Hcoins.
    destruct (for_each_watch_coin env response (entry :: entries) w)
      as (Hret & _).
    rewrite Hwell in Hret. rewrite Hret.
    by apply for_each_watch_coin_alerts.
Qed.

Lemma cycle_records_samples_witness :
  price_feed bitcoin_only (cycle two_coins_world) = inr bitcoin_response
  /\ existsb (malformed bitcoin_response) (get_coins (db two_coins_world))
     = false
  /\ sample_view
       <$> price_history
             (db (check_price_increase_async bitcoin_only two_coins_world).2)
     = [("bitcoin", 0, 100%float)].
Proof.
  assert (Hfeed : price_feed bitcoin_only (cycle two_coins_world)
                  = inr bitcoin_response) by reflexivity.
  assert (Hwell : existsb (malformed bitcoin_response)
                    (get_coins (db two_coins_world)) = false)
    by (vm_compute; reflexivity).
  split; [exact Hfeed|]. split; [exact Hwell|].
  destruct (cycle_records_samples bitcoin_only bitcoin_response
              two_coins_world Hfeed Hwell) as [Hs _].
  rewrite Hs. vm_compute. reflexivity.
Defined.

(** X11: A [null] change stops the cycle where it stands: the coins before it on
    the watch-list were handled, the coin itself has its sample recorded, the
    coins after it get neither a sample nor a check, and the diagnostic
    notification with the TypeError is the last message of the phase. *)
Theorem malformed_entry_stops_cycle env response before entry after w :
  price_feed env (cycle w) = inr response ->
  get_coins (db w) = before ++ entry :: after ->
  existsb (malformed response) before = false ->
  malformed response entry = true ->
  let w' := (check_price_increase_async env w).2 in
  sample_view <$> price_history (db w')
  = (sample_view <$> price_history (db w))
      ++ samples_taken response (clock w) (before ++ [entry])
  /\ last (bot_calls w') = Some (FetchErrorMsg TypeError)
  /\ (check_price_increase_async env w).1 = Return tt.
Proof.
  intros Hfeed Hcoins Hbefore Hentry w'. split.
  - destruct (check_price_increase_async_db env w) as [_ Hdb].
    fold w' in Hdb. rewrite Hfeed, Hcoins in Hdb.
    rewrite Hdb, (processed_entries_stop _ _ _ _ Hbefore Hentry).
    apply samples_recorded.
  - unfold w'. rewrite (check_price_increase_async_parsed env response w Hfeed)
      by (rewrite Hcoins; by destruct before).
    cbv zeta.
    destruct (for_each_watch_coin env response (get_coins (db w)) w)
      as (Hret & _).
    assert (Hbad : existsb (malformed response) (get_coins (db w)) = true).
    { rewrite Hcoins, existsb_app. simpl. rewrite Hentry.
      by rewrite orb_true_r. }
    rewrite Hbad in Hret. rewrite Hret.
    unfold bind, logging. rewrite send_notification_eq. simpl.
    by rewrite last_snoc.
Qed.

Lemma malformed_entry_stops_cycle_witness :
  price_feed null_first (cycle two_coins_world) = inr null_then_ether
  /\ get_coins (db two_coins_world)
     = [] ++ ("bitcoin", 5%float) :: [("ether", 3%float)]
  /\ existsb (malformed null_then_ether) [] = false
  /\ malformed null_then_ether ("bitcoin", 5%float) = true
  /\ sample_view
       <$> price_history
             (db (check_price_increase_async null_first two_coins_world).2)
     = [("bitcoin", 0, 100%float)].
Proof.
  assert (Hfeed : price_feed null_first (cycle two_coins_world)
                  = inr null_then_ether) by reflexivity.
  assert (Hcoins : get_coins (db two_coins_world)
                   = [] ++ ("bitcoin", 5%float) :: [("ether", 3%float)])
    by (vm_compute; reflexivity).
  assert (Hbefore : existsb (malformed null_then_ether) [] = false)
    by reflexivity.
  assert (Hentry : malformed null_then_ether ("bitcoin", 5%float) = true)
    by (vm_compute; reflexivity).
  split; [exact Hfeed|]. split; [exact Hcoins|]. split; [exact Hbefore|].
  split; [exact Hentry|].
  destruct (malformed_entry_stops_cycle null_first null_then_ether []
              ("bitcoin", 5%float) [("ether", 3%float)] two_coins_world
              Hfeed Hcoins Hbefore Hentry) as [Hs _].
  rewrite Hs. vm_compute. reflexivity.
Defined.

(** ** The news phase and the idle cycle *)

(** X12: When the news request fails, the news phase logs the error and that is
    all: no notification goes out, not even a diagnostic one (unlike the
    price phase), the database is as it was, and the phase returns. *)
Theorem news_fetch_failure env w e :
  get_coins (db w) ≠ [] ->
  news_feed env (cycle w) = inl e ->
  check_news_async env w
  = (Return tt, (logging ERROR (NewsFetchFailed e) w).2).
Proof.
  intros Hcoins Hfeed.
  unfold check_news_async, bind at 1, get_db.
  destruct (get_coins (db w)); [done|].
  unfold bind, fetch_latest_news, try_except. by rewrite Hfeed.
Qed.

Lemma news_fetch_failure_witness :
  get_coins (db bitcoin_world) ≠ []
  /\ news_feed news_offline (cycle bitcoin_world) = inl ClientError
  /\ bot_calls (check_news_async news_offline bitcoin_world).2 = [].
Proof.
  assert (Hcoins : get_coins (db bitcoin_world) ≠ []) by (vm_compute; done).
  assert (Hfeed : news_feed news_offline (cycle bitcoin_world)
                  = inl ClientError) by reflexivity.
  split; [exact Hcoins|]. split; [exact Hfeed|].
  rewrite (news_fetch_failure news_offline bitcoin_world ClientError
             Hcoins Hfeed).
  reflexivity.
Defined.

(** X13: When the news request succeeds, every item of the result is handed to
    the bot once, in the order of the result, and a result that is not empty
    is closed by one log record with the number of items; an empty result
    leaves no trace at all. The database is not touched. *)
Theorem news_items_sent env w items :
  get_coins (db w) ≠ [] ->
  news_feed env (cycle w) = inr items ->
  let r := check_news_async env w in
  r.1 = Return tt
  /\ bot_calls r.2 = bot_calls w ++ (news_message <$> items)
  /\ db r.2 = db w
  /\ (items = [] -> r.2 = w)
  /\ (items ≠ [] ->
      last (logfile r.2) = Some (INFO, NewsSent (length items))).
Proof.
  intros Hcoins Hfeed.
  assert (Heq : check_news_async env w
                = match items with
                  | [] => (Return tt, w)
                  | _ :: _ =>
                      (send_news_notifications env items ;;
                       logging INFO (NewsSent (length items))) w
                  end).
  { unfold check_news_async, bind at 1, get_db.
    destruct (get_coins (db w)); [done|].
    unfold bind at 1, fetch_latest_news, try_except. rewrite Hfeed.
    by destruct items. }
  cbv zeta. rewrite Heq. destruct items as [|item items].
  { simpl. by rewrite app_nil_r. }
  unfold bind.
  destruct (send_news_notifications_spec env (item :: items) w)
    as (Hret & Hcalls & _ & Hdb & _).
  destruct (send_news_notifications env (item :: items) w) as [r1 w1].
  simpl in Hret, Hcalls, Hdb. subst r1. simpl.
  split; [done|]. split; [exact Hcalls|]. split; [exact Hdb|].
  split; [done|]. intros _. by rewrite last_snoc.
Qed.

Lemma news_items_sent_witness :
  get_coins (db bitcoin_world) ≠ []
  /\ news_feed newsy (cycle bitcoin_world) = inr two_items
  /\ bot_calls (check_news_async newsy bitcoin_world).2
     = [NewsMsg (Some "a") (Some "u"); NewsMsg (Some "b") None].
Proof.
  assert (Hcoins : get_coins (db bitcoin_world) ≠ []) by (vm_compute; done).
  assert (Hfeed : news_feed newsy (cycle bitcoin_world) = inr two_items)
    by reflexivity.
  split; [exact Hcoins|]. split; [exact Hfeed|].
  destruct (news_items_sent newsy bitcoin_world two_items Hcoins Hfeed)
    as (_ & Hcalls & _).
  rewrite Hcalls. reflexivity.
Defined.

(** X14: With nothing on the watch-list a cycle asks neither provider and sends
    nothing: whatever the providers and the bot would do, it writes the two
    log records, sleeps for the interval and goes round. *)
Theorem idle_cycle env w :
  get_coins (db w) = [] ->
  watch_cycle env w
  = (Return tt,
     {| db := db w; clock := clock w + Z.max 0 (CHECK_INTERVAL env);
        cycle := S (cycle w); bot_calls := bot_calls w;
        delivered := delivered w;
        logfile := logfile w ++ [(INFO, NoCoins); (INFO, NoCoinsForNews)];
        pending_tasks := pending_tasks w;
        sleeps := sleeps w ++ [CHECK_INTERVAL env] |}).
Proof.
  intros Hcoins.
  unfold watch_cycle, bind, check_price_increase_async, check_news_async,
    bind, get_db.
  rewrite Hcoins. simpl. rewrite Hcoins. simpl.
  by rewrite <- app_assoc.
Qed.

Lemma idle_cycle_witness :
  get_coins (db fresh_world) = []
  /\ bot_calls (watch_cycle offline fresh_world).2 = []
  /\ logfile (watch_cycle offline fresh_world).2
     = [(INFO, NoCoins); (INFO, NoCoinsForNews)].
Proof.
  assert (Hcoins : get_coins (db fresh_world) = []) by reflexivity.
  split; [exact Hcoins|].
  rewrite (idle_cycle offline fresh_world Hcoins). split; reflexivity.
Defined.

(** ** The run threshold at the configuration boundary *)

Section ThresholdBoundary.

Lemma nan_leb x y :
  PrimFloat.is_nan x = true ->
  PrimFloat.leb x y = false /\ PrimFloat.leb y x = false
  /\ PrimFloat.eqb x y = false.
Proof.
  unfold PrimFloat.is_nan. rewrite negb_true_iff.
  rewrite !FloatAxioms.leb_spec, !FloatAxioms.eqb_spec.
  destruct (Prim2SF x) as [s|s| |s m e]; simpl.
  - by destruct s.
  - by destruct s.
  - intros _. by destruct (Prim2SF y).
  - unfold SFeqb. simpl. rewrite Z.compare_refl, Pos.compare_cont_refl.
    by destruct s.
Qed.

Lemma nan_threshold_setting d x :
  PrimFloat.is_nan x = true ->
  get_config d RUN_THRESHOLD_PERCENT = Some x ->
  run_threshold_setting d = Py.Float x.
Proof.
  intros Hnan Hget. unfold run_threshold_setting. rewrite Hget. simpl.
  unfold Py.truthy. destruct (nan_leb x PrimFloat.zero Hnan) as (_ & _ & ->).
  done.
Qed.

Lemma nan_threshold_decision d coin x :
  PrimFloat.is_nan x = true ->
  get_config d RUN_THRESHOLD_PERCENT = Some x ->
  run_decision d coin = None.
Proof.
  intros Hnan Hget. unfold run_decision.
  rewrite (nan_threshold_setting d x Hnan Hget).
  destruct (sqlite_limit (run_periods_setting d)) as [e|k]; [done|].
  destruct (Py.int_lt _ _); [done|].
  destruct (is_run _); [|done].
  destruct (head _); [|done]. destruct (last _); [|done].
  destruct (PrimFloat.eqb _ _); [done|]. simpl.
  by destruct (nan_leb x (PrimFloat.mul (PrimFloat.div (PrimFloat.sub f f0) f0)
                            (Py.float_of_int 100)) Hnan) as (-> & _).
Qed.

End ThresholdBoundary.

(** X15: The run threshold at the configuration boundary: a text that is not a
    number, or a number that is [<= 0], is refused and nothing changes; any
    other value is accepted, and with the row of the key in place it is the
    value that [get_config] returns from then on. The watch-list, the price
    history and the run periods are never touched. *)
Theorem set_run_threshold_boundary parsed w :
  let r := text_handler_set_run_threshold parsed w in
  (r.1 = Return true
   <-> exists x, parsed = Some x /\ PrimFloat.leb x PrimFloat.zero = false)
  /\ (r.1 = Return false -> r.2 = w)
  /\ (forall x, parsed = Some x -> PrimFloat.leb x PrimFloat.zero = false ->
      is_Some (config (db w) !! RUN_THRESHOLD_PERCENT) ->
      get_config (db r.2) RUN_THRESHOLD_PERCENT = Some x)
  /\ coins (db r.2) = coins (db w)
  /\ price_history (db r.2) = price_history (db w)
  /\ config (db r.2) !! RUN_CONSECUTIVE_PERIODS
     = config (db w) !! RUN_CONSECUTIVE_PERIODS.
Proof.
  cbv zeta. rewrite set_run_threshold_eq.
  destruct parsed as [x|].
  - destruct (PrimFloat.leb x PrimFloat.zero) eqn:Hle.
    + split; [split; [done|]; intros (y & [= <-] & Hy); congruence|].
      split; [done|]. split; [intros y [= <-]; congruence|]. done.
    + split; [split; [intros _; by exists x | done]|].
      split; [done|]. cbn [snd]. rewrite set_config_db. simpl.
      split; [|split; [done|split; [done|]]].
      * intros y [= <-] _ [v Hv]. unfold get_config. simpl.
        rewrite Hv, lookup_insert_eq. done.
      * destruct (config (db w) !! RUN_THRESHOLD_PERCENT); [|done].
        by rewrite lookup_insert_ne.
  - split; [split; [done|]; by intros (y & ? & _)|]. done.
Qed.

(** X16: A threshold that is not a number passes the guard [threshold <= 0]: the
    handler accepts it and stores it, and from then on the run rule never
    fires, whatever the prices: no value is [>=] it. *)
Theorem nan_threshold_silences_runs x w :
  PrimFloat.is_nan x = true ->
  is_Some (config (db w) !! RUN_THRESHOLD_PERCENT) ->
  let r := text_handler_set_run_threshold (Some x) w in
  r.1 = Return true
  /\ get_config (db r.2) RUN_THRESHOLD_PERCENT = Some x
  /\ forall env coin w',
       config (db w') = config (db r.2) ->
       bot_calls (check_run env coin w').2 = bot_calls w'.
Proof.
  intros Hnan [v Hv]. cbv zeta. rewrite set_run_threshold_eq.
  destruct (nan_leb x PrimFloat.zero Hnan) as (-> & _).
  cbn [fst snd]. rewrite set_config_db.
  assert (Hget : forall d,
            config d = <[RUN_THRESHOLD_PERCENT := str_float x]> (config (db w)) ->
            get_config d RUN_THRESHOLD_PERCENT = Some x).
  { intros d Hd. unfold get_config. by rewrite Hd, lookup_insert_eq. }
  rewrite Hv. simpl.
  split; [done|]. split; [by apply Hget|].
  intros env coin w' Hconfig. rewrite check_run_calls.
  rewrite (nan_threshold_decision (db w') coin x Hnan (Hget _ Hconfig)).
  by rewrite app_nil_r.
Qed.

Lemma nan_threshold_silences_runs_witness :
  PrimFloat.is_nan PrimFloat.nan = true
  /\ is_Some (config (db ether_world) !! RUN_THRESHOLD_PERCENT)
  /\ bot_calls
       (check_run calm "ether"
          (text_handler_set_run_threshold (Some PrimFloat.nan) ether_world).2).2
     = bot_calls
         (text_handler_set_run_threshold (Some PrimFloat.nan) ether_world).2.
Proof.
  assert (Hnan : PrimFloat.is_nan PrimFloat.nan = true) by reflexivity.
  assert (Hrow : is_Some (config (db ether_world) !! RUN_THRESHOLD_PERCENT))
    by (vm_compute; by eexists).
  split; [exact Hnan|]. split; [exact Hrow|].
  destruct (nan_threshold_silences_runs PrimFloat.nan ether_world Hnan Hrow)
    as (_ & _ & Hquiet).
  by apply Hquiet.
Defined.

(** ** The users *)

Section Users.

Lemma is_admin_registered us u : is_admin us u = true -> u ∈ us.*1.
Proof.
  unfold is_admin.
  destruct (filter (fun r : string * Z => r.1 = u) us) as [|r rs] eqn:Hf;
    [done|].
  intros _. assert (Hr : r ∈ filter (fun r : string * Z => r.1 = u) us)
    by (rewrite Hf; left).
  apply list_elem_of_filter in Hr as [<- Hr].
  apply list_elem_of_fmap. by exists r.
Qed.

Lemma is_admin_unregistered us u : u ∉ us.*1 -> is_admin us u = false.
Proof.
  intros Hu. destruct (is_admin us u) eqn:Ha; [|done].
  by apply is_admin_registered in Ha.
Qed.

Lemma rows_unregistered (us : list (string * Z)) u :
  u ∉ us.*1 -> filter (fun r : string * Z => r.1 = u) us = [].
Proof.
  induction us as [|r us IH]; [done|].
  rewrite fmap_cons, not_elem_of_cons. intros [Hne Hu].
  rewrite filter_cons, decide_False by congruence. by apply IH.
Qed.

(** A new row changes the role of nobody who has one. *)
Lemma is_admin_new_row us u flag v :
  u ∉ us.*1 ->
  is_admin (us ++ [(u, flag)]) v
  = if decide (v = u) then flag =? 1 else is_admin us v.
Proof.
  intros Hu. unfold is_admin. rewrite filter_app, filter_cons. simpl.
  destruct (decide (v = u)) as [->|Hne].
  - rewrite (rows_unregistered us u Hu), decide_True by done. done.
  - rewrite decide_False by congruence. rewrite filter_nil, app_nil_r. done.
Qed.

Lemma is_admin_insert_user us u v :
  is_admin (insert_user_or_ignore (Some u) 0 us) v = is_admin us v.
Proof.
  unfold insert_user_or_ignore.
  destruct (decide (u ∈ us.*1)) as [Hin|Hout]; [done|].
  rewrite (is_admin_new_row us u 0 v Hout).
  destruct (decide (v = u)) as [->|]; [|done].
  by rewrite (is_admin_unregistered us u Hout).
Qed.

Lemma insert_user_registered us u flag :
  u ∈ us.*1 -> insert_user_or_ignore (Some u) flag us = us.
Proof. intros Hu. unfold insert_user_or_ignore. by rewrite decide_True. Qed.

Lemma insert_user_elem us u flag :
  u ∈ (insert_user_or_ignore (Some u) flag us).*1.
Proof.
  unfold insert_user_or_ignore.
  destruct (decide (u ∈ us.*1)) as [Hin|Hout]; [done|].
  rewrite fmap_app, elem_of_app. right. simpl. by left.
Qed.

Lemma register_admin u s :
  is_admin (users s) u = true -> register_user u s = (Return tt, s).
Proof.
  intros Ha. unfold register_user.
  rewrite (insert_user_registered _ _ _ (is_admin_registered _ _ Ha)).
  by destruct s.
Qed.

(** Under the UNIQUE constraint a user has one row. *)
Lemma unique_row (us : list (string * Z)) r r' :
  NoDup us.*1 -> r ∈ us -> r' ∈ us -> r.1 = r'.1 -> r = r'.
Proof.
  induction us as [|x us IH]; [by intros _ ?%elem_of_nil|].
  rewrite fmap_cons, NoDup_cons. intros [Hx Hus].
  intros [->|Hr]%elem_of_cons [->|Hr']%elem_of_cons Heq; [done| | |by apply IH].
  - destruct Hx. rewrite Heq. apply list_elem_of_fmap. by exists r'.
  - destruct Hx. rewrite <- Heq. apply list_elem_of_fmap. by exists r.
Qed.

Lemma non_admins_roles us user :
  NoDup us.*1 -> user ∈ non_admins us -> is_admin us user = false.
Proof.
  intros Hus Hu. unfold non_admins in Hu.
  apply list_elem_of_fmap in Hu as (r & -> & Hr).
  apply list_elem_of_filter in Hr as [Hflag Hr].
  unfold is_admin.
  destruct (filter (fun r0 : string * Z => r0.1 = r.1) us) as [|r' rs] eqn:Hrows;
    [done|].
  assert (Hr' : r' ∈ filter (fun r0 : string * Z => r0.1 = r.1) us)
    by (rewrite Hrows; left).
  apply list_elem_of_filter in Hr' as [Hid Hr'].
  rewrite (unique_row us r' r Hus Hr' Hr Hid), Hflag. done.
Qed.

End Users.

(** X17: [register_user] gives nobody a role and takes nobody's: whoever was an
    admin before the call is one after it and nobody else is. The user has a
    row afterwards, a second registration changes nothing, and the rows that
    were there are kept. *)
Theorem register_user_keeps_roles u s :
  let s' := (register_user u s).2 in
  (register_user u s).1 = Return tt
  /\ (forall v, is_admin (users s') v = is_admin (users s) v)
  /\ u ∈ (users s').*1
  /\ users s `prefix_of` users s'
  /\ register_user u s' = (Return tt, s')
  /\ watcher s' = watcher s /\ user_data s' = user_data s.
Proof.
  cbv zeta.
  set (us' := insert_user_or_ignore (Some u) 0 (users s)).
  assert (Hs' : register_user u s = (Return tt, set_users s us'))
    by reflexivity.
  rewrite Hs'. cbn [fst snd].
  change (users (set_users s us')) with us'.
  split; [done|]. split; [intros v; apply is_admin_insert_user|].
  split; [apply insert_user_elem|]. split.
  { unfold us', insert_user_or_ignore.
    destruct (decide (u ∈ (users s).*1)); [done | by apply prefix_app_r]. }
  split; [|done]. unfold register_user.
  change (users (set_users s us')) with us'.
  by rewrite (insert_user_registered us' u 0 (insert_user_elem (users s) u 0)).
Qed.

(** X18: On a new database file the admin is the chat named by ADMIN_CHAT_ID and
    stays the only one, whoever registers: a user is an admin exactly when
    their id is ADMIN_CHAT_ID. With ADMIN_CHAT_ID unset nobody is. *)
Theorem admin_is_configured_chat cl ids v :
  is_admin (registered cl ids) v = true <-> ADMIN_CHAT_ID cl = Some v.
Proof.
  unfold registered.
  assert (Hroles : forall us,
            is_admin
              (foldl (fun us u => insert_user_or_ignore (Some u) 0 us) us ids) v
            = is_admin us v).
  { induction ids as [|u ids IH]; intros us; [done|].
    cbn [foldl]. by rewrite IH, is_admin_insert_user. }
  rewrite Hroles. unfold init_users, insert_user_or_ignore.
  destruct (ADMIN_CHAT_ID cl) as [a|]; [|done].
  rewrite decide_False by apply not_elem_of_nil.
  unfold is_admin. simpl. rewrite filter_cons. simpl.
  destruct (decide (a = v)) as [->|Hne]; [done|].
  split; [done|]. congruence.
Qed.

(** X19: [init_db] changes the role of nobody who is in the users table: a user
    who has a row keeps it as it is, so a chat that registered as a user
    before it was named ADMIN_CHAT_ID is not made an admin. *)
Theorem init_users_keeps_roles cl us v :
  v ∈ us.*1 ->
  is_admin (init_users cl us) v = is_admin us v
  /\ (ADMIN_CHAT_ID cl = Some v -> init_users cl us = us).
Proof.
  intros Hv. unfold init_users. split.
  - unfold insert_user_or_ignore. destruct (ADMIN_CHAT_ID cl) as [a|]; [|done].
    destruct (decide (a ∈ us.*1)) as [Hin|Hout]; [done|].
    rewrite (is_admin_new_row us a 1 v Hout).
    rewrite decide_False; [done|]. congruence.
  - intros ->. by apply insert_user_registered.
Qed.

Lemma init_users_keeps_roles_witness :
  "2" ∈ [("2", 0)].*1
  /\ is_admin
       (init_users
          {| ADMIN_CHAT_ID := Some "2"; telegram := telegram desk;
             str_strip := str_strip desk; str_lower := str_lower desk;
             parse_float := parse_float desk; parse_int := parse_int desk |}
          [("2", 0)]) "2"
     = false.
Proof.
  assert (H : "2" ∈ [("2", 0)].*1) by (simpl; left).
  split; [exact H|].
  destruct (init_users_keeps_roles
              {| ADMIN_CHAT_ID := Some "2"; telegram := telegram desk;
                 str_strip := str_strip desk; str_lower := str_lower desk;
                 parse_float := parse_float desk;
                 parse_int := parse_int desk |}
              [("2", 0)] "2" H) as [Hrole _].
  rewrite Hrole. reflexivity.
Defined.

(** ** The handlers *)

Section HandlerFrames.

Variable cl : client.

Local Open Scope handler_scope.

Lemma talks_ret {A} (a : A) : talks (hret a).
Proof. by intros s. Qed.

Lemma talks_raise {A} e : talks (@hraise A e).
Proof. by intros s. Qed.

Lemma talks_api c : talks (api cl c).
Proof. by intros s. Qed.

Lemma talks_bind {A B} (m : Handler A) (k : A -> Handler B) :
  talks m -> (forall a, talks (k a)) -> talks (hbind m k).
Proof.
  intros Hm Hk s. unfold hbind. pose proof (Hm s) as Hs.
  destruct (m s) as [[a|e] s']; simpl in Hs; [|exact Hs].
  destruct (Hk a s') as (? & ? & ?), Hs as (? & ? & ?).
  repeat split; congruence.
Qed.

Lemma talks_try {A} (m : Handler A) (h : exception -> Handler A) :
  talks m -> (forall e, talks (h e)) -> talks (htry m h).
Proof.
  intros Hm Hh s. unfold htry. pose proof (Hm s) as Hs.
  destruct (m s) as [[a|e] s']; simpl in Hs; [exact Hs|].
  destruct (Hh e s') as (? & ? & ?), Hs as (? & ? & ?).
  repeat split; congruence.
Qed.

Lemma talks_for_each {A} (xs : list A) (body : A -> Handler unit) :
  (forall x, talks (body x)) -> talks (hfor_each xs body).
Proof.
  intros Hb. induction xs as [|x xs IH]; simpl.
  - apply talks_ret.
  - apply talks_bind; [apply Hb | intros _; exact IH].
Qed.

Lemma talks_broadcast_to message user : talks (broadcast_to cl message user).
Proof. apply talks_try; [apply talks_api | by intros e s]. Qed.

Lemma keeps_registry_talks {A} (m : Handler A) : talks m -> keeps_registry m.
Proof. intros Hm s. by destruct (Hm s) as (_ & ? & ?). Qed.

Lemma keeps_registry_bind {A B} (m : Handler A) (k : A -> Handler B) :
  keeps_registry m -> (forall a, keeps_registry (k a)) ->
  keeps_registry (hbind m k).
Proof.
  intros Hm Hk s. unfold hbind. pose proof (Hm s) as Hs.
  destruct (m s) as [[a|e] s']; simpl in Hs; [|exact Hs].
  destruct (Hk a s') as (? & ?), Hs as (? & ?). split; congruence.
Qed.

Lemma keeps_registry_try {A} (m : Handler A) (h : exception -> Handler A) :
  keeps_registry m -> (forall e, keeps_registry (h e)) ->
  keeps_registry (htry m h).
Proof.
  intros Hm Hh s. unfold htry. pose proof (Hm s) as Hs.
  destruct (m s) as [[a|e] s']; simpl in Hs; [exact Hs|].
  destruct (Hh e s') as (? & ?), Hs as (? & ?). split; congruence.
Qed.

Lemma keeps_registry_on_watcher {A} (m : M A) : keeps_registry (on_watcher m).
Proof. intros s. unfold on_watcher. by destruct (m (watcher s)). Qed.

(** The body of a branch keeps the registry; its [finally] clears the
    awaited input of the user. *)
Lemma finally_clears {A} (body : Handler A) user s :
  keeps_registry body ->
  let s' := (hfinally body (set_awaiting user None) s).2 in
  user_data s' = delete user (user_data s) /\ users s' = users s
  /\ watcher s' = watcher (body s).2 /\ api_calls s' = api_calls (body s).2
  /\ broadcast_errors s' = broadcast_errors (body s).2.
Proof.
  intros Hbody. cbv zeta. unfold hfinally.
  destruct (Hbody s) as [Hu Hd]. destruct (body s) as [r s1].
  simpl in *. by rewrite Hu, Hd.
Qed.

Lemma talks_value_or_error {A} (parsed : option A) :
  talks (value_or_error parsed).
Proof. destruct parsed; [apply talks_ret | apply talks_raise]. Qed.

Lemma talks_unpack_pair parts : talks (unpack_pair parts).
Proof.
  destruct parts as [|a [|b [|c parts]]];
    (apply talks_ret || apply talks_raise).
Qed.

Lemma keeps_registry_add_coin_body u :
  keeps_registry
    (htry
       (let text := str_strip cl (message_text u) in
        parts <- unpack_pair (split_comma text) ;;
        let coin_id := str_lower cl (str_strip cl parts.1) in
        threshold <- value_or_error (parse_float cl (str_strip cl parts.2)) ;;
        on_watcher (add_coin coin_id threshold) ;;
        api cl (ReplyText (CoinWatchedText coin_id threshold)))
       (fun e =>
          match e with
          | IndexError | ValueError => api cl (ReplyText BadFormatText)
          | _ => hraise e
          end)).
Proof.
  apply keeps_registry_try.
  - apply keeps_registry_bind;
      [apply keeps_registry_talks, talks_unpack_pair|]. intros parts.
    apply keeps_registry_bind;
      [apply keeps_registry_talks, talks_value_or_error|]. intros thr.
    apply keeps_registry_bind; [apply keeps_registry_on_watcher|].
    intros _. apply keeps_registry_talks, talks_api.
  - intros e. apply keeps_registry_talks.
    destruct e; (apply talks_api || apply talks_raise).
Qed.

Lemma keeps_registry_remove_coin_body u :
  keeps_registry
    (htry
       (let coin_id := str_lower cl (str_strip cl (message_text u)) in
        on_watcher (remove_coin coin_id) ;;
        api cl (ReplyText (CoinRemovedText coin_id)))
       (fun e => api cl (ReplyText (RemoveFailedText e)))).
Proof.
  apply keeps_registry_try.
  - apply keeps_registry_bind; [apply keeps_registry_on_watcher|].
    intros _. apply keeps_registry_talks, talks_api.
  - intros e. apply keeps_registry_talks, talks_api.
Qed.

Lemma keeps_registry_run_threshold_body u :
  keeps_registry
    (htry
       (threshold <-
          value_or_error (parse_float cl (str_strip cl (message_text u))) ;;
        (if PrimFloat.leb threshold PrimFloat.zero then hraise ValueError
         else hret tt) ;;
        on_watcher (set_config RUN_THRESHOLD_PERCENT (str_float threshold)) ;;
        api cl (ReplyText (RunThresholdSetText threshold)))
       (fun e =>
          match e with
          | ValueError => api cl (ReplyText InvalidThresholdText)
          | _ => hraise e
          end)).
Proof.
  apply keeps_registry_try.
  - apply keeps_registry_bind;
      [apply keeps_registry_talks, talks_value_or_error|]. intros thr.
    apply keeps_registry_bind.
    { apply keeps_registry_talks.
      destruct (PrimFloat.leb thr PrimFloat.zero);
        [apply talks_raise | apply talks_ret]. }
    intros _. apply keeps_registry_bind; [apply keeps_registry_on_watcher|].
    intros _. apply keeps_registry_talks, talks_api.
  - intros e. apply keeps_registry_talks.
    destruct e; (apply talks_api || apply talks_raise).
Qed.

Lemma keeps_registry_run_periods_body u :
  keeps_registry
    (htry
       (periods <-
          value_or_error (parse_int cl (str_strip cl (message_text u))) ;;
        (if periods <=? 0 then hraise ValueError else hret tt) ;;
        on_watcher (set_config RUN_CONSECUTIVE_PERIODS (str_int periods)) ;;
        api cl (ReplyText (RunPeriodsSetText periods)))
       (fun e =>
          match e with
          | ValueError => api cl (ReplyText InvalidPeriodsText)
          | _ => hraise e
          end)).
Proof.
  apply keeps_registry_try.
  - apply keeps_registry_bind;
      [apply keeps_registry_talks, talks_value_or_error|]. intros n.
    apply keeps_registry_bind.
    { apply keeps_registry_talks.
      destruct (n <=? 0); [apply talks_raise | apply talks_ret]. }
    intros _. apply keeps_registry_bind; [apply keeps_registry_on_watcher|].
    intros _. apply keeps_registry_talks, talks_api.
  - intros e. apply keeps_registry_talks.
    destruct e; (apply talks_api || apply talks_raise).
Qed.

Lemma talks_broadcast_body u :
  talks
    (htry
       (let message := str_strip cl (message_text u) in
        (if decide (message = "") then hraise ValueError else hret tt) ;;
        fun s =>
          match non_admins (users s) with
          | [] => api cl (ReplyText NoRecipientsText) s
          | (_ :: _) as recipients =>
              (hfor_each recipients (broadcast_to cl message) ;;
               api cl (ReplyText BroadcastSentText)) s
          end)
       (fun e => api cl (ReplyText (BroadcastFailedText e)))).
Proof.
  apply talks_try; [|intros e; apply talks_api].
  apply talks_bind.
  { destruct (decide (str_strip cl (message_text u) = ""));
      [apply talks_raise | apply talks_ret]. }
  intros _ s. destruct (non_admins (users s)) as [|user rest].
  - apply talks_api.
  - apply (talks_bind
             (hfor_each (user :: rest)
                (broadcast_to cl (str_strip cl (message_text u))))
             (fun _ => api cl (ReplyText BroadcastSentText))).
    + apply talks_for_each. intros x. apply talks_broadcast_to.
    + intros _. apply talks_api.
Qed.

(** [text_handler] for an admin: the registration finds the row. *)
Lemma text_handler_admin u s :
  is_admin (users s) (effective_chat u) = true ->
  text_handler cl u s
  = let awaiting := user_data s !! effective_user u in
    if decide (awaiting = Some "add_coin") then text_handler_add_coin cl u s
    else if decide (awaiting = Some "remove_coin") then
      text_handler_remove_coin cl u s
    else if decide (awaiting = Some "set_run_threshold") then
      text_handler_run_threshold cl u s
    else if decide (awaiting = Some "set_run_periods") then
      text_handler_run_periods cl u s
    else if decide (awaiting = Some "broadcast") then
      text_handler_broadcast cl u s
    else (Return tt, s).
Proof.
  intros Ha. unfold text_handler, hbind.
  rewrite (register_admin _ _ Ha). by rewrite Ha.
Qed.

Lemma button_handler_non_admin q s :
  is_admin (users s) (from_user q) = false ->
  button_handler cl q s
  = (api cl Answer ;; api cl (EditMessageText NoPermissionText)) s.
Proof.
  intros Ha. unfold button_handler, hbind.
  destruct (api cl Answer s) as [[[]|e] s1] eqn:Hanswer; [|done].
  assert (Hu : users s1 = users s).
  { pose proof (talks_api Answer s) as (_ & Hu & _).
    by rewrite Hanswer in Hu. }
  by rewrite Hu, Ha.
Qed.

(** The loop of the broadcast: one call for each recipient, whatever fails. *)
Lemma broadcast_loop message recipients s :
  let r := hfor_each recipients (broadcast_to cl message) s in
  r.1 = Return tt
  /\ api_calls r.2
     = api_calls s ++ ((fun user => SendMessage user message) <$> recipients)
  /\ broadcast_errors r.2
     = broadcast_errors s
         ++ send_failures cl (length (api_calls s)) message recipients
  /\ watcher r.2 = watcher s /\ users r.2 = users s
  /\ user_data r.2 = user_data s.
Proof.
  revert s. induction recipients as [|user rest IH]; intros s.
  { simpl. by rewrite !app_nil_r. }
  cbv zeta. simpl hfor_each. unfold hbind.
  assert (Hstep : broadcast_to cl message user s
    = (Return tt,
       {| watcher := watcher s; users := users s; user_data := user_data s;
          api_calls := api_calls s ++ [SendMessage user message];
          broadcast_errors :=
            broadcast_errors s
              ++ match telegram cl (length (api_calls s))
                         (SendMessage user message) with
                 | Some e => [(user, e)]
                 | None => []
                 end |})).
  { unfold broadcast_to, htry, api.
    destruct (telegram cl (length (api_calls s)) (SendMessage user message));
      simpl; [done|]. by rewrite app_nil_r. }
  rewrite Hstep.
  match goal with
  | |- context [hfor_each rest _ ?s1] =>
      destruct (IH s1) as (Hret & Hcalls & Herrors & Hw & Hu & Hd)
  end.
  split; [exact Hret|]. rewrite Hcalls, Herrors, Hw, Hu, Hd. simpl.
  rewrite length_app, Nat.add_1_r, <- !app_assoc. done.
Qed.

End HandlerFrames.

Section HandlerBranches.

Variable cl : client.

Local Open Scope handler_scope.

Lemma add_coin_returns coin thr w : (add_coin coin thr w).1 = Return tt.
Proof.
  unfold add_coin, try_except, bind, insert_or_replace_coin, get_db.
  by destruct (PrimFloat.is_nan thr).
Qed.

(** The ['add_coin'] branch before its [finally]: the first reply says what
    became of the text, and the watcher saw [add_coin] or nothing. *)
Lemma add_coin_body u s :
  let body :=
    htry
      (let text := str_strip cl (message_text u) in
       parts <- unpack_pair (split_comma text) ;;
       let coin_id := str_lower cl (str_strip cl parts.1) in
       threshold <- value_or_error (parse_float cl (str_strip cl parts.2)) ;;
       on_watcher (add_coin coin_id threshold) ;;
       api cl (ReplyText (CoinWatchedText coin_id threshold)))
      (fun e =>
         match e with
         | IndexError | ValueError => api cl (ReplyText BadFormatText)
         | _ => hraise e
         end) in
  exists more,
    api_calls (body s).2
    = api_calls s
        ++ ReplyText
             match parse_add_coin cl (message_text u) with
             | Some (coin, thr) => CoinWatchedText coin thr
             | None => BadFormatText
             end :: more
    /\ watcher (body s).2
       = match parse_add_coin cl (message_text u) with
         | Some (coin, thr) => (add_coin coin thr (watcher s)).2
         | None => watcher s
         end.
Proof.
  cbv zeta.
  unfold parse_add_coin, htry, hbind, unpack_pair, value_or_error, hret,
    hraise, on_watcher.
  destruct (split_comma (str_strip cl (message_text u)))
    as [|a [|b [|c parts]]].
  1, 2, 4: exists []; by unfold api.
  cbv beta iota zeta. cbn [fst snd].
  destruct (parse_float cl (str_strip cl b)) as [thr|];
    [|exists []; by unfold api].
  pose proof (add_coin_returns (str_lower cl (str_strip cl a)) thr
                (watcher s)) as Hret.
  destruct (add_coin (str_lower cl (str_strip cl a)) thr (watcher s))
    as [r w1]. cbn [fst] in Hret. subst r.
  unfold api, set_watcher. cbn [api_calls watcher snd].
  destruct (telegram cl (length (api_calls s))
              (ReplyText
                 (CoinWatchedText (str_lower cl (str_strip cl a)) thr)))
    as [e|]; [|by exists []].
  destruct e; cbn [api_calls watcher snd]; eexists; (split; [|reflexivity]);
    rewrite <- ?app_assoc; reflexivity.
Qed.

Lemma run_threshold_body u s :
  watcher
    (htry
       (threshold <-
          value_or_error (parse_float cl (str_strip cl (message_text u))) ;;
        (if PrimFloat.leb threshold PrimFloat.zero then hraise ValueError
         else hret tt) ;;
        on_watcher (set_config RUN_THRESHOLD_PERCENT (str_float threshold)) ;;
        api cl (ReplyText (RunThresholdSetText threshold)))
       (fun e =>
          match e with
          | ValueError => api cl (ReplyText InvalidThresholdText)
          | _ => hraise e
          end) s).2
  = (text_handler_set_run_threshold
       (parse_float cl (str_strip cl (message_text u))) (watcher s)).2.
Proof.
  rewrite set_run_threshold_eq. unfold htry, hbind.
  destruct (parse_float cl (str_strip cl (message_text u))) as [x|];
    simpl value_or_error; [|by unfold hraise, api].
  unfold hret at 1. destruct (PrimFloat.leb x PrimFloat.zero);
    [by unfold hraise, api|].
  unfold hret, on_watcher, api. simpl.
  destruct (telegram cl (length (api_calls s))
              (ReplyText (RunThresholdSetText x))) as [e|]; [|done].
  by destruct e.
Qed.

Lemma run_periods_body u s :
  watcher
    (htry
       (periods <-
          value_or_error (parse_int cl (str_strip cl (message_text u))) ;;
        (if periods <=? 0 then hraise ValueError else hret tt) ;;
        on_watcher (set_config RUN_CONSECUTIVE_PERIODS (str_int periods)) ;;
        api cl (ReplyText (RunPeriodsSetText periods)))
       (fun e =>
          match e with
          | ValueError => api cl (ReplyText InvalidPeriodsText)
          | _ => hraise e
          end) s).2
  = (text_handler_set_run_periods
       (parse_int cl (str_strip cl (message_text u))) (watcher s)).2.
Proof.
  rewrite set_run_periods_eq. unfold htry, hbind.
  destruct (parse_int cl (str_strip cl (message_text u))) as [n|];
    simpl value_or_error; [|by unfold hraise, api].
  unfold hret at 1. destruct (n <=? 0); [by unfold hraise, api|].
  unfold hret, on_watcher, api. simpl.
  destruct (telegram cl (length (api_calls s))
              (ReplyText (RunPeriodsSetText n))) as [e|]; [|done].
  by destruct e.
Qed.

Lemma remove_coin_body u s :
  watcher
    (htry
       (let coin_id := str_lower cl (str_strip cl (message_text u)) in
        on_watcher (remove_coin coin_id) ;;
        api cl (ReplyText (CoinRemovedText coin_id)))
       (fun e => api cl (ReplyText (RemoveFailedText e))) s).2
  = (remove_coin (str_lower cl (str_strip cl (message_text u))) (watcher s)).2.
Proof.
  unfold htry, hbind, on_watcher. rewrite remove_coin_eq.
  unfold api. simpl.
  by destruct (telegram cl (length (api_calls s))
                 (ReplyText
                    (CoinRemovedText
                       (str_lower cl (str_strip cl (message_text u)))))).
Qed.

Lemma text_handler_add_coin_eq u s :
  exists more,
    api_calls (text_handler_add_coin cl u s).2
    = api_calls s
        ++ ReplyText
             match parse_add_coin cl (message_text u) with
             | Some (coin, thr) => CoinWatchedText coin thr
             | None => BadFormatText
             end :: more
    /\ watcher (text_handler_add_coin cl u s).2
       = match parse_add_coin cl (message_text u) with
         | Some (coin, thr) => (add_coin coin thr (watcher s)).2
         | None => watcher s
         end.
Proof.
  destruct (finally_clears _ (effective_user u) s
              (keeps_registry_add_coin_body cl u)) as (_ & _ & Hw & Hc & _).
  destruct (add_coin_body u s) as (more & Hcalls & Hbody).
  exists more.
  split; [etrans; [exact Hc | exact Hcalls] | etrans; [exact Hw | exact Hbody]].
Qed.

Lemma finally_result {A} (body : Handler A) cleanup s :
  hfinally body cleanup s = ((body s).1, cleanup (body s).2).
Proof. unfold hfinally. by destruct (body s). Qed.

End HandlerBranches.

(** X20: A text from a chat that is not an admin changes nothing but the users
    table, where the chat gets its row: the watcher with its watch-list and
    configuration, the awaited inputs and the roles are as before, and the
    one reply is the hint or the refusal. *)
Theorem non_admin_text_changes_nothing cl u s :
  is_admin (users s) (effective_chat u) = false ->
  let r := text_handler cl u s in
  watcher r.2 = watcher s
  /\ user_data r.2 = user_data s
  /\ (forall v, is_admin (users r.2) v = is_admin (users s) v)
  /\ api_calls r.2
     = api_calls s
         ++ [ReplyText
               match user_data s !! effective_user u with
               | None => UseStartText
               | Some _ => NoPermissionText
               end].
Proof.
  intros Ha. cbv zeta. unfold text_handler, hbind, register_user.
  cbn [users set_users user_data].
  rewrite is_admin_insert_user, Ha.
  destruct (user_data s !! effective_user u); unfold api; simpl;
    (repeat split; [intros v; apply is_admin_insert_user]).
Qed.

Lemma non_admin_text_changes_nothing_witness :
  is_admin (users (office ∅)) (effective_chat (text_from "2" "bitcoin,5"))
  = false
  /\ watcher (text_handler desk (text_from "2" "bitcoin,5") (office ∅)).2
     = bitcoin_world.
Proof.
  assert (H : is_admin (users (office ∅))
                (effective_chat (text_from "2" "bitcoin,5")) = false)
    by (vm_compute; reflexivity).
  split; [exact H|].
  destruct (non_admin_text_changes_nothing desk (text_from "2" "bitcoin,5")
              (office ∅) H) as (Hw & _).
  exact Hw.
Defined.

(** X21: A button pressed by a user who is not an admin is refused, whatever the
    button: the query is answered, the message is replaced by the refusal,
    and neither the watcher nor the users nor the awaited inputs change. *)
Theorem non_admin_button_refused cl q s :
  is_admin (users s) (from_user q) = false ->
  let r := button_handler cl q s in
  watcher r.2 = watcher s /\ users r.2 = users s
  /\ user_data r.2 = user_data s
  /\ api_calls r.2
     = api_calls s
         ++ Answer
            :: match telegram cl (length (api_calls s)) Answer with
               | None => [EditMessageText NoPermissionText]
               | Some _ => []
               end.
Proof.
  intros Ha. cbv zeta. rewrite (button_handler_non_admin cl q s Ha).
  unfold hbind, api.
  destruct (telegram cl (length (api_calls s)) Answer); simpl; [done|].
  by rewrite <- app_assoc.
Qed.

Lemma non_admin_button_refused_witness :
  is_admin (users (office ∅))
    (from_user {| from_user := "2"; data := "add_coin" |}) = false
  /\ api_calls
       (button_handler desk {| from_user := "2"; data := "add_coin" |}
          (office ∅)).2
     = [Answer; EditMessageText NoPermissionText].
Proof.
  assert (H : is_admin (users (office ∅))
                (from_user {| from_user := "2"; data := "add_coin" |}) = false)
    by (vm_compute; reflexivity).
  split; [exact H|].
  destruct (non_admin_button_refused desk
              {| from_user := "2"; data := "add_coin" |} (office ∅) H)
    as (_ & _ & _ & Hcalls).
  exact Hcalls.
Defined.

(** X22: [start] offers a user who is not an admin one button, the list of the
    watched coins, and [button_handler] refuses that very button: after
    [start] and the press the user has the menu and the refusal, and no
    list. *)
Theorem list_coins_offered_but_refused cl user text s :
  is_admin (users s) user = false ->
  let s1 := (start cl (text_from user text) s).2 in
  let s2 :=
    (button_handler cl {| from_user := user; data := "list_coins" |} s1).2 in
  api_calls s2
  = api_calls s
      ++ ReplyText (WelcomeText ["list_coins"])
         :: Answer
         :: match telegram cl (S (length (api_calls s))) Answer with
            | None => [EditMessageText NoPermissionText]
            | Some _ => []
            end
  /\ watcher s2 = watcher s.
Proof.
  intros Ha. cbv zeta.
  assert (Hstart : (start cl (text_from user text) s).2
    = {| watcher := watcher s;
         users := insert_user_or_ignore (Some user) 0 (users s);
         user_data := user_data s;
         api_calls := api_calls s ++ [ReplyText (WelcomeText ["list_coins"])];
         broadcast_errors := broadcast_errors s |}).
  { unfold start, hbind, register_user. cbn [users set_users effective_chat
      text_from]. by rewrite is_admin_insert_user, Ha. }
  rewrite Hstart.
  rewrite button_handler_non_admin
    by (cbn [users from_user]; by rewrite is_admin_insert_user).
  unfold hbind, api. cbn [api_calls]. rewrite length_app, Nat.add_1_r.
  destruct (telegram cl (S (length (api_calls s))) Answer);
    cbn [fst snd api_calls watcher]; by rewrite <- ?app_assoc.
Qed.

Lemma list_coins_offered_but_refused_witness :
  is_admin (users (office ∅)) "2" = false
  /\ api_calls
       (button_handler desk {| from_user := "2"; data := "list_coins" |}
          (start desk (text_from "2" "/start") (office ∅)).2).2
     = [ReplyText (WelcomeText ["list_coins"]); Answer;
        EditMessageText NoPermissionText].
Proof.
  assert (H : is_admin (users (office ∅)) "2" = false)
    by (vm_compute; reflexivity).
  split; [exact H|].
  destruct (list_coins_offered_but_refused desk "2" "/start" (office ∅) H)
    as [Hcalls _].
  exact Hcalls.
Defined.

(** X24: Every branch of [text_handler] ends in its [finally]: once an admin's
    awaited input has been handled, whatever was raised on the way, nothing
    is awaited from that user any more, and the next text of the user is
    ignored: one request takes one input. *)
Theorem text_handler_clears_awaiting cl u a s :
  is_admin (users s) (effective_chat u) = true ->
  user_data s !! effective_user u = Some a ->
  a ∈ awaited_inputs ->
  let s' := (text_handler cl u s).2 in
  user_data s' = delete (effective_user u) (user_data s)
  /\ users s' = users s
  /\ forall text,
       text_handler cl
         {| effective_chat := effective_chat u;
            effective_user := effective_user u; message_text := text |} s'
       = (Return tt, s').
Proof.
  intros Ha Hawait Hknown. cbv zeta.
  assert (Hclear :
    user_data (text_handler cl u s).2 = delete (effective_user u) (user_data s)
    /\ users (text_handler cl u s).2 = users s).
  { rewrite (text_handler_admin cl u s Ha). cbv zeta. rewrite Hawait.
    unfold awaited_inputs in Hknown.
    repeat (apply elem_of_cons in Hknown as [->|Hknown]);
      [..|by apply elem_of_nil in Hknown].
    - rewrite decide_True by done.
      by destruct (finally_clears _ (effective_user u) s
                     (keeps_registry_add_coin_body cl u)) as (? & ? & _).
    - rewrite decide_False, decide_True by done.
      by destruct (finally_clears _ (effective_user u) s
                     (keeps_registry_remove_coin_body cl u)) as (? & ? & _).
    - rewrite !decide_False, decide_True by done.
      by destruct (finally_clears _ (effective_user u) s
                     (keeps_registry_run_threshold_body cl u)) as (? & ? & _).
    - rewrite !decide_False, decide_True by done.
      by destruct (finally_clears _ (effective_user u) s
                     (keeps_registry_run_periods_body cl u)) as (? & ? & _).
    - rewrite !decide_False, decide_True by done.
      by destruct (finally_clears _ (effective_user u) s
                     (keeps_registry_talks _ (talks_broadcast_body cl u)))
        as (? & ? & _). }
  destruct Hclear as [Hd Hu]. split; [exact Hd|]. split; [exact Hu|].
  intros text. rewrite text_handler_admin by (simpl; by rewrite Hu).
  cbv zeta. simpl effective_user. rewrite Hd, lookup_delete_eq.
  by rewrite !decide_False.
Qed.

Lemma text_handler_clears_awaiting_witness :
  is_admin (users (office {[ "1" := "remove_coin" ]}))
    (effective_chat (text_from "1" "bitcoin")) = true
  /\ user_data (office {[ "1" := "remove_coin" ]})
       !! effective_user (text_from "1" "bitcoin") = Some "remove_coin"
  /\ "remove_coin" ∈ awaited_inputs
  /\ user_data
       (text_handler desk (text_from "1" "bitcoin")
          (office {[ "1" := "remove_coin" ]})).2
     = delete "1" {[ "1" := "remove_coin" ]}.
Proof.
  assert (Ha : is_admin (users (office {[ "1" := "remove_coin" ]}))
                 (effective_chat (text_from "1" "bitcoin")) = true)
    by (vm_compute; reflexivity).
  assert (Hawait : user_data (office {[ "1" := "remove_coin" ]})
                     !! effective_user (text_from "1" "bitcoin")
                   = Some "remove_coin") by (vm_compute; reflexivity).
  assert (Hknown : "remove_coin" ∈ awaited_inputs)
    by (unfold awaited_inputs; right; left).
  split; [exact Ha|]. split; [exact Hawait|]. split; [exact Hknown|].
  destruct (text_handler_clears_awaiting desk (text_from "1" "bitcoin")
              "remove_coin" (office {[ "1" := "remove_coin" ]})
              Ha Hawait Hknown) as (Hd & _).
  exact Hd.
Defined.

(** X25: What an admin's text does to the watcher is what the awaited input
    stands for, whichever replies fail: [add_coin] on the coin and threshold
    read from a text with exactly one comma, [remove_coin] on the text, the
    configuration boundary on the parsed number, and nothing for a broadcast
    or when nothing is awaited. The threshold of a coin is not checked: any
    float is passed on. *)
Theorem text_handler_watcher cl u a s :
  is_admin (users s) (effective_chat u) = true ->
  user_data s !! effective_user u = Some a ->
  watcher (text_handler cl u s).2
  = watcher_after cl a (message_text u) (watcher s).
Proof.
  intros Ha Hawait. rewrite (text_handler_admin cl u s Ha). cbv zeta.
  rewrite Hawait. unfold watcher_after.
  destruct (decide (a = "add_coin")) as [->|Hn1].
  { rewrite decide_True by done.
    destruct (text_handler_add_coin_eq cl u s) as (more & _ & Hbody).
    rewrite Hbody.
    by destruct (parse_add_coin cl (message_text u)) as [[coin thr]|]. }
  rewrite decide_False by congruence.
  destruct (decide (a = "remove_coin")) as [->|Hn2].
  { rewrite decide_True by done.
    destruct (finally_clears _ (effective_user u) s
                (keeps_registry_remove_coin_body cl u)) as (_ & _ & Hw & _).
    etrans; [exact Hw|]. apply remove_coin_body. }
  rewrite decide_False by congruence.
  destruct (decide (a = "set_run_threshold")) as [->|Hn3].
  { rewrite decide_True by done.
    destruct (finally_clears _ (effective_user u) s
                (keeps_registry_run_threshold_body cl u)) as (_ & _ & Hw & _).
    etrans; [exact Hw|]. apply run_threshold_body. }
  rewrite decide_False by congruence.
  destruct (decide (a = "set_run_periods")) as [->|Hn4].
  { rewrite decide_True by done.
    destruct (finally_clears _ (effective_user u) s
                (keeps_registry_run_periods_body cl u)) as (_ & _ & Hw & _).
    etrans; [exact Hw|]. apply run_periods_body. }
  rewrite decide_False by congruence.
  destruct (decide (Some a = Some "broadcast")) as [Hb|Hn5]; [|done].
  destruct (finally_clears _ (effective_user u) s
              (keeps_registry_talks _ (talks_broadcast_body cl u)))
    as (_ & _ & Hw & _).
  etrans; [exact Hw|].
  by destruct (talks_broadcast_body cl u s) as (? & _).
Qed.

Lemma text_handler_watcher_witness :
  is_admin (users (office {[ "1" := "add_coin" ]}))
    (effective_chat (text_from "1" "ether,5")) = true
  /\ user_data (office {[ "1" := "add_coin" ]})
       !! effective_user (text_from "1" "ether,5") = Some "add_coin"
  /\ get_coins
       (db (watcher
              (text_handler desk (text_from "1" "ether,5")
                 (office {[ "1" := "add_coin" ]})).2))
     = [("bitcoin", 5%float); ("ether", 5%float)].
Proof.
  assert (Ha : is_admin (users (office {[ "1" := "add_coin" ]}))
                 (effective_chat (text_from "1" "ether,5")) = true)
    by (vm_compute; reflexivity).
  assert (Hawait : user_data (office {[ "1" := "add_coin" ]})
                     !! effective_user (text_from "1" "ether,5")
                   = Some "add_coin") by (vm_compute; reflexivity).
  split; [exact Ha|]. split; [exact Hawait|].
  rewrite (text_handler_watcher desk (text_from "1" "ether,5") "add_coin"
             (office {[ "1" := "add_coin" ]}) Ha Hawait).
  vm_compute. reflexivity.
Defined.

(** X26: The reply to an ['add_coin'] input is decided by the text alone: a text
    that reads as a coin and a float is confirmed as watched, any other gets
    the format error and changes nothing. The confirmation does not wait for
    the database: for a threshold that is not a number it is sent although
    the watch-list stays as it was. *)
Theorem add_coin_text_confirmed cl u s :
  is_admin (users s) (effective_chat u) = true ->
  user_data s !! effective_user u = Some "add_coin" ->
  let s' := (text_handler cl u s).2 in
  api_calls s' !! length (api_calls s)
  = Some (ReplyText
            match parse_add_coin cl (message_text u) with
            | Some (coin, thr) => CoinWatchedText coin thr
            | None => BadFormatText
            end)
  /\ (parse_add_coin cl (message_text u) = None -> watcher s' = watcher s)
  /\ (forall coin thr,
        parse_add_coin cl (message_text u) = Some (coin, thr) ->
        PrimFloat.is_nan thr = true ->
        get_coins (db (watcher s')) = get_coins (db (watcher s))).
Proof.
  intros Ha Hawait. cbv zeta. rewrite (text_handler_admin cl u s Ha).
  cbv zeta. rewrite Hawait, decide_True by done.
  destruct (text_handler_add_coin_eq cl u s) as (more & Hcalls & Hbody).
  rewrite Hcalls, Hbody. split; [|split].
  - rewrite lookup_app_r by lia. by rewrite Nat.sub_diag.
  - by intros ->.
  - intros coin thr -> Hnan. by rewrite (add_coin_nan coin thr _ Hnan).
Qed.

Lemma add_coin_text_confirmed_witness :
  is_admin (users (office {[ "1" := "add_coin" ]}))
    (effective_chat (text_from "1" "ether,nan")) = true
  /\ user_data (office {[ "1" := "add_coin" ]})
       !! effective_user (text_from "1" "ether,nan") = Some "add_coin"
  /\ api_calls
       (text_handler desk (text_from "1" "ether,nan")
          (office {[ "1" := "add_coin" ]})).2 !! 0%nat
     = Some (ReplyText (CoinWatchedText "ether" PrimFloat.nan)).
Proof.
  assert (Ha : is_admin (users (office {[ "1" := "add_coin" ]}))
                 (effective_chat (text_from "1" "ether,nan")) = true)
    by (vm_compute; reflexivity).
  assert (Hawait : user_data (office {[ "1" := "add_coin" ]})
                     !! effective_user (text_from "1" "ether,nan")
                   = Some "add_coin") by (vm_compute; reflexivity).
  split; [exact Ha|]. split; [exact Hawait|].
  destruct (add_coin_text_confirmed desk (text_from "1" "ether,nan")
              (office {[ "1" := "add_coin" ]}) Ha Hawait) as (Hreply & _).
  exact Hreply.
Defined.

(** X27: A broadcast reaches every user who is not an admin: the message, when
    it is not empty, is sent exactly once to each of them, in the order of
    the users table, whichever of the calls fail; each failure is logged with
    its user, and the closing reply comes after the last call. The admins get
    no copy and the watcher is not touched. *)
Theorem broadcast_reaches_non_admins cl u s :
  is_admin (users s) (effective_chat u) = true ->
  user_data s !! effective_user u = Some "broadcast" ->
  str_strip cl (message_text u) ≠ "" ->
  NoDup (users s).*1 ->
  let message := str_strip cl (message_text u) in
  let recipients := non_admins (users s) in
  let s' := (text_handler cl u s).2 in
  api_calls s'
  = api_calls s
      ++ ((fun user => SendMessage user message) <$> recipients)
      ++ reply_or_report cl (length (api_calls s) + length recipients)
           match recipients with
           | [] => NoRecipientsText
           | _ :: _ => BroadcastSentText
           end
  /\ broadcast_errors s'
     = broadcast_errors s
         ++ send_failures cl (length (api_calls s)) message recipients
  /\ (forall user, user ∈ recipients -> is_admin (users s) user = false)
  /\ watcher s' = watcher s.
Proof.
  intros Ha Hawait Hmessage Hunique. cbv zeta.
  rewrite (text_handler_admin cl u s Ha). cbv zeta.
  rewrite Hawait, !decide_False, decide_True by done.
  unfold text_handler_broadcast. rewrite finally_result. cbn [snd].
  unfold set_awaiting, set_user_data.
  cbn [api_calls broadcast_errors watcher].
  split; [|split; [|split]].
  3: { intros user Hu. by apply non_admins_roles. }
  3: by destruct (talks_broadcast_body cl u s) as (? & _).
  all: unfold htry, hbind at 1; rewrite decide_False by done;
    unfold hret at 1; cbv beta iota;
    destruct (non_admins (users s)) as [|user rest] eqn:Hrec.
  - unfold api, reply_or_report. simpl. rewrite Nat.add_0_r.
    destruct (telegram cl (length (api_calls s)) (ReplyText NoRecipientsText));
      simpl; by rewrite <- ?app_assoc.
  - unfold hbind.
    destruct (broadcast_loop cl (str_strip cl (message_text u))
                (user :: rest) s) as (Hret & Hcalls & _).
    destruct (hfor_each (user :: rest)
                (broadcast_to cl (str_strip cl (message_text u))) s)
      as [r s1]. cbn [fst snd] in Hret, Hcalls. subst r.
    unfold api, reply_or_report. rewrite Hcalls.
    rewrite length_app, length_fmap.
    destruct (telegram cl (length (api_calls s) + length (user :: rest))
                (ReplyText BroadcastSentText)); cbn [fst snd api_calls];
      by rewrite <- ?app_assoc.
  - unfold api. simpl. rewrite app_nil_r.
    by destruct (telegram cl (length (api_calls s))
                   (ReplyText NoRecipientsText)).
  - unfold hbind.
    destruct (broadcast_loop cl (str_strip cl (message_text u))
                (user :: rest) s) as (Hret & _ & Herrors & _).
    destruct (hfor_each (user :: rest)
                (broadcast_to cl (str_strip cl (message_text u))) s)
      as [r s1]. simpl in Hret, Herrors. subst r.
    unfold api.
    by destruct (telegram cl (length (api_calls s1))
                   (ReplyText BroadcastSentText)).
Qed.

Lemma broadcast_reaches_non_admins_witness :
  is_admin (users (office {[ "1" := "broadcast" ]}))
    (effective_chat (text_from "1" "hello")) = true
  /\ user_data (office {[ "1" := "broadcast" ]})
       !! effective_user (text_from "1" "hello") = Some "broadcast"
  /\ str_strip shaky_desk (message_text (text_from "1" "hello")) ≠ ""
  /\ NoDup (users (office {[ "1" := "broadcast" ]})).*1
  /\ api_calls
       (text_handler shaky_desk (text_from "1" "hello")
          (office {[ "1" := "broadcast" ]})).2
     = [SendMessage "2" "hello"; SendMessage "3" "hello";
        ReplyText BroadcastSentText]
  /\ broadcast_errors
       (text_handler shaky_desk (text_from "1" "hello")
          (office {[ "1" := "broadcast" ]})).2
     = [("2", TelegramError)].
Proof.
  assert (Ha : is_admin (users (office {[ "1" := "broadcast" ]}))
                 (effective_chat (text_from "1" "hello")) = true)
    by (vm_compute; reflexivity).
  assert (Hawait : user_data (office {[ "1" := "broadcast" ]})
                     !! effective_user (text_from "1" "hello")
                   = Some "broadcast") by (vm_compute; reflexivity).
  assert (Hmessage : str_strip shaky_desk
                       (message_text (text_from "1" "hello")) ≠ "")
    by (simpl; done).
  assert (Hunique : NoDup (users (office {[ "1" := "broadcast" ]})).*1)
    by (apply (bool_decide_unpack _); vm_compute; reflexivity).
  split; [exact Ha|]. split; [exact Hawait|]. split; [exact Hmessage|].
  split; [exact Hunique|].
  destruct (broadcast_reaches_non_admins shaky_desk (text_from "1" "hello")
              (office {[ "1" := "broadcast" ]}) Ha Hawait Hmessage Hunique)
    as (Hcalls & Herrors & _).
  split; [exact Hcalls | exact Herrors].
Defined.

(** X23: A button pressed by an admin touches neither the watcher nor the users.
    The five requests for an input make the handler await exactly that
    input, and only once the prompt is out: when the answer to the query or
    the prompt fails, nothing is awaited that was not before. The other
    buttons await nothing. *)
Theorem button_handler_requests cl q s :
  is_admin (users s) (from_user q) = true ->
  let r := button_handler cl q s in
  watcher r.2 = watcher s /\ users r.2 = users s
  /\ user_data r.2
     = match r.1 with
       | Return _ =>
           if decide (data q ∈ awaited_inputs)
           then <[from_user q := data q]> (user_data s)
           else user_data s
       | Raise _ => user_data s
       end.
Proof.
  intros Ha. cbv zeta. unfold button_handler, hbind, list_coins, api.
  destruct (telegram cl (length (api_calls s)) Answer) as [e|]; [done|].
  cbn [users]. rewrite Ha. cbn [negb api_calls].
  assert (Hin : forall b, b ∈ awaited_inputs -> data q = b ->
            (if decide (data q ∈ awaited_inputs)
             then <[from_user q := data q]> (user_data s) else user_data s)
            = <[from_user q := b]> (user_data s)).
  { intros b Hb Hd. rewrite decide_True; by rewrite Hd. }
  assert (Hout : data q ∉ awaited_inputs ->
            (if decide (data q ∈ awaited_inputs)
             then <[from_user q := data q]> (user_data s) else user_data s)
            = user_data s).
  { intros Hd. by rewrite decide_False. }
  assert (Hmembers : forall b, b ∈ awaited_inputs <->
            b = "add_coin" \/ b = "remove_coin" \/ b = "set_run_threshold"
            \/ b = "set_run_periods" \/ b = "broadcast").
  { intros b. unfold awaited_inputs. rewrite !elem_of_cons, elem_of_nil.
    tauto. }
  destruct (decide (data q = "add_coin")) as [Hd|Hn1].
  { destruct (telegram cl _ _); cbn; [done|].
    rewrite (Hin "add_coin"); [done| |done]. apply Hmembers. tauto. }
  destruct (decide (data q = "remove_coin")) as [Hd|Hn2].
  { destruct (telegram cl _ _); cbn; [done|].
    rewrite (Hin "remove_coin"); [done| |done]. apply Hmembers. tauto. }
  destruct (decide (data q = "list_coins")) as [Hd|Hn3].
  { rewrite Hout by (rewrite Hmembers, Hd; intros [|[|[|[|]]]]; done).
    by destruct (telegram cl _ _). }
  destruct (decide (data q = "config_run")) as [Hd|Hn4].
  { rewrite Hout by (rewrite Hmembers, Hd; intros [|[|[|[|]]]]; done).
    by destruct (telegram cl _ _). }
  destruct (decide (data q = "set_run_threshold")) as [Hd|Hn5].
  { destruct (telegram cl _ _); cbn; [done|].
    rewrite (Hin "set_run_threshold"); [done| |done]. apply Hmembers. tauto. }
  destruct (decide (data q = "set_run_periods")) as [Hd|Hn6].
  { destruct (telegram cl _ _); cbn; [done|].
    rewrite (Hin "set_run_periods"); [done| |done]. apply Hmembers. tauto. }
  destruct (decide (data q = "main_menu")) as [Hd|Hn7].
  { rewrite Hout by (rewrite Hmembers, Hd; intros [|[|[|[|]]]]; done).
    by destruct (telegram cl _ _). }
  destruct (decide (data q = "broadcast")) as [Hd|Hn8].
  { destruct (telegram cl _ _); cbn; [done|].
    rewrite (Hin "broadcast"); [done| |done]. apply Hmembers. tauto. }
  cbn. rewrite Hout; [done|]. rewrite Hmembers. tauto.
Qed.

Lemma button_handler_requests_witness :
  is_admin (users (office ∅))
    (from_user {| from_user := "1"; data := "remove_coin" |}) = true
  /\ user_data
       (button_handler desk {| from_user := "1"; data := "remove_coin" |}
          (office ∅)).2
     = {[ "1" := "remove_coin" ]}
  /\ user_data
       (button_handler shaky_desk {| from_user := "1"; data := "remove_coin" |}
          (office ∅)).2
     = ∅.
Proof.
  assert (Ha : is_admin (users (office ∅))
                 (from_user {| from_user := "1"; data := "remove_coin" |})
               = true) by (vm_compute; reflexivity).
  split; [exact Ha|]. split.
  - destruct (button_handler_requests desk
                {| from_user := "1"; data := "remove_coin" |} (office ∅) Ha)
      as (_ & _ & Hd).
    rewrite Hd. vm_compute. reflexivity.
  - vm_compute. reflexivity.
Defined.
